(** * VisualEditor data model: node capability registry and element linear data

    A shallow embedding of [ve.dm.NodeFactory] and of the offset, annotation,
    sanitisation and content queries of [ve.dm.ElementLinearData], together
    with the properties of them that the specification states.

    JavaScript exceptions are kept explicit: every method that can raise
    returns a [result]. *)

From Stdlib Require Import ZArith String List Ascii Bool Lia.
From stdpp Require Import base option list strings gmap.

Local Open Scope string_scope.
Local Open Scope list_scope.
Local Open Scope Z_scope.

(** ** Exceptions *)

Inductive Error : Type :=
| UnknownNodeType (type : string)   (* new Error( 'Unknown node type: ' + type ) *)
| OutOfBounds (offset : Z)          (* new Error( 'offset ' + offset + ' out of bounds' ) *)
| TypeError                         (* property access on, or [instanceof], undefined *)
| LookupError (index : nat)         (* store index not found *)
| OutOfFuel.                        (* not a JavaScript exception: the bound of a modelled loop ran out *)

Inductive result (A : Type) : Type :=
| Ok (a : A)
| Throw (e : Error).

Arguments Ok {A} a.
Arguments Throw {A} e.

#[global] Instance result_bind : MBind result := fun A B k r =>
  match r with
  | Ok a => k a
  | Throw e => Throw e
  end.

#[global] Instance result_ret : MRet result := fun A a => Ok a.

Definition is_ok {A : Type} (r : result A) : Prop := exists a, r = Ok a.

Declare Scope js_scope.
Delimit Scope js_scope with js.
(** [a &&& b] and [a ||| b] are JavaScript's short-circuit operators on
    operands that may raise: the right operand is evaluated only when the left
    one does not decide the result. *)
Notation "a &&& b" := (mbind (fun x : bool => if x then b else Ok false) a)
  (at level 40, left associativity) : js_scope.
Notation "a ||| b" := (mbind (fun x : bool => if x then Ok true else b) a)
  (at level 50, left associativity) : js_scope.
Local Open Scope js_scope.

Definition notR (r : result bool) : result bool := b ← r; Ok (negb b).

(** ** Values *)

(** Attribute and metadata values ("Mixed" in the source documentation). *)
Inductive Mixed : Type :=
| JNull
| JBool (b : bool)
| JNum (n : Z)
| JStr (s : string).

Definition truthy (v : Mixed) : bool :=
  match v with
  | JNull => false
  | JBool b => b
  | JNum n => negb (n =? 0)
  | JStr s => negb (String.eqb s "")
  end.

(** ** ve.dm.NodeFactory *)

(** The static members of a registered node class that the factory reads.
    [None] in the three type lists is JavaScript's [null] (any type). *)
Record NodeClass : Type := mkNodeClass {
  childNodeTypes : option (list string);
  parentNodeTypes : option (list string);
  suggestedParentNodeTypes : option (list string);
  canContainContent : bool;
  isContent : bool;
  isWrapped : bool;
  isUnwrappable : bool;
  isFocusable : bool;
  hasSignificantWhitespace : bool;
  handlesOwnChildren : bool;
  ignoreChildren : bool;
  isInternal : bool;
  isDeletable : bool;
  blacklistedAnnotationTypes : list string;
  defaultAttributes : gmap string Mixed
}.

(** [this.registry]: node classes by type name. *)
Abbreviation NodeFactory := (gmap string NodeClass).

(** Every accessor has the shape
    [if ( hasOwnProperty( registry, type ) ) { return ...; } throw new Error( ... );] *)
Definition registered {A : Type} (nf : NodeFactory) (type : string)
    (k : NodeClass -> result A) : result A :=
  match nf !! type with
  | Some c => k c
  | None => Throw (UnknownNodeType type)
  end.

Definition getChildNodeTypes (nf : NodeFactory) (type : string) : result (option (list string)) :=
  registered nf type (fun c => Ok (childNodeTypes c)).

Definition getParentNodeTypes (nf : NodeFactory) (type : string) : result (option (list string)) :=
  registered nf type (fun c => Ok (parentNodeTypes c)).

Definition getSuggestedParentNodeTypes (nf : NodeFactory) (type : string)
    : result (option (list string)) :=
  registered nf type (fun c => Ok (suggestedParentNodeTypes c)).

Definition canNodeHaveChildren (nf : NodeFactory) (type : string) : result bool :=
  registered nf type (fun c =>
    let types := childNodeTypes c in
    Ok (match types with
        | None => true
        | Some l => (0 <? Z.of_nat (length l))
        end)).

Definition canNodeHaveChildrenNotContent (nf : NodeFactory) (type : string) : result bool :=
  registered nf type (fun c =>
    canNodeHaveChildren nf type &&& Ok (negb (canContainContent c)) &&& Ok (negb (isContent c))).

Definition isNodeWrapped (nf : NodeFactory) (type : string) : result bool :=
  registered nf type (fun c => Ok (isWrapped c)).

Definition isNodeUnwrappable (nf : NodeFactory) (type : string) : result bool :=
  registered nf type (fun c => isNodeWrapped nf type &&& Ok (isUnwrappable c)).

Definition canNodeContainContent (nf : NodeFactory) (type : string) : result bool :=
  registered nf type (fun c => Ok (canContainContent c)).

Definition isNodeContent (nf : NodeFactory) (type : string) : result bool :=
  registered nf type (fun c => Ok (isContent c)).

Definition isNodeFocusable (nf : NodeFactory) (type : string) : result bool :=
  registered nf type (fun c => Ok (isFocusable c)).

Definition doesNodeHaveSignificantWhitespace (nf : NodeFactory) (type : string) : result bool :=
  registered nf type (fun c => Ok (hasSignificantWhitespace c)).

Definition doesNodeHandleOwnChildren (nf : NodeFactory) (type : string) : result bool :=
  registered nf type (fun c => Ok (handlesOwnChildren c)).

Definition shouldIgnoreChildren (nf : NodeFactory) (type : string) : result bool :=
  registered nf type (fun c => Ok (ignoreChildren c)).

Definition isNodeInternal (nf : NodeFactory) (type : string) : result bool :=
  registered nf type (fun c => Ok (isInternal c)).

Definition isNodeDeletable (nf : NodeFactory) (type : string) : result bool :=
  registered nf type (fun c => Ok (isDeletable c)).

Section AnnotationTypes.
(** [ve.dm.annotationFactory.lookup] and [instanceof] belong to the annotation
    classes, which the factory only refers to. The lookup gives the class
    registered under a name and [undefined], here [None], for a name that is
    not registered; [instanceOf] tells whether an annotation is an instance of
    a class. [annotation instanceof undefined] raises a TypeError. *)
Context {AnnotationValue AnnotationClass : Type}.
Variable annotationFactory_lookup : string -> option AnnotationClass.
Variable instanceOf : AnnotationValue -> AnnotationClass -> bool.

(** The [for] loop over the blacklist. *)
Fixpoint canNodeTakeAnnotationType_loop (blacklist : list string)
    (annotation : AnnotationValue) : result bool :=
  match blacklist with
  | [] => Ok true
  | name :: rest =>
      match annotationFactory_lookup name with
      | None => Throw TypeError
      | Some class =>
          if instanceOf annotation class then Ok false
          else canNodeTakeAnnotationType_loop rest annotation
      end
  end.

Definition canNodeTakeAnnotationType (nf : NodeFactory) (type : string)
    (annotation : AnnotationValue) : result bool :=
  match nf !! type with
  | None => Throw (UnknownNodeType type)
  | Some c => canNodeTakeAnnotationType_loop (blacklistedAnnotationTypes c) annotation
  end.

End AnnotationTypes.

(** ** Linear data *)

(** A structural element record. An opening element has type [t], the
    closing marker of the same node has type ["/" ++ t]. *)
Record Element : Type := mkElement {
  type : string;
  attributes : option (gmap string Mixed);
  annotations : option (list nat);
  internal : option (gmap string Mixed);
  originalDomElementsIndex : option nat
}.

(** One slot of the linear data: a bare character, a
    [[character, annotationIndexes]] pair, or an element. *)
Inductive Item : Type :=
| Character (c : string)
| AnnotatedCharacter (c : string) (indexes : list nat)
| ElementItem (e : Element).

Abbreviation LinearData := (list Item).

#[global] Instance Mixed_eq_dec : EqDecision Mixed.
Proof. solve_decision. Defined.
#[global] Instance Element_eq_dec : EqDecision Element.
Proof. solve_decision. Defined.
#[global] Instance Item_eq_dec : EqDecision Item.
Proof. solve_decision. Defined.

Definition element (t : string) : Element :=
  {| type := t; attributes := None; annotations := None; internal := None;
     originalDomElementsIndex := None |}.

(** [ve.dm.NodeFactory.prototype.getDataElement]; [attributes] is [None]
    where the argument is left out. The given attributes go before the
    defaults of the class. *)
Definition getDataElement (nf : NodeFactory) (type_ : string)
    (attributes_ : option (gmap string Mixed)) : result Element :=
  match nf !! type_ with
  | Some c =>
      let merged := default ∅ attributes_ ∪ defaultAttributes c in
      Ok {| type := type_;
            attributes := if bool_decide (merged = ∅) then None else Some merged;
            annotations := None; internal := None; originalDomElementsIndex := None |}
  | None => Throw (UnknownNodeType type_)
  end.

(** *** String primitives *)

(** [s.charAt( 0 ) === '/'] *)
Definition startsWithSlash (s : string) : bool :=
  match s with
  | String c _ => Ascii.eqb c "/"%char
  | EmptyString => false
  end.

(** [s.slice( 1 )], the same as [s.substr( 1 )] *)
Definition slice1 (s : string) : string :=
  match s with
  | String _ rest => rest
  | EmptyString => EmptyString
  end.

(** [typeof item === 'string'] *)
Definition isString (item : Item) : bool :=
  match item with Character _ => true | _ => false end.

(** [Array.isArray( item )] *)
Definition isArray (item : Item) : bool :=
  match item with AnnotatedCharacter _ _ => true | _ => false end.

(** [item.type]: strings and arrays have no such property. *)
Definition itemType (item : Item) : option string :=
  match item with ElementItem e => Some (type e) | _ => None end.

(** A property key or string operand made from a possibly undefined value. *)
Definition toKey (t : option string) : string := default "undefined" t.

(** *** ve.dm.LinearData and ve.dm.FlatLinearData *)

(** Modelled from the spec: [ve.dm.LinearData.prototype.getData( offset )] is
    not among the sources; it is the item stored at the offset, [undefined]
    where there is none. *)
Definition getData (d : LinearData) (offset : Z) : option Item :=
  if offset <? 0 then None else d !! Z.to_nat offset.

(** Modelled from the spec: [getLength()], the number of items. *)
Definition getLength (d : LinearData) : Z := Z.of_nat (length d).

(** Modelled from the spec: [setData( offset, value )] stores the value at the
    offset. The data model has no empty slots, so only assignments to an
    existing slot or to the slot right after the last one are represented;
    any other assignment leaves the list as it is. *)
Definition setData (d : LinearData) (offset : Z) (value : Item) : LinearData :=
  if offset <? 0 then d
  else if offset =? getLength d then d ++ [value]
  else <[Z.to_nat offset := value]> d.

(** Modelled from the spec: [splice( index, howmany, ...items )] for an index
    within the data. *)
Definition splice (d : LinearData) (index howmany : Z) (items : list Item) : LinearData :=
  take (Z.to_nat index) d ++ items ++ drop (Z.to_nat index + Z.to_nat howmany)%nat d.

(** Modelled from the spec: [isElementData( offset )], data exists at the
    offset and has a string [type]. *)
Definition isElementData (d : LinearData) (offset : Z) : bool :=
  match getData d offset with
  | Some (ElementItem _) => true
  | _ => false
  end.

(** Modelled from the spec: [isOpenElementData( offset )]. *)
Definition isOpenElementData (d : LinearData) (offset : Z) : bool :=
  match getData d offset with
  | Some (ElementItem e) => negb (startsWithSlash (type e))
  | _ => false
  end.

(** Modelled from the spec: [isCloseElementData( offset )]. *)
Definition isCloseElementData (d : LinearData) (offset : Z) : bool :=
  match getData d offset with
  | Some (ElementItem e) => startsWithSlash (type e)
  | _ => false
  end.

(** Modelled from the spec: [getType( offset )] is
    [isCloseElementData( offset ) ? item.type.substr( 1 ) : item.type]; it
    raises a TypeError where there is no item and is [undefined] on
    characters. *)
Definition getType (d : LinearData) (offset : Z) : result (option string) :=
  match getData d offset with
  | None => Throw TypeError
  | Some item =>
      if isCloseElementData d offset then Ok (slice1 <$> itemType item)
      else Ok (itemType item)
  end.

(** The element stored at an offset is a shared object that the methods below
    change in place; [modifyElement] is that change seen on the list. *)
Definition modifyElement (d : LinearData) (offset : Z) (f : Element -> Element) : LinearData :=
  match getData d offset with
  | Some (ElementItem e) => <[Z.to_nat offset := ElementItem (f e)]> d
  | _ => d
  end.

(** ** ve.dm.ElementLinearData *)

Definition isContentOffset (nf : NodeFactory) (d : LinearData) (offset : Z) : result bool :=
  (* Edges are never content *)
  if (offset =? 0) || (offset =? getLength d) then Ok false
  else
    let leftItem := getData d (offset - 1) in
    let rightItem := getData d offset in
    match leftItem, rightItem with
    | Some left_, Some right_ =>
        Ok (isString left_ || isString right_) |||
        Ok (isArray left_ || isArray right_) |||
        ((* Right of a leaf *)
         (Ok (bool_decide (is_Some (itemType left_))) &&&
          Ok (startsWithSlash (toKey (itemType left_))) &&&
          isNodeContent nf (slice1 (toKey (itemType left_)))) |||
         (* Left of a leaf *)
         (Ok (bool_decide (is_Some (itemType right_))) &&&
          Ok (negb (startsWithSlash (toKey (itemType right_)))) &&&
          isNodeContent nf (toKey (itemType right_))) |||
         (* Inside empty content branch *)
         (Ok (bool_decide (Some ("/" +:+ toKey (itemType left_)) = itemType right_)) &&&
          canNodeContainContent nf (toKey (itemType left_))))
    | _, _ => Ok false
    end.

(** [x === null] on a type list *)
Definition isNull {A : Type} (x : option A) : bool :=
  match x with None => true | Some _ => false end.

Definition isStructuralOffset (nf : NodeFactory) (d : LinearData) (offset : Z)
    (unrestricted : bool) : result bool :=
  (* Edges are always structural *)
  if (offset =? 0) || (offset =? getLength d) then Ok true
  else
    let leftItem := getData d (offset - 1) in
    let rightItem := getData d offset in
    match leftItem, rightItem with
    | Some left_, Some right_ =>
        match itemType left_, itemType right_ with
        | Some ltype, Some rtype =>
            (* Right of a branch *)
            (Ok (startsWithSlash ltype) &&&
             (canNodeHaveChildren nf (slice1 ltype) |||
              notR (isNodeContent nf (slice1 ltype))) &&&
             (Ok (negb unrestricted) |||
              (t ← getParentNodeTypes nf (slice1 ltype); Ok (isNull t)))) |||
            (* Left of a branch *)
            (Ok (negb (startsWithSlash rtype)) &&&
             (canNodeHaveChildren nf rtype ||| notR (isNodeContent nf rtype)) &&&
             (Ok (negb unrestricted) |||
              (t ← getParentNodeTypes nf rtype; Ok (isNull t)))) |||
            (* Inside empty non-content branch *)
            (Ok (bool_decide ("/" +:+ ltype = rtype)) &&&
             canNodeHaveChildrenNotContent nf ltype &&&
             (Ok (negb unrestricted) |||
              (t ← getChildNodeTypes nf ltype; Ok (isNull t))))
        | _, _ => Ok false
        end
    | _, _ => Ok false
    end.

(** [getCharacterData( offset )] *)
Definition getCharacterData (d : LinearData) (offset : Z) : string :=
  match getData d offset with
  | Some (AnnotatedCharacter c _) => c
  | Some (Character c) => c
  | _ => ""
  end.

Definition setAnnotationIndexesAtOffset (d : LinearData) (offset : Z) (indexes : list nat)
    : LinearData :=
  let isElement := isElementData d offset in
  if (0 <? Z.of_nat (length indexes)) then
    if isElement then
      (* New element annotation *)
      modifyElement d offset (fun item =>
        {| type := type item; attributes := attributes item; annotations := Some indexes;
           internal := internal item;
           originalDomElementsIndex := originalDomElementsIndex item |})
    else
      (* New character annotation *)
      let character := getCharacterData d offset in
      setData d offset (AnnotatedCharacter character indexes)
  else
    if isElement then
      (* Cleanup empty element annotation *)
      modifyElement d offset (fun item =>
        {| type := type item; attributes := attributes item; annotations := None;
           internal := internal item;
           originalDomElementsIndex := originalDomElementsIndex item |})
    else
      (* Cleanup empty character annotation *)
      let character := getCharacterData d offset in
      setData d offset (Character character).

(** [object[ key ] = value] on an ordinary object, seen as the map of its own
    properties. Under every key but [__proto__] the value becomes an own
    property. Under [__proto__] an ordinary object inherits an accessor from
    [Object.prototype]: unless the object has an own property of that name (an
    object read by [JSON.parse] can have one), the assignment calls the setter
    of the accessor, which stores no property. (For the value [null] the
    setter changes what the object inherits; the map of own properties does
    not record that.) *)
Definition assignProperty (object : gmap string Mixed) (key : string) (value : Mixed)
    : gmap string Mixed :=
  if String.eqb key "__proto__" then
    match object !! key with
    | Some _ => <[key := value]> object
    | None => object
    end
  else <[key := value]> object.

(** [value] is [None] for [undefined]. *)
Definition setAttributeAtOffset (d : LinearData) (offset : Z) (key : string)
    (value : option Mixed) : LinearData :=
  if negb (isElementData d offset) then d
  else
    match value with
    | None =>
        (* Clear *)
        modifyElement d offset (fun item =>
          match attributes item with
          | Some attrs =>
              {| type := type item; attributes := Some (delete key attrs);
                 annotations := annotations item; internal := internal item;
                 originalDomElementsIndex := originalDomElementsIndex item |}
          | None => item
          end)
    | Some v =>
        (* Automatically initialize attributes object, then set *)
        modifyElement d offset (fun item =>
          {| type := type item;
             attributes := Some (assignProperty (default ∅ (attributes item)) key v);
             annotations := annotations item; internal := internal item;
             originalDomElementsIndex := originalDomElementsIndex item |})
    end.

(** *** Relative offsets *)

(** The local variables of [getRelativeOffset] that its [while] loop changes. *)
Record RelativeOffsetState : Type := mkRelativeOffsetState {
  rs_i : Z;
  rs_direction : Z;
  rs_distance : Z;
  rs_steps : Z;
  rs_offset : Z;
  rs_turnedAround : bool;
  rs_ignoreChildrenDepth : Z
}.

(** What one pass through a loop body does: go round again, or [return]. *)
Inductive LoopStep (S R : Type) : Type :=
| Continue (s : S)
| Return (r : R).

Arguments Continue {S R} s.
Arguments Return {S R} r.

Section RelativeOffset.
Variable nf : NodeFactory.
Variable d : LinearData.
(** The offset the search starts from, and the validity test with its extra
    arguments already applied. *)
Variable start : Z.
Variable callback : Z -> result bool.

(** The ignoreChildren bookkeeping at the head of the loop body: the new
    depth, or [None] where the body returns -1. *)
Definition ignoreChildrenStep (direction dataOffset ignoreChildrenDepth : Z)
    : result (option Z) :=
  ignored ← (Ok (isElementData d dataOffset) &&&
             (t ← getType d dataOffset; shouldIgnoreChildren nf (toKey t)));
  if ignored : bool then
    let isOpen := isOpenElementData d dataOffset in
    (* We have entered a node if we step right over an open, or left over a close *)
    if ((0 <? direction) && isOpen) || ((direction <? 0) && negb isOpen)
    then Ok (Some (ignoreChildrenDepth + 1))
    else if ignoreChildrenDepth - 1 <? 0 then Ok None
    else Ok (Some (ignoreChildrenDepth - 1))
  else Ok (Some ignoreChildrenDepth).

(** The condition under which the search turns around. *)
Definition aboutToReachEdge (st : RelativeOffsetState) : result bool :=
  let i := rs_i st in
  let direction := rs_direction st in
  (* Don't keep turning around over and over *)
  Ok (negb (rs_turnedAround st)) &&&
  (* Only turn around if not a single step could be taken *)
  Ok (rs_steps st =? 0) &&&
  (* Only turn around if we're about to reach the edge *)
  (Ok ((direction <? 0) && (i =? 0)) |||
   (Ok (0 <? direction) &&&
    (Ok (i =? getLength d) |||
     (t ← getType d (i - 1); Ok (bool_decide (t = Some "internalList")))))).

Definition getRelativeOffset_body (st : RelativeOffsetState)
    : result (LoopStep RelativeOffsetState Z) :=
  let i := rs_i st in
  let direction := rs_direction st in
  let dataOffset := i + (if 0 <? direction then -1 else 0) in
  depth ← ignoreChildrenStep direction dataOffset (rs_ignoreChildrenDepth st);
  match depth with
  | None => Ok (Return (-1))
  | Some ignoreChildrenDepth =>
      valid ← callback i;
      if valid : bool then
        if ignoreChildrenDepth =? 0 then
          let steps := rs_steps st + 1 in
          if rs_distance st =? steps then Ok (Return i)
          else Ok (Continue
            {| rs_i := i + direction; rs_direction := direction;
               rs_distance := rs_distance st; rs_steps := steps; rs_offset := i;
               rs_turnedAround := rs_turnedAround st;
               rs_ignoreChildrenDepth := ignoreChildrenDepth |})
        else Ok (Continue
          {| rs_i := i + direction; rs_direction := direction;
             rs_distance := rs_distance st; rs_steps := rs_steps st;
             rs_offset := rs_offset st; rs_turnedAround := rs_turnedAround st;
             rs_ignoreChildrenDepth := ignoreChildrenDepth |})
      else
        turn ← aboutToReachEdge st;
        if turn : bool then
          (* Before we turn around, let's see if we are at a valid position *)
          stay ← callback start;
          if stay : bool then Ok (Return start)
          else
            (* Start over going in the opposite direction *)
            let direction := direction * -1 in
            Ok (Continue
              {| rs_i := start + direction; rs_direction := direction;
                 rs_distance := 1; rs_steps := rs_steps st; rs_offset := rs_offset st;
                 rs_turnedAround := true; rs_ignoreChildrenDepth := 0 |})
        else Ok (Continue
          {| rs_i := i + direction; rs_direction := direction;
             rs_distance := rs_distance st; rs_steps := rs_steps st;
             rs_offset := rs_offset st; rs_turnedAround := rs_turnedAround st;
             rs_ignoreChildrenDepth := ignoreChildrenDepth |})
  end.

(** [while ( i >= 0 && i <= this.getLength() ) { ... } return offset;] *)
Fixpoint getRelativeOffset_loop (fuel : nat) (st : RelativeOffsetState) : result Z :=
  match fuel with
  | O => Throw OutOfFuel
  | S fuel =>
      if (0 <=? rs_i st) && (rs_i st <=? getLength d) then
        step ← getRelativeOffset_body st;
        match step with
        | Return r => Ok r
        | Continue st' => getRelativeOffset_loop fuel st'
        end
      else Ok (rs_offset st)
  end.

(** The loop walks to one edge and, after turning around, to the other. *)
Definition getRelativeOffset_fuel : nat := (2 * length d + 3)%nat.

(** [getRelativeOffset( start, distance, callback, ...args )] *)
Definition getRelativeOffset (distance : Z) : result Z :=
  adjusted ← (if distance =? 0 then
                valid ← callback start;
                if valid : bool then Ok (Return start) else Ok (Continue 1)
              else Ok (Continue distance));
  match adjusted with
  | Return r => Ok r
  | Continue distance =>
      let direction :=
        if start <=? 0 then 1
        else if start >=? getLength d then -1
        else if distance >? 0 then 1 else -1 in
      let distance := Z.abs distance in
      getRelativeOffset_loop getRelativeOffset_fuel
        {| rs_i := start + direction; rs_direction := direction;
           rs_distance := distance; rs_steps := 0; rs_offset := -1;
           rs_turnedAround := false; rs_ignoreChildrenDepth := 0 |}
  end.

End RelativeOffset.

Definition getRelativeContentOffset (nf : NodeFactory) (d : LinearData)
    (offset distance : Z) : result Z :=
  getRelativeOffset nf d offset (isContentOffset nf d) distance.

(** [direction] is [None] where the argument is left out. *)
Definition getNearestContentOffset (nf : NodeFactory) (d : LinearData)
    (offset : Z) (direction : option Z) : result Z :=
  valid ← isContentOffset nf d offset;
  if valid : bool then Ok offset
  else
    match direction with
    | None =>
        left_ ← getRelativeContentOffset nf d offset (-1);
        right_ ← getRelativeContentOffset nf d offset 1;
        Ok (if offset - left_ <? right_ - offset then left_ else right_)
    | Some direction =>
        getRelativeContentOffset nf d offset (if direction >? 0 then 1 else -1)
    end.

Definition getRelativeStructuralOffset (nf : NodeFactory) (d : LinearData)
    (offset distance : Z) (unrestricted : bool) : result Z :=
  (* Optimization: start and end are always unrestricted structural offsets *)
  if (distance =? 0) && ((offset =? 0) || (offset =? getLength d)) then Ok offset
  else
    getRelativeOffset nf d offset (fun o => isStructuralOffset nf d o unrestricted) distance.

(** [!direction] holds for a direction that is left out and for 0. *)
Definition getNearestStructuralOffset (nf : NodeFactory) (d : LinearData)
    (offset : Z) (direction : option Z) (unrestricted : bool) : result Z :=
  valid ← isStructuralOffset nf d offset unrestricted;
  if valid : bool then Ok offset
  else
    if negb (match direction with None => false | Some n => negb (n =? 0) end) then
      left_ ← getRelativeStructuralOffset nf d offset (-1) unrestricted;
      right_ ← getRelativeStructuralOffset nf d offset 1 unrestricted;
      Ok (if offset - left_ <? right_ - offset then left_ else right_)
    else
      getRelativeStructuralOffset nf d offset
        (if default 0 direction >? 0 then 1 else -1) unrestricted.

(** *** Annotations at an offset *)

Definition getAnnotationIndexesFromOffset (nf : NodeFactory) (d : LinearData)
    (offset : Z) (ignoreClose : bool) : result (list nat) :=
  if (offset <? 0) || (offset >? getLength d) then Throw (OutOfBounds offset)
  else
    (* Since annotations are not stored on a closing leaf node,
       rewind offset by 1 to return annotations for that structure *)
    rewind ← (Ok (negb ignoreClose) &&&
              Ok (isCloseElementData d offset) &&&
              notR (t ← getType d offset; canNodeHaveChildren nf (toKey t)));
    offset ← (if rewind : bool then getRelativeContentOffset nf d offset (-1)
              else Ok offset);
    match getData d offset with
    | None => Ok []
    | Some (Character _) => Ok []
    | Some (ElementItem e) =>
        match annotations e with
        | Some indexes => Ok indexes
        | None => Ok []
        end
    | Some (AnnotatedCharacter _ indexes) => Ok indexes
    end.

(** *** Index-value store and annotation sets *)

(** An annotation as the store holds it: the name of its class and the
    element it was made from. *)
Record Annotation : Type := mkAnnotation {
  name : string;
  annotationElement : Element
}.

#[global] Instance Annotation_eq_dec : EqDecision Annotation.
Proof. solve_decision. Defined.

(** Modelled from the spec: [ve.dm.IndexValueStore] is not among the sources.
    Values are addressed by integer index; only the annotations in it are
    represented. *)
Abbreviation IndexValueStore := (list Annotation).

(** Modelled from the spec: [value( index )] fails with a lookup error for an
    unknown index. *)
Definition store_value (store : IndexValueStore) (index : nat) : result Annotation :=
  match store !! index with
  | Some a => Ok a
  | None => Throw (LookupError index)
  end.

(** Modelled from the spec: [index( value )] is insert-or-find, values being
    compared structurally. *)
Definition store_index (store : IndexValueStore) (value : Annotation) : IndexValueStore * nat :=
  match list_find (fun v => v = value) store with
  | Some (i, _) => (store, i)
  | None => (store ++ [value], length store)
  end.

(** Modelled from the spec: [indexes( values )] is the batch form of [index]. *)
Fixpoint store_indexes (store : IndexValueStore) (values : list Annotation)
    : IndexValueStore * list nat :=
  match values with
  | [] => (store, [])
  | v :: rest =>
      let '(store, i) := store_index store v in
      let '(store, others) := store_indexes store rest in
      (store, i :: others)
  end.

(** Modelled from the spec: a [ve.dm.AnnotationSet] is an ordered list of
    store indexes; the store it reads from is the one of the linear data. *)
Abbreviation AnnotationSet := (list nat).

(** [set.get()]: the annotations of the set. *)
Fixpoint annotationSet_get (store : IndexValueStore) (set : AnnotationSet)
    : result (list Annotation) :=
  match set with
  | [] => Ok []
  | i :: rest =>
      a ← store_value store i;
      others ← annotationSet_get store rest;
      Ok (a :: others)
  end.

(** [set.isEmpty()] *)
Definition annotationSet_isEmpty (set : AnnotationSet) : bool :=
  match set with [] => true | _ => false end.

(** [left.addSet( right )]: the union, in order of first occurrence. *)
Fixpoint simpleArrayUnion (seen : list nat) (l : list nat) : list nat :=
  match l with
  | [] => []
  | x :: rest =>
      if bool_decide (x ∈ seen) then simpleArrayUnion seen rest
      else x :: simpleArrayUnion (x :: seen) rest
  end.

Definition annotationSet_addSet (set other : AnnotationSet) : AnnotationSet :=
  simpleArrayUnion [] (set ++ other).

(** [set.removeSet( other )] *)
Definition annotationSet_removeSet (set other : AnnotationSet) : AnnotationSet :=
  filter (fun i => i ∉ other) set.

(** [set.filter( callback )] *)
Fixpoint annotationSet_filter (store : IndexValueStore) (callback : Annotation -> bool)
    (set : AnnotationSet) : result AnnotationSet :=
  match set with
  | [] => Ok []
  | i :: rest =>
      a ← store_value store i;
      others ← annotationSet_filter store callback rest;
      Ok (if callback a then i :: others else others)
  end.

Definition setAnnotationsAtOffset (store : IndexValueStore) (d : LinearData) (offset : Z)
    (annotations : AnnotationSet) : result (IndexValueStore * LinearData) :=
  values ← annotationSet_get store annotations;
  let '(store, indexes) := store_indexes store values in
  Ok (store, setAnnotationIndexesAtOffset d offset indexes).

(** [ve.Range]: [start] and [end] are the smaller and the larger of the two
    offsets. *)
Record Range : Type := mkRange { from : Z; to : Z }.
Definition range_start (r : Range) : Z := Z.min (from r) (to r).
Definition range_end (r : Range) : Z := Z.max (from r) (to r).
Definition range_getLength (r : Range) : Z := range_end r - range_start r.

Section AnnotationsFromRange.
Variable nf : NodeFactory.
Variable d : LinearData.
(** [left.getComparableAnnotationsFromSet( right )] is decided by the
    annotation classes. *)
Variable getComparableAnnotationsFromSet : AnnotationSet -> AnnotationSet -> AnnotationSet.
Variable range : Range.
Variable all : bool.

(** The [for] loop of [getAnnotationsFromRange] with [n] offsets to go;
    [left_] is [None] while the variable is still undefined. *)
Fixpoint getAnnotationsFromRange_loop (n : nat) (i : Z) (left_ : option AnnotationSet)
    (ignoreChildrenDepth : Z) : result AnnotationSet :=
  match n with
  | O => Ok (default [] left_)
  | S n =>
      skip ← (if isElementData d i then
                t ← getType d i;
                ignored ← shouldIgnoreChildren nf (toKey t);
                let depth :=
                  if ignored : bool
                  then ignoreChildrenDepth + (if isOpenElementData d i then 1 else -1)
                  else ignoreChildrenDepth in
                (* Skip non-content data *)
                content ← isNodeContent nf (toKey t);
                Ok (negb content, depth)
              else Ok (false, ignoreChildrenDepth));
      let '(skipped, ignoreChildrenDepth) := skip in
      if (skipped : bool) || (0 <? ignoreChildrenDepth)
      then getAnnotationsFromRange_loop n (i + 1) left_ ignoreChildrenDepth
      else
        match left_ with
        | None =>
            (* Look at left side of range for annotations *)
            l ← getAnnotationIndexesFromOffset nf d i false;
            if (range_getLength range =? 0) || (range_getLength range =? 1) then Ok l
            else getAnnotationsFromRange_loop n (i + 1) (Some l) ignoreChildrenDepth
        | Some l =>
            right_ ← getAnnotationIndexesFromOffset nf d i false;
            if all && negb (annotationSet_isEmpty right_) then
              getAnnotationsFromRange_loop n (i + 1) (Some (annotationSet_addSet l right_))
                ignoreChildrenDepth
            else if negb all then
              (* A non annotated character indicates there's no full coverage *)
              if annotationSet_isEmpty right_ then Ok []
              else
                let l := getComparableAnnotationsFromSet l right_ in
                if annotationSet_isEmpty l then Ok l
                else getAnnotationsFromRange_loop n (i + 1) (Some l) ignoreChildrenDepth
            else getAnnotationsFromRange_loop n (i + 1) (Some l) ignoreChildrenDepth
        end
  end.

Definition getAnnotationsFromRange : result AnnotationSet :=
  getAnnotationsFromRange_loop (Z.to_nat (range_end range - range_start range))
    (range_start range) None 0.

End AnnotationsFromRange.

(** *** Counting and content *)

Section CountNonInternal.
Variable nf : NodeFactory.
Variable d : LinearData.
(** [limit] is [None] where the argument is left out. *)
Variable limit : option Z.

Fixpoint countNonInternalElements_loop (n : nat) (i internalDepth count : Z) : result Z :=
  match n with
  | O => Ok count
  | S n =>
      t ← getType d i;
      internalNode ← (Ok (match t with Some s => negb (String.eqb s "") | None => false end) &&&
                      isNodeInternal nf (toKey t));
      if internalNode : bool then
        countNonInternalElements_loop n (i + 1)
          (if isOpenElementData d i then internalDepth + 1 else internalDepth - 1) count
      else if internalDepth =? 0 then
        let count := count + 1 in
        if match limit with Some l => negb (l =? 0) && (count >=? l) | None => false end
        then Ok count
        else countNonInternalElements_loop n (i + 1) internalDepth count
      else countNonInternalElements_loop n (i + 1) internalDepth count
  end.

Definition countNonInternalElements : result Z :=
  countNonInternalElements_loop (length d) 0 0 0.

End CountNonInternal.

Definition hasContent (nf : NodeFactory) (d : LinearData) : result bool :=
  (* Two or less elements (<p>, </p>) is considered an empty document *)
  (count ← countNonInternalElements nf d (Some 3); Ok (count >? 2)) |||
  (Ok (isElementData d 0) &&&
   notR (t ← getType d 0; canNodeContainContent nf (toKey t)) &&&
   notR (t ← getType d 0; isNodeInternal nf (toKey t))).

(** *** Sanitization *)

Record Rules : Type := mkRules {
  blacklist : option (list string);
  conversions : option (gmap string string);
  removeOriginalDomElements : bool;
  plainText : bool;
  allowBreaks : bool;
  preserveHtmlWhitespace : bool;
  nodeSanitization : bool;
  keepEmptyContentBranches : bool
}.

Definition newline : string := String (ascii_of_nat 10) EmptyString.

(** Strings hold text in UTF-8. [codePointAt s] is the code point whose
    encoding starts [s]; there is none where [s] is empty, starts inside an
    encoding, breaks off in one or is not the shortest encoding of its code
    point. *)
Definition isContinuation (c : ascii) : bool :=
  (128 <=? Z.of_nat (nat_of_ascii c)) && (Z.of_nat (nat_of_ascii c) <? 192).

Definition continuationBits (c : ascii) : Z := Z.of_nat (nat_of_ascii c) - 128.

Definition codePointAt (s : string) : option Z :=
  match s with
  | EmptyString => None
  | String c0 rest =>
      let b0 := Z.of_nat (nat_of_ascii c0) in
      if b0 <? 128 then Some b0
      else if b0 <? 192 then None
      else if b0 <? 224 then
        match rest with
        | String c1 _ =>
            let codePoint := (b0 - 192) * 64 + continuationBits c1 in
            if isContinuation c1 && (128 <=? codePoint) then Some codePoint else None
        | _ => None
        end
      else if b0 <? 240 then
        match rest with
        | String c1 (String c2 _) =>
            let codePoint :=
              (b0 - 224) * 4096 + continuationBits c1 * 64 + continuationBits c2 in
            if isContinuation c1 && isContinuation c2 && (2048 <=? codePoint)
            then Some codePoint else None
        | _ => None
        end
      else
        match rest with
        | String c1 (String c2 (String c3 _)) =>
            let codePoint :=
              (b0 - 240) * 262144 + continuationBits c1 * 4096 +
              continuationBits c2 * 64 + continuationBits c3 in
            if isContinuation c1 && isContinuation c2 && isContinuation c3 &&
               (65536 <=? codePoint)
            then Some codePoint else None
        | _ => None
        end
  end.

(** The characters the class [\s] of a regular expression matches: the white
    space and the line terminators of ECMAScript. *)
Definition isWhitespaceChar (codePoint : Z) : bool :=
  ((9 <=? codePoint) && (codePoint <=? 13)) ||   (* tab, LF, VT, FF, CR *)
  (codePoint =? 32) ||                           (* space *)
  (codePoint =? 160) ||                          (* U+00A0 no-break space *)
  (codePoint =? 5760) ||                         (* U+1680 *)
  ((8192 <=? codePoint) && (codePoint <=? 8202)) ||   (* U+2000 to U+200A *)
  (codePoint =? 8232) || (codePoint =? 8233) ||  (* U+2028, U+2029 line terminators *)
  (codePoint =? 8239) ||                         (* U+202F *)
  (codePoint =? 8287) ||                         (* U+205F *)
  (codePoint =? 12288) ||                        (* U+3000 *)
  (codePoint =? 65279).                          (* U+FEFF *)

(** [s.match( /\s/ )], taken as a condition: some character of [s] is white
    space. *)
Fixpoint matchesWhitespace (s : string) : bool :=
  match s with
  | EmptyString => false
  | String c rest =>
      match codePointAt (String c rest) with
      | Some codePoint => isWhitespaceChar codePoint
      | None => false
      end || matchesWhitespace rest
  end.

(** [ve.getProp( item, 'internal', key )], taken as a condition. *)
Definition getProp_internal (item : option Item) (key : string) : bool :=
  match item with
  | Some (ElementItem e) =>
      match internal e with
      | Some m => match m !! key with Some v => truthy v | None => false end
      | None => false
      end
  | _ => false
  end.

(** [delete item.internal[ key ]; if ( ve.isEmptyObject( item.internal ) ) { delete item.internal; }] *)
Definition deleteInternal (key : string) (e : Element) : Element :=
  match internal e with
  | Some m =>
      let m := delete key m in
      {| type := type e; attributes := attributes e; annotations := annotations e;
         internal := if bool_decide (m = ∅) then None else Some m;
         originalDomElementsIndex := originalDomElementsIndex e |}
  | None => e
  end.

Definition setType (t : string) (e : Element) : Element :=
  {| type := t; attributes := attributes e; annotations := annotations e;
     internal := internal e; originalDomElementsIndex := originalDomElementsIndex e |}.

Definition deleteOriginalDomElementsIndex (e : Element) : Element :=
  {| type := type e; attributes := attributes e; annotations := annotations e;
     internal := internal e; originalDomElementsIndex := None |}.

(** [rules.blacklist && rules.blacklist.indexOf( x ) !== -1] *)
Definition blacklisted (rules : Rules) (x : string) : bool :=
  match blacklist rules with
  | Some l => bool_decide (x ∈ l)
  | None => false
  end.

(** The variables of [sanitize] that live across iterations of its main loop.
    [ss_contentElement] is the offset of the element object that
    [contentElement] refers to, [None] while it is undefined or null: the
    variable aliases the stored element, which later statements of the same
    iteration still change, and nothing before the cursor moves afterwards. *)
Record SanitizeState : Type := mkSanitizeState {
  ss_data : LinearData;
  ss_store : IndexValueStore;
  ss_i : Z;
  ss_len : Z;
  ss_type : option string;
  ss_contentElement : option Z
}.

(** Whether an iteration ended in [continue] or ran on to the code after the
    [if]/[else]. *)
Inductive SanitizeFlow : Type :=
| ContinueLoop (st : SanitizeState)
| FallThrough (st : SanitizeState).

Section Sanitize.
Variable nf : NodeFactory.
(** [ve.dm.modelRegistry.lookup( type ).static.sanitize( element, rules )],
    which changes the element in place. *)
Variable modelRegistry_sanitize : string -> option (Rules -> Element -> Element).
Variable rules : Rules.
Variable setToRemove : AnnotationSet.

Definition contentElementAt (d : LinearData) (ref : Z) : result Element :=
  match getData d ref with
  | Some (ElementItem e) => Ok e
  | _ => Throw TypeError
  end.

(** The branch [if ( this.isElementData( i ) ) { ... }]. *)
Definition sanitize_element (st : SanitizeState) : result SanitizeFlow :=
  let d := ss_data st in
  let i := ss_i st in
  let len := ss_len st in
  let contentElement := ss_contentElement st in
  t ← getType d i;
  let type_ := toKey t in
  canContain ← canNodeContainContent nf type_;
  let isOpen := isOpenElementData d i in
  (* Apply type conversions *)
  let '(type_, d) :=
    match conversions rules with
    | Some conv =>
        match conv !! type_ with
        | Some converted =>
            if negb (String.eqb converted "")
            then (converted, modifyElement d i (setType ((if isOpen then "" else "/") +:+ converted)))
            else (type_, d)
        | None => (type_, d)
        end
    | None => (type_, d)
    end in
  (* Convert content-containing non-paragraph nodes to paragraphs in plainText mode *)
  let '(type_, d) :=
    if plainText rules && negb (String.eqb type_ "paragraph") && (canContain : bool)
    then ("paragraph",
          setData d i (ElementItem
            (element ((if isCloseElementData d i then "/" else "") +:+ "paragraph"))))
    else (type_, d) in
  if blacklisted rules type_ ||
     (plainText rules && negb (String.eqb type_ "paragraph") &&
      negb (String.eqb type_ "internalList"))
  then
    (* Remove blacklisted nodes *)
    let d := splice d i 1 [] in
    let len := len - 1 in
    (* Make sure you haven't just unwrapped a wrapper paragraph *)
    let d :=
      if isOpen && getProp_internal (getData d i) "generated"
      then modifyElement d i (deleteInternal "generated") else d in
    Ok (ContinueLoop
      {| ss_data := d; ss_store := ss_store st; ss_i := i; ss_len := len;
         ss_type := Some type_; ss_contentElement := contentElement |})
  else if negb (allowBreaks rules) && String.eqb type_ "break" &&
          bool_decide (is_Some contentElement)
  then
    (* Split on breaks *)
    split ← (if isOpenElementData d (i - 1) && isCloseElementData d (i + 2)
             then Ok (splice d i 2 [], len - 2)
             else
               ce ← contentElementAt d (default 0 contentElement);
               Ok (splice d i 2 [ElementItem (element ("/" +:+ type ce)); ElementItem ce],
                   len));
    let '(d, len) := split in
    Ok (ContinueLoop
      {| ss_data := d; ss_store := ss_store st; ss_i := i; ss_len := len;
         ss_type := Some type_; ss_contentElement := contentElement |})
  else if negb (keepEmptyContentBranches rules) && isOpen && isCloseElementData d (i + 1) &&
          negb (getProp_internal (getData d i) "generated") && canContain
  then
    (* If a node is empty but can contain content, then just remove it *)
    Ok (ContinueLoop
      {| ss_data := splice d i 2 []; ss_store := ss_store st; ss_i := i; ss_len := len - 2;
         ss_type := Some type_; ss_contentElement := contentElement |})
  else
    let d :=
      if negb (preserveHtmlWhitespace rules) && getProp_internal (getData d i) "whitespace"
      then modifyElement d i (deleteInternal "whitespace") else d in
    (* Store the current contentElement for splitting *)
    let contentElement :=
      if canContain : bool then (if isOpen then Some i else None) else contentElement in
    Ok (FallThrough
      {| ss_data := d; ss_store := ss_store st; ss_i := i; ss_len := len;
         ss_type := Some type_; ss_contentElement := contentElement |}).

(** The branch [else { ... }] for characters. *)
Definition sanitize_character (st : SanitizeState) : result SanitizeFlow :=
  let d := ss_data st in
  let i := ss_i st in
  plainNewline ← (Ok (String.eqb (getCharacterData d i) newline) &&&
                  notR (doesNodeHaveSignificantWhitespace nf (toKey (ss_type st))));
  if plainNewline : bool then
    if matchesWhitespace (getCharacterData d (i + 1)) ||
       matchesWhitespace (getCharacterData d (i - 1))
    then
      (* If whitespace-adjacent, remove the newline to avoid double spaces *)
      Ok (ContinueLoop
        {| ss_data := splice d i 1 []; ss_store := ss_store st; ss_i := i;
           ss_len := ss_len st - 1; ss_type := ss_type st;
           ss_contentElement := ss_contentElement st |})
    else
      (* ...otherwise replace it with a space *)
      let d :=
        match getData d i with
        | Some (Character _) => setData d i (Character " ")
        | Some (AnnotatedCharacter _ indexes) => setData d i (AnnotatedCharacter " " indexes)
        | _ => d
        end in
      Ok (FallThrough
        {| ss_data := d; ss_store := ss_store st; ss_i := i; ss_len := ss_len st;
           ss_type := ss_type st; ss_contentElement := ss_contentElement st |})
  else Ok (FallThrough st).

(** The statements after the [if]/[else], and the loop's [i++]. *)
Definition sanitize_tail (st : SanitizeState) : result SanitizeState :=
  let d := ss_data st in
  let store := ss_store st in
  let i := ss_i st in
  annotations_ ← getAnnotationIndexesFromOffset nf d i true;
  updated ← (if negb (annotationSet_isEmpty annotations_) then
               if plainText rules then setAnnotationsAtOffset store d i []
               else if (0 <? Z.of_nat (length setToRemove)) then
                 (* Remove blacklisted annotations *)
                 setAnnotationsAtOffset store d i
                   (annotationSet_removeSet annotations_ setToRemove)
               else Ok (store, d)
             else Ok (store, d));
  let '(store, d) := updated in
  d ← (if isOpenElementData d i then
         d ← (if nodeSanitization rules then
                t ← getType d i;
                match modelRegistry_sanitize (toKey t) with
                | Some nodeSanitize => Ok (modifyElement d i (nodeSanitize rules))
                | None => Throw TypeError
                end
              else Ok d);
         Ok (if removeOriginalDomElements rules
             then modifyElement d i deleteOriginalDomElementsIndex else d)
       else Ok d);
  Ok {| ss_data := d; ss_store := store; ss_i := i + 1; ss_len := ss_len st;
        ss_type := ss_type st; ss_contentElement := ss_contentElement st |}.

Definition sanitize_body (st : SanitizeState) : result SanitizeState :=
  flow ← (if isElementData (ss_data st) (ss_i st) then sanitize_element st
          else sanitize_character st);
  match flow with
  | ContinueLoop st => Ok st     (* [i--; continue], then the loop's [i++] *)
  | FallThrough st => sanitize_tail st
  end.

(** [for ( i = 0, len = this.getLength(); i < len; i++ ) { ... }] *)
Fixpoint sanitize_loop (fuel : nat) (st : SanitizeState) : result SanitizeState :=
  match fuel with
  | O => Throw OutOfFuel
  | S fuel =>
      if ss_i st <? ss_len st then
        st ← sanitize_body st;
        sanitize_loop fuel st
      else Ok st
  end.

End Sanitize.

(** The loop that removes [originalDomElementsIndex] from the annotations in
    use, which changes the stored annotation objects. *)
Fixpoint removeAnnotationDomElements (store : IndexValueStore) (allAnnotations : AnnotationSet)
    : result IndexValueStore :=
  match allAnnotations with
  | [] => Ok store
  | index :: rest =>
      ann ← store_value store index;
      let store :=
        match originalDomElementsIndex (annotationElement ann) with
        | Some _ =>
            <[index := {| name := name ann;
                          annotationElement :=
                            deleteOriginalDomElementsIndex (annotationElement ann) |}]> store
        | None => store
        end in
      removeAnnotationDomElements store rest
  end.

(** Every iteration moves the cursor on or takes items out, except the split
    on a break, which the next iteration follows by moving on. *)
Definition sanitize_fuel (d : LinearData) : nat := (3 * length d + 1)%nat.

Definition sanitize (nf : NodeFactory)
    (modelRegistry_sanitize : string -> option (Rules -> Element -> Element))
    (getComparableAnnotationsFromSet : AnnotationSet -> AnnotationSet -> AnnotationSet)
    (rules : Rules) (store : IndexValueStore) (d : LinearData)
    : result (IndexValueStore * LinearData) :=
  allAnnotations ← getAnnotationsFromRange nf d getComparableAnnotationsFromSet
                     (mkRange 0 (getLength d)) true;
  prepared ← (if plainText rules then Ok (store, [])
              else
                store ← (if removeOriginalDomElements rules
                         then removeAnnotationDomElements store allAnnotations
                         else Ok store);
                (* Create annotation set to remove from blacklist *)
                setToRemove ← annotationSet_filter store (fun annotation =>
                                 blacklisted rules (name annotation) ||
                                 (String.eqb (name annotation) "textStyle/span" &&
                                  removeOriginalDomElements rules))
                               allAnnotations;
                Ok (store, setToRemove));
  let '(store, setToRemove) := prepared in
  st ← sanitize_loop nf modelRegistry_sanitize rules setToRemove (sanitize_fuel d)
         {| ss_data := d; ss_store := store; ss_i := 0; ss_len := getLength d;
            ss_type := None; ss_contentElement := None |};
  Ok (ss_store st, ss_data st).

(** *** Annotation index arrays as objects

    Whether [getAnnotationIndexesFromOffset] hands out the array stored in the
    data or a copy of it cannot be seen on values. Here the index arrays are
    objects at addresses of a heap, and the items refer to them. *)

Abbreviation Heap := (gmap nat (list nat)).

Inductive StoredItem : Type :=
| StoredCharacter (c : string)
| StoredAnnotatedCharacter (c : string) (indexesAt : nat)
| StoredElement (e : Element) (annotationsAt : option nat).

(** The array an address holds. *)
Definition arrayAt (h : Heap) (a : nat) : list nat := default [] (h !! a).

(** The item a stored item stands for. *)
Definition viewItem (h : Heap) (item : StoredItem) : Item :=
  match item with
  | StoredCharacter c => Character c
  | StoredAnnotatedCharacter c a => AnnotatedCharacter c (arrayAt h a)
  | StoredElement e r =>
      ElementItem
        {| type := type e; attributes := attributes e; annotations := arrayAt h <$> r;
           internal := internal e;
           originalDomElementsIndex := originalDomElementsIndex e |}
  end.

Definition viewData (h : Heap) (sd : list StoredItem) : LinearData := viewItem h <$> sd.

(** The addresses a stored item holds. *)
Definition itemAddresses (item : StoredItem) : list nat :=
  match item with
  | StoredCharacter _ => []
  | StoredAnnotatedCharacter _ a => [a]
  | StoredElement _ r => match r with Some a => [a] | None => [] end
  end.

(** Every array the data refers to exists. *)
Definition allocated (h : Heap) (sd : list StoredItem) : Prop :=
  forall item a, item ∈ sd -> a ∈ itemAddresses item -> is_Some (h !! a).

(** [[]] and [array.slice()]: a new array object with the given contents. *)
Definition allocArray (h : Heap) (contents : list nat) : Heap * nat :=
  let a := fresh (dom h) in (<[a := contents]> h, a).

(** [getAnnotationIndexesFromOffset] with the returned array as an object:
    the heap after the call and the address of the result. *)
Definition getAnnotationIndexesFromOffset_alloc (nf : NodeFactory) (h : Heap)
    (sd : list StoredItem) (offset : Z) (ignoreClose : bool) : result (Heap * nat) :=
  let d := viewData h sd in
  if (offset <? 0) || (offset >? getLength d) then Throw (OutOfBounds offset)
  else
    rewind ← (Ok (negb ignoreClose) &&&
              Ok (isCloseElementData d offset) &&&
              notR (t ← getType d offset; canNodeHaveChildren nf (toKey t)));
    offset ← (if rewind : bool then getRelativeContentOffset nf d offset (-1)
              else Ok offset);
    match (if offset <? 0 then None else sd !! Z.to_nat offset) with
    | None => Ok (allocArray h [])
    | Some (StoredCharacter _) => Ok (allocArray h [])
    | Some (StoredElement _ r) =>
        match r with
        | Some a => Ok (allocArray h (arrayAt h a))
        | None => Ok (allocArray h [])
        end
    | Some (StoredAnnotatedCharacter _ a) => Ok (allocArray h (arrayAt h a))
    end.

(** ** Well-formedness of data against a registry *)

(** The node type an element's [type] names: that of a closing marker is what
    follows the slash. *)
Definition stripSlash (t : string) : string :=
  if startsWithSlash t then slice1 t else t.

(** Every element of the data has a registered node type. *)
Definition knownTypes (nf : NodeFactory) (d : LinearData) : Prop :=
  forallb (fun item =>
    match itemType item with
    | Some t => bool_decide (is_Some (nf !! stripSlash t))
    | None => true
    end) d = true.

(** No registered type name starts with the slash that marks a closing. *)
Definition plainTypeNames (nf : NodeFactory) : Prop :=
  forallb (fun entry => negb (startsWithSlash (fst entry))) (map_to_list nf) = true.

(** ** A small registry and documents to evaluate on *)

Definition nodeClass (children : option (list string)) (canContent content : bool)
    : NodeClass :=
  {| childNodeTypes := children; parentNodeTypes := None; suggestedParentNodeTypes := None;
     canContainContent := canContent; isContent := content; isWrapped := true;
     isUnwrappable := true; isFocusable := false; hasSignificantWhitespace := false;
     handlesOwnChildren := false; ignoreChildren := false; isInternal := false;
     isDeletable := true; blacklistedAnnotationTypes := []; defaultAttributes := ∅ |}.

(** A branch class that is internal, as the internal list is. *)
Definition internalClass : NodeClass :=
  {| childNodeTypes := Some ["internalItem"]; parentNodeTypes := None;
     suggestedParentNodeTypes := None; canContainContent := false; isContent := false;
     isWrapped := true; isUnwrappable := true; isFocusable := false;
     hasSignificantWhitespace := false; handlesOwnChildren := false;
     ignoreChildren := false; isInternal := true; isDeletable := true;
     blacklistedAnnotationTypes := []; defaultAttributes := ∅ |}.

(** A branch class whose children are ignored. *)
Definition ignoringClass : NodeClass :=
  {| childNodeTypes := None; parentNodeTypes := None;
     suggestedParentNodeTypes := None; canContainContent := false; isContent := false;
     isWrapped := true; isUnwrappable := true; isFocusable := true;
     hasSignificantWhitespace := false; handlesOwnChildren := false;
     ignoreChildren := true; isInternal := false; isDeletable := true;
     blacklistedAnnotationTypes := []; defaultAttributes := ∅ |}.

(** A branch class that takes any children and goes into lists only. *)
Definition listItemClass : NodeClass :=
  {| childNodeTypes := None; parentNodeTypes := Some ["list"];
     suggestedParentNodeTypes := None; canContainContent := false; isContent := false;
     isWrapped := true; isUnwrappable := true; isFocusable := false;
     hasSignificantWhitespace := false; handlesOwnChildren := false;
     ignoreChildren := false; isInternal := false; isDeletable := true;
     blacklistedAnnotationTypes := []; defaultAttributes := ∅ |}.

Definition exampleFactory : NodeFactory :=
  list_to_map
    [ ("paragraph", nodeClass (Some ["text"; "inlineImage"]) true false);
      ("heading", nodeClass (Some ["text"; "inlineImage"]) true false);
      ("inlineImage", nodeClass (Some []) false true);
      ("alienBlock", nodeClass (Some []) false false);
      ("list", nodeClass (Some ["listItem"]) false false);
      ("listItem", listItemClass);
      ("internalList", internalClass);
      ("references", ignoringClass) ].

Definition open (t : string) : Item := ElementItem (element t).
Definition close (t : string) : Item := ElementItem (element ("/" +:+ t)).

(** ** Vocabulary of the statements *)

(** A capability holds of a type name: the name is registered and its class
    has the capability. *)
Definition holds (nf : NodeFactory) (capability : NodeClass -> bool) (t : string) : Prop :=
  exists c, nf !! t = Some c /\ capability c = true.

(** A plain or an annotated character. *)
Definition characterItem (item : Item) : Prop :=
  match item with
  | Character _ | AnnotatedCharacter _ _ => True
  | ElementItem _ => False
  end.

(** The opening element of a node of type [t]. *)
Definition openingElementOf (item : Item) (t : string) : Prop :=
  exists e, item = ElementItem e /\ type e = t /\ startsWithSlash t = false.

(** The closing marker of a node of type [t]. *)
Definition closingMarkerOf (item : Item) (t : string) : Prop :=
  exists e, item = ElementItem e /\ type e = "/" +:+ t.

(** One of the three rules of [isStructuralOffset]: a test on the shape, a
    test on the node type, and the extra test of unrestricted mode. *)
Definition structuralRule (unrestricted shape : bool) (kind extra : result bool)
    : result bool :=
  Ok shape &&& kind &&& (Ok (negb unrestricted) ||| extra).

Arguments structuralRule : simpl never.

(** No element of the data has a type whose children are ignored. *)
Definition noIgnoredChildren (nf : NodeFactory) (d : LinearData) : Prop :=
  forallb (fun item =>
    match itemType item with
    | Some t =>
        match nf !! stripSlash t with
        | Some c => negb (ignoreChildren c)
        | None => true
        end
    | None => true
    end) d = true.

(** No element of the data opens or closes an internal list. *)
Definition noInternalList (d : LinearData) : Prop :=
  forallb (fun item =>
    match itemType item with
    | Some t => negb (String.eqb (stripSlash t) "internalList")
    | None => true
    end) d = true.

(** The direction [getRelativeOffset] sets out in, for a distance other
    than 0. *)
Definition searchDirection (len start distance : Z) : Z :=
  if start <=? 0 then 1
  else if start >=? len then -1
  else if distance >? 0 then 1 else -1.

(** [n] offsets from [i] on, in steps of [direction]. *)
Fixpoint offsetsFrom (i direction : Z) (n : nat) : list Z :=
  match n with
  | O => []
  | S n => i :: offsetsFrom (i + direction) direction n
  end.

(** How many offsets lie between [i] and the edge the direction leads to,
    both included. *)
Definition remaining (len i direction : Z) : nat :=
  if 0 <? direction then Z.to_nat (len + 1 - i) else Z.to_nat (i + 1).

(** The offsets strictly beyond [start] in a direction, nearest first. *)
Definition offsetsBeyond (len start direction : Z) : list Z :=
  offsetsFrom (start + direction) direction (remaining len (start + direction) direction).

(** The loop's variables outside any node whose children are ignored. *)
Definition searchState (i direction distance steps offset : Z) (turnedAround : bool)
    : RelativeOffsetState :=
  {| rs_i := i; rs_direction := direction; rs_distance := distance; rs_steps := steps;
     rs_offset := offset; rs_turnedAround := turnedAround; rs_ignoreChildrenDepth := 0 |}.

(** [i] is the first of [n] offsets up to the edge. *)
Definition onTheWay (len i direction : Z) (n : nat) : Prop :=
  n = remaining len i direction /\
  ((direction = 1 /\ 1 <= i) \/ (direction = -1 /\ i <= len)).

(** The search has come to the edge its direction leads to. *)
Definition atEdge (len i direction : Z) : bool :=
  (direction <? 0) && (i =? 0) || (0 <? direction) && (i =? len).

(** What holds of the loop's variables whenever the loop test is made. *)
Record searchInvariant (len : Z) (st : RelativeOffsetState) : Prop := {
  si_direction : rs_direction st = 1 \/ rs_direction st = -1;
  si_forward : rs_direction st = 1 -> 1 <= rs_i st;
  si_offset : rs_offset st = -1 \/ 0 <= rs_offset st <= len
}.

(** The loop variant: the way to the edge ahead, and before the turn the
    whole way back as well. *)
Definition searchMeasure (len : Z) (st : RelativeOffsetState) : nat :=
  ((if rs_turnedAround st then 0 else Z.to_nat len + 2)
   + remaining len (rs_i st) (rs_direction st))%nat.

(** An element that opens or closes a node of an internal type, as
    [countNonInternalElements] tests it: the type name is not empty and its
    class is internal. *)
Definition internalElement (nf : NodeFactory) (item : Item) : bool :=
  match itemType item with
  | Some t =>
      negb (String.eqb (stripSlash t) "") &&
      match nf !! stripSlash t with
      | Some c => isInternal c
      | None => false
      end
  | None => false
  end.

(** The number of items that lie outside the subtrees of internal nodes,
    [depth] being the number of internal nodes open before the first item. *)
Fixpoint nonInternalItems (nf : NodeFactory) (depth : Z) (d : list Item) : Z :=
  match d with
  | [] => 0
  | item :: rest =>
      if internalElement nf item then
        nonInternalItems nf
          (match itemType item with
           | Some t => if startsWithSlash t then depth - 1 else depth + 1
           | None => depth
           end) rest
      else (if depth =? 0 then 1 else 0) + nonInternalItems nf depth rest
  end.

(** The rule set [{ plainText: true }]. *)
Definition plainTextRules : Rules :=
  {| blacklist := None; conversions := None; removeOriginalDomElements := false;
     plainText := true; allowBreaks := false; preserveHtmlWhitespace := false;
     nodeSanitization := false; keepEmptyContentBranches := false |}.

(** Characters that all carry the one annotation [index]. *)
Definition annotatedWith (index : nat) (chars : list string) : list Item :=
  (fun c => AnnotatedCharacter c [index]) <$> chars.

(** Bare characters. *)
Definition bare (chars : list string) : list Item := Character <$> chars.

(** The state of [sanitize]'s loop with the cursor behind [pre]. *)
Definition sanitizeAt (store : IndexValueStore) (pre post : list Item)
    (type_ : option string) (contentElement : option Z) : SanitizeState :=
  {| ss_data := pre ++ post; ss_store := store; ss_i := Z.of_nat (length pre);
     ss_len := Z.of_nat (length (pre ++ post)); ss_type := type_;
     ss_contentElement := contentElement |}.

(** A store that holds one bold annotation, at index 0. *)
Definition boldStore : IndexValueStore :=
  [ {| name := "textStyle/bold"; annotationElement := element "textStyle/bold" |} ].

(** ** Further queries of ve.dm.ElementLinearData *)

(** [while ( i-- ) { ... } return true;] of [isContentData] with [i] items
    still to visit, the last of them first. *)
Fixpoint isContentData_loop (nf : NodeFactory) (d : LinearData) (i : nat) : result bool :=
  match i with
  | O => Ok true
  | S i =>
      match getData d (Z.of_nat i) with
      | None => Throw TypeError
      | Some item =>
          nonContent ← (Ok (bool_decide (is_Some (itemType item))) &&&
                        Ok (negb (startsWithSlash (toKey (itemType item)))) &&&
                        notR (isNodeContent nf (toKey (itemType item))));
          if nonContent : bool then Ok false else isContentData_loop nf d i
      end
  end.

Definition isContentData (nf : NodeFactory) (d : LinearData) : result bool :=
  isContentData_loop nf d (length d).

(** [getAnnotationsFromOffset( offset, ignoreClose )] wraps the indexes in a
    set. *)
Definition getAnnotationsFromOffset (nf : NodeFactory) (d : LinearData) (offset : Z)
    (ignoreClose : bool) : result AnnotationSet :=
  getAnnotationIndexesFromOffset nf d offset ignoreClose.

Section AnnotatedRange.
Variable nf : NodeFactory.
Variable d : LinearData.
(** [set.contains( annotation )] for the annotation that is looked for; the
    test belongs to the annotation set class. *)
Variable contains : AnnotationSet -> bool.

(** [this.getAnnotationsFromOffset( offset ).contains( annotation )] *)
Definition coveredAt (offset : Z) : result bool :=
  set ← getAnnotationsFromOffset nf d offset false;
  Ok (contains set).

(** [while ( start > 0 ) { start--; if ( ... === false ) { start++; break; } }]
    Every pass but the last lowers [start] by one, so [start] passes bound
    the loop. *)
Fixpoint annotatedRange_start (n : nat) (start : Z) : result Z :=
  match n with
  | O => Ok start
  | S n =>
      if start >? 0 then
        covered ← coveredAt (start - 1);
        if covered : bool then annotatedRange_start n (start - 1) else Ok start
      else Ok start
  end.

(** [while ( end < this.getLength() ) { if ( ... === false ) { break; } end++; }] *)
Fixpoint annotatedRange_end (n : nat) (end_ : Z) : result Z :=
  match n with
  | O => Ok end_
  | S n =>
      if end_ <? getLength d then
        covered ← coveredAt end_;
        if covered : bool then annotatedRange_end n (end_ + 1) else Ok end_
      else Ok end_
  end.

(** [None] is the source's [null]. *)
Definition getAnnotatedRangeFromOffset (offset : Z) : result (option Range) :=
  covered ← coveredAt offset;
  if covered : bool then
    start ← annotatedRange_start (Z.to_nat offset) offset;
    end_ ← annotatedRange_end (Z.to_nat (getLength d - offset)) offset;
    Ok (Some (mkRange start end_))
  else Ok None.

Definition getAnnotatedRangeFromSelection (range : Range) : result Range :=
  start ← annotatedRange_start (Z.to_nat (range_start range)) (range_start range);
  end_ ← annotatedRange_end (Z.to_nat (getLength d - range_end range)) (range_end range);
  Ok (mkRange start end_).

End AnnotatedRange.

Section InsertionAnnotations.
Variable nf : NodeFactory.
Variable d : LinearData.
Variable store : IndexValueStore.
(** [annotation.constructor.static.applyToAppendedContent] and
    [afterAnnotations.containsComparable( annotation )] belong to the
    annotation classes. *)
Variable applyToAppendedContent : Annotation -> bool.
Variable containsComparable : AnnotationSet -> Annotation -> bool.

Definition getInsertionAnnotationsFromRange (range : Range) (startAfterAnnotations : bool)
    : result AnnotationSet :=
  (* Get position for start annotations *)
  let start :=
    if (from range =? to range) && negb startAfterAnnotations
    then Z.max 0 (range_start range - 1)
    else range_start range in
  (* Get startAnnotations: the annotations that apply at the selection start *)
  startIsContent ← isContentOffset nf d start;
  startAnnotations ← (if startIsContent : bool then getAnnotationsFromOffset nf d start false
                      else Ok []);
  (* Get afterAnnotations: the annotations that apply straight after the selection *)
  endIsContent ← isContentOffset nf d (range_end range);
  afterAnnotations ← (if endIsContent : bool
                      then getAnnotationsFromOffset nf d (range_end range) false
                      else Ok []);
  annotationSet_filter store
    (fun annotation =>
       applyToAppendedContent annotation || containsComparable afterAnnotations annotation)
    startAnnotations.

End InsertionAnnotations.

(** The [for] loop of [hasAnnotationsInRange] with [n] offsets to go. *)
Fixpoint hasAnnotationsInRange_loop (nf : NodeFactory) (d : LinearData) (n : nat) (i : Z)
    : result bool :=
  match n with
  | O => Ok false
  | S n =>
      indexes ← getAnnotationIndexesFromOffset nf d i true;
      if 0 <? Z.of_nat (length indexes) then Ok true
      else hasAnnotationsInRange_loop nf d n (i + 1)
  end.

Definition hasAnnotationsInRange (nf : NodeFactory) (d : LinearData) (range : Range)
    : result bool :=
  hasAnnotationsInRange_loop nf d (Z.to_nat (range_end range - range_start range))
    (range_start range).

(** [while ( this.getCharacterData( end - 1 ).match( /\s/ ) ) { end--; }]
    There is no character data before offset 0, so [end] passes bound the
    loop. *)
Fixpoint trimOuterSpaceFromRange_end (d : LinearData) (n : nat) (end_ : Z) : Z :=
  match n with
  | O => end_
  | S n =>
      if matchesWhitespace (getCharacterData d (end_ - 1))
      then trimOuterSpaceFromRange_end d n (end_ - 1)
      else end_
  end.

(** [while ( start < end && this.getCharacterData( start ).match( /\s/ ) ) { start++; }] *)
Fixpoint trimOuterSpaceFromRange_start (d : LinearData) (n : nat) (start end_ : Z) : Z :=
  match n with
  | O => start
  | S n =>
      if (start <? end_) && matchesWhitespace (getCharacterData d start)
      then trimOuterSpaceFromRange_start d n (start + 1) end_
      else start
  end.

Definition trimOuterSpaceFromRange (d : LinearData) (range : Range) : Range :=
  let end_ := trimOuterSpaceFromRange_end d (Z.to_nat (range_end range)) (range_end range) in
  let start :=
    trimOuterSpaceFromRange_start d (Z.to_nat (end_ - range_start range))
      (range_start range) end_ in
  if to range <? range_end range then mkRange end_ start else mkRange start end_.

Section PlainText.
Variable nf : NodeFactory.
Variable d : LinearData.
Variable getComparableAnnotationsFromSet : AnnotationSet -> AnnotationSet -> AnnotationSet.
(** [annotations.containsAllOf( set )] belongs to the annotation set class. *)
Variable containsAllOf : AnnotationSet -> AnnotationSet -> bool.
(** [allowedTypes] is [None] where the argument is left out. *)
Variable allowNonContentNodes : bool.
Variable allowedTypes : option (list string).
Variable ignoreCoveringAnnotations : bool.

(** The [for] loop of [isPlainText] with [n] offsets to go. *)
Fixpoint isPlainText_loop (annotations_ : AnnotationSet) (n : nat) (i : Z) : result bool :=
  match n with
  | O => Ok true
  | S n =>
      let item := getData d i in
      if match item with Some it => isString it | None => false end
      then isPlainText_loop annotations_ n (i + 1)
      else
        covered ← (Ok ignoreCoveringAnnotations &&&
                   Ok (match item with Some it => isArray it | None => false end) &&&
                   (set ← getAnnotationsFromOffset nf d i false;
                    Ok (containsAllOf annotations_ set)));
        if covered : bool then isPlainText_loop annotations_ n (i + 1)
        else if (allowNonContentNodes || bool_decide (is_Some allowedTypes)) &&
                isElementData d i
        then
          t ← getType d i;
          if match allowedTypes with
             | Some types => bool_decide (toKey t ∈ types)
             | None => false
             end
          then isPlainText_loop annotations_ n (i + 1)
          else
            nonContent ← (Ok allowNonContentNodes &&& notR (isNodeContent nf (toKey t)));
            if nonContent : bool then isPlainText_loop annotations_ n (i + 1)
            else Ok false
        else Ok false
  end.

(** [range] is [None] where the argument is left out. *)
Definition isPlainText (range : option Range) : result bool :=
  let range := default (mkRange 0 (getLength d)) range in
  annotations_ ← (if ignoreCoveringAnnotations
                  then getAnnotationsFromRange nf d getComparableAnnotationsFromSet range false
                  else Ok []);
  isPlainText_loop annotations_ (Z.to_nat (range_end range - range_start range))
    (range_start range).

End PlainText.

(** The [for] loop of [getText] with [n] offsets to go. *)
Fixpoint getText_loop (d : LinearData) (maintainIndices : bool) (n : nat) (i : Z)
    (text : string) : string :=
  match n with
  | O => text
  | S n =>
      getText_loop d maintainIndices n (i + 1)
        (if negb (isElementData d i) then text +:+ getCharacterData d i
         else if maintainIndices then text +:+ newline
         else text)
  end.

(** [range] is [None] where the argument is left out. *)
Definition getText (d : LinearData) (maintainIndices : bool) (range : option Range)
    : string :=
  let range := default (mkRange 0 (getLength d)) range in
  getText_loop d maintainIndices (Z.to_nat (range_end range - range_start range))
    (range_start range) "".

(** An offset that a search may hand back: -1, or one the validity test
    accepts. *)
Definition accepted (callback : Z -> result bool) (o : Z) : Prop :=
  o = -1 \/ callback o = Ok true.

(** A paragraph of two characters. *)
(** Characters outside ASCII, in UTF-8: the em space U+2003 and the no-break
    space U+00A0, which are white space, and the letter U+0120, which is not
    and whose encoding ends in the byte 160. *)
Definition emSpace : string :=
  String (ascii_of_nat 226) (String (ascii_of_nat 128) (String (ascii_of_nat 131) "")).
Definition noBreakSpace : string :=
  String (ascii_of_nat 194) (String (ascii_of_nat 160) "").
Definition capitalGWithDot : string :=
  String (ascii_of_nat 196) (String (ascii_of_nat 160) "").

Definition exampleParagraph : LinearData :=
  [open "paragraph"; Character "a"; Character "b"; close "paragraph"].

(** The annotation indexes the item at an offset carries, none where there is
    no item. *)
Definition storedAnnotations (d : LinearData) (offset : Z) : list nat :=
  match getData d offset with
  | Some (ElementItem e) => default [] (annotations e)
  | Some (AnnotatedCharacter _ indexes) => indexes
  | _ => []
  end.


(** A paragraph whose last two characters carry the annotation at index 0. *)
Definition exampleAnnotated : LinearData :=
  open "paragraph" :: Character "a" :: annotatedWith 0 ["b"; "c"] ++ [close "paragraph"].

(** An annotation set as the set of the store indexes it holds: whether it
    includes the annotation stored at [index]. *)
Definition containsIndex (index : nat) (set : AnnotationSet) : bool :=
  bool_decide (index ∈ set).

(** The value of an attribute of the element at an offset; none where the
    item is no element, or the element has no such attribute. *)
Definition attributeAt (d : LinearData) (offset : Z) (key : string) : option Mixed :=
  match getData d offset with
  | Some (ElementItem e) => attributes e ≫= (fun attrs => attrs !! key)
  | _ => None
  end.

(** A leaf node inside a paragraph: an inline image that carries the
    annotation at index 0, between two characters. *)
Definition exampleLeaf : LinearData :=
  [open "paragraph"; Character "a";
   ElementItem {| type := "inlineImage"; attributes := None; annotations := Some [0%nat];
                  internal := None; originalDomElementsIndex := None |};
   close "inlineImage"; Character "b"; close "paragraph"].

(** The offset whose annotations [getInsertionAnnotationsFromRange] starts
    from: the position before the cursor for a collapsed range, unless the
    annotations after the cursor are asked for, else the start of the
    range. *)
Definition insertionStart (range : Range) (startAfterAnnotations : bool) : Z :=
  if (from range =? to range) && negb startAfterAnnotations
  then Z.max 0 (range_start range - 1)
  else range_start range.

(** An annotation index is stored in a range: the item at some offset of the
    range carries it. *)
Definition storedInRange (d : LinearData) (range : Range) (index : nat) : Prop :=
  exists o, range_start range <= o < range_end range /\ index ∈ storedAnnotations d o.

(** An inline image in front of annotated text. *)
Definition exampleLeafBeforeText : LinearData :=
  [open "inlineImage"; close "inlineImage"; AnnotatedCharacter "a" [1%nat]; Character "b"].

(** A content branch class that refuses bold and italic text styles. *)
Definition codeClass : NodeClass :=
  {| childNodeTypes := Some ["text"]; parentNodeTypes := None;
     suggestedParentNodeTypes := None; canContainContent := true; isContent := false;
     isWrapped := true; isUnwrappable := true; isFocusable := false;
     hasSignificantWhitespace := true; handlesOwnChildren := false;
     ignoreChildren := false; isInternal := false; isDeletable := true;
     blacklistedAnnotationTypes := ["textStyle/bold"; "textStyle/italic"];
     defaultAttributes := ∅ |}.

(** ** ve.init.Target *)

(** [ve.init.Target.static.importRules.external]: the rules for content
    pasted from outside the editor. *)
Definition externalImportRules : Rules :=
  {| blacklist := Some ["textStyle/span"; "alienInline"; "alienBlock"; "comment"];
     conversions := None; removeOriginalDomElements := false; plainText := false;
     allowBreaks := false; preserveHtmlWhitespace := false; nodeSanitization := false;
     keepEmptyContentBranches := false |}.

(** A store that holds one span annotation, at index 0. *)
Definition spanStore : IndexValueStore :=
  [ {| name := "textStyle/span"; annotationElement := element "textStyle/span" |} ].

(** ** ve.ce.Surface *)

Section NearestCorrectOffset.
(** Modelled from the spec: the document model that the surface asks is not
    among the sources; its offset queries
    ([ve.dm.Document.isContentOffset( data, offset )], [getNearestContentOffset],
    [getNearestStructuralOffset]) are those of its element linear data. *)
Variable nf : NodeFactory.
Variable d : LinearData.
(** [this.hasSlugAtOffset( offset )], which asks the document view. *)
Variable hasSlugAtOffset : Z -> bool.

(** [ve.ce.Surface.prototype.getNearestCorrectOffset]; [direction] is [None]
    where the argument is left out. *)
Definition getNearestCorrectOffset (offset : Z) (direction : option Z) : result Z :=
  let direction := if match direction with Some n => n >? 0 | None => false end
                   then 1 else -1 in
  stay ← (isContentOffset nf d offset ||| Ok (hasSlugAtOffset offset));
  if stay : bool then Ok offset
  else
    contentOffset ← getNearestContentOffset nf d offset (Some direction);
    structuralOffset ← getNearestStructuralOffset nf d offset (Some direction) true;
    if negb (hasSlugAtOffset structuralOffset) then Ok contentOffset
    else if direction =? 1 then
      if contentOffset <? offset then Ok structuralOffset
      else Ok (Z.min contentOffset structuralOffset)
    else
      if contentOffset >? offset then Ok structuralOffset
      else Ok (Z.max contentOffset structuralOffset).

End NearestCorrectOffset.

(** The capabilities of a class that [isStructuralOffset] asks for: that its
    nodes can have children, that they can have children or are not content,
    and that they can have children but neither contain content nor are
    content. *)
Definition classCanHaveChildren (c : NodeClass) : bool :=
  match childNodeTypes c with
  | None => true
  | Some l => 0 <? Z.of_nat (length l)
  end.

Definition classIsStructure (c : NodeClass) : bool :=
  classCanHaveChildren c || negb (isContent c).

Definition classIsStructuralBranch (c : NodeClass) : bool :=
  classCanHaveChildren c && negb (canContainContent c) && negb (isContent c).

(** * Properties *)

(** ** The exception monad *)

Lemma bind_Ok {A B : Type} (a : A) (k : A -> result B) : (x ← Ok a; k x) = k a.
Proof. reflexivity. Qed.

Lemma bind_Throw {A B : Type} (e : Error) (k : A -> result B) :
  (x ← Throw e; k x) = Throw e.
Proof. reflexivity. Qed.

Lemma bind_is_ok {A B : Type} (r : result A) (k : A -> result B) :
  is_ok r -> (forall a, r = Ok a -> is_ok (k a)) -> is_ok (x ← r; k x).
Proof. intros [a ->] H. now apply H. Qed.

Lemma is_ok_Ok {A : Type} (a : A) : is_ok (Ok a).
Proof. now exists a. Qed.

Lemma not_is_ok_Throw {A : Type} (e : Error) : ~ is_ok (@Throw A e).
Proof. intros [a H]. discriminate H. Qed.

(** ** The examples of the source documentation

    The offsets that the comments of [isContentOffset] and
    [isStructuralOffset] mark in their two example documents, and the
    movements over a paragraph of three characters. *)

Example documented_content_offsets :
  (fun o => isContentOffset exampleFactory
     [open "heading"; Character "a"; close "heading";
      open "paragraph"; Character "b"; Character "c";
      open "inlineImage"; close "inlineImage"; close "paragraph"] o)
  <$> [0; 1; 2; 3; 4; 5; 6; 7; 8; 9]
  = Ok <$> [false; true; true; false; true; true; true; false; true; false].
Proof. vm_compute. reflexivity. Qed.

Example documented_structural_offsets :
  (fun o => isStructuralOffset exampleFactory
     [open "heading"; Character "a"; close "heading";
      open "paragraph"; Character "b"; Character "c";
      open "inlineImage"; close "inlineImage"; close "paragraph"] o false)
  <$> [0; 1; 2; 3; 4; 5; 6; 7; 8; 9]
  = Ok <$> [true; false; false; true; false; false; false; false; false; true].
Proof. vm_compute. reflexivity. Qed.

Example documented_list_offsets :
  (fun o => isStructuralOffset exampleFactory
     [open "list"; open "listItem"; close "listItem"; close "list"] o false)
  <$> [0; 1; 2; 3; 4]
  = Ok <$> [true; true; true; true; true] /\
  (fun o => isStructuralOffset exampleFactory
     [open "list"; open "listItem"; close "listItem"; close "list"] o true)
  <$> [0; 1; 2; 3; 4]
  = Ok <$> [true; false; true; false; true] /\
  (fun o => isContentOffset exampleFactory
     [open "list"; open "listItem"; close "listItem"; close "list"] o)
  <$> [0; 1; 2; 3; 4]
  = Ok <$> [false; false; false; false; false].
Proof. repeat split; vm_compute; reflexivity. Qed.

Example documented_character_movement :
  getRelativeContentOffset exampleFactory
    [open "paragraph"; Character "a"; Character "b"; Character "c"; close "paragraph"] 0 1
  = Ok 1 /\
  getRelativeContentOffset exampleFactory
    [open "paragraph"; Character "a"; Character "b"; Character "c"; close "paragraph"] 1 1
  = Ok 2 /\
  getRelativeContentOffset exampleFactory
    [open "paragraph"; Character "a"; Character "b"; Character "c"; close "paragraph"] 4 1
  = Ok 4.
Proof. repeat split; vm_compute; reflexivity. Qed.

(** ** The capability registry *)

Section NodeFactoryProperties.
Context {AnnotationValue AnnotationClass : Type}.
Variable annotationFactory_lookup : string -> option AnnotationClass.
Variable instanceOf : AnnotationValue -> AnnotationClass -> bool.
Variable nf : NodeFactory.
Variable ty : string.

Lemma registered_unknown {A : Type} (k : NodeClass -> result A) :
  nf !! ty = None -> registered nf ty k = Throw (UnknownNodeType ty).
Proof. intros H. unfold registered. now rewrite H. Qed.

Lemma registered_known {A : Type} (k : NodeClass -> result A) (c : NodeClass) :
  nf !! ty = Some c -> registered nf ty k = k c.
Proof. intros H. unfold registered. now rewrite H. Qed.

(** The loop over a blacklist returns a value or raises the TypeError of
    [instanceof undefined], and it returns a value when every name on the
    blacklist is registered. *)
Lemma canNodeTakeAnnotationType_loop_outcome (blacklist : list string)
    (annotation : AnnotationValue) :
  (is_ok (canNodeTakeAnnotationType_loop annotationFactory_lookup instanceOf
            blacklist annotation) \/
   canNodeTakeAnnotationType_loop annotationFactory_lookup instanceOf
     blacklist annotation = Throw TypeError) /\
  ((forall name, In name blacklist -> is_Some (annotationFactory_lookup name)) ->
   is_ok (canNodeTakeAnnotationType_loop annotationFactory_lookup instanceOf
            blacklist annotation)).
Proof.
  induction blacklist as [|name rest [IHany IHall]]; cbn [canNodeTakeAnnotationType_loop].
  - split; [left|intros _]; eexists; reflexivity.
  - split.
    + destruct (annotationFactory_lookup name) as [class|]; [|right; reflexivity].
      destruct (instanceOf annotation class); [left; eexists; reflexivity|exact IHany].
    + intros Hall. destruct (Hall name (or_introl eq_refl)) as [class ->].
      destruct (instanceOf annotation class); [eexists; reflexivity|].
      apply IHall. intros other Hin. apply Hall. right. exact Hin.
Qed.

(** C8, amended. A capability query on a type name that is not in the registry
    raises the unknown-type error for that name, whatever else it is given. On
    a registered name the accessors by type name and [getDataElement] return a
    value; [canNodeTakeAnnotationType] returns a value or raises the TypeError
    of [instanceof undefined], never the unknown-type error, and it returns a
    value when every annotation class named on the blacklist of the type is
    registered in the annotation factory. *)
Theorem capability_queries_unknown_type :
  (nf !! ty = None ->
     getChildNodeTypes nf ty = Throw (UnknownNodeType ty) /\
     getParentNodeTypes nf ty = Throw (UnknownNodeType ty) /\
     getSuggestedParentNodeTypes nf ty = Throw (UnknownNodeType ty) /\
     canNodeHaveChildren nf ty = Throw (UnknownNodeType ty) /\
     canNodeHaveChildrenNotContent nf ty = Throw (UnknownNodeType ty) /\
     isNodeWrapped nf ty = Throw (UnknownNodeType ty) /\
     isNodeUnwrappable nf ty = Throw (UnknownNodeType ty) /\
     canNodeContainContent nf ty = Throw (UnknownNodeType ty) /\
     isNodeContent nf ty = Throw (UnknownNodeType ty) /\
     isNodeFocusable nf ty = Throw (UnknownNodeType ty) /\
     doesNodeHaveSignificantWhitespace nf ty = Throw (UnknownNodeType ty) /\
     doesNodeHandleOwnChildren nf ty = Throw (UnknownNodeType ty) /\
     shouldIgnoreChildren nf ty = Throw (UnknownNodeType ty) /\
     isNodeInternal nf ty = Throw (UnknownNodeType ty) /\
     isNodeDeletable nf ty = Throw (UnknownNodeType ty) /\
     (forall annotation,
        canNodeTakeAnnotationType annotationFactory_lookup instanceOf nf ty annotation
        = Throw (UnknownNodeType ty)) /\
     (forall attributes_, getDataElement nf ty attributes_ = Throw (UnknownNodeType ty))) /\
  (forall c, nf !! ty = Some c ->
     is_ok (getChildNodeTypes nf ty) /\
     is_ok (getParentNodeTypes nf ty) /\
     is_ok (getSuggestedParentNodeTypes nf ty) /\
     is_ok (canNodeHaveChildren nf ty) /\
     is_ok (canNodeHaveChildrenNotContent nf ty) /\
     is_ok (isNodeWrapped nf ty) /\
     is_ok (isNodeUnwrappable nf ty) /\
     is_ok (canNodeContainContent nf ty) /\
     is_ok (isNodeContent nf ty) /\
     is_ok (isNodeFocusable nf ty) /\
     is_ok (doesNodeHaveSignificantWhitespace nf ty) /\
     is_ok (doesNodeHandleOwnChildren nf ty) /\
     is_ok (shouldIgnoreChildren nf ty) /\
     is_ok (isNodeInternal nf ty) /\
     is_ok (isNodeDeletable nf ty) /\
     (forall annotation,
        is_ok (canNodeTakeAnnotationType annotationFactory_lookup instanceOf nf ty
                 annotation) \/
        canNodeTakeAnnotationType annotationFactory_lookup instanceOf nf ty annotation
        = Throw TypeError) /\
     (forall annotation,
        (forall name, In name (blacklistedAnnotationTypes c) ->
                      is_Some (annotationFactory_lookup name)) ->
        is_ok (canNodeTakeAnnotationType annotationFactory_lookup instanceOf nf ty
                 annotation)) /\
     (forall attributes_, is_ok (getDataElement nf ty attributes_))).
Proof.
  split.
  - intros Hnone.
    repeat split; try (apply registered_unknown; exact Hnone).
    + intros annotation. unfold canNodeTakeAnnotationType. now rewrite Hnone.
    + intros attributes_. unfold getDataElement. now rewrite Hnone.
  - intros c Hc.
    unfold getChildNodeTypes, getParentNodeTypes, getSuggestedParentNodeTypes,
      canNodeHaveChildrenNotContent, isNodeUnwrappable, canNodeHaveChildren,
      isNodeWrapped, canNodeContainContent, isNodeContent, isNodeFocusable,
      doesNodeHaveSignificantWhitespace, doesNodeHandleOwnChildren,
      shouldIgnoreChildren, isNodeInternal, isNodeDeletable,
      canNodeTakeAnnotationType, getDataElement.
    rewrite !(registered_known _ c Hc), Hc.
    repeat split; try (eexists; reflexivity).
    + destruct (childNodeTypes c) as [l|]; cbn;
        [destruct (0 <? Z.of_nat (length l))|]; cbn;
        destruct (canContainContent c); cbn; eexists; reflexivity.
    + destruct (isWrapped c); cbn; eexists; reflexivity.
    + intros annotation.
      apply (canNodeTakeAnnotationType_loop_outcome (blacklistedAnnotationTypes c)).
    + intros annotation.
      apply (canNodeTakeAnnotationType_loop_outcome (blacklistedAnnotationTypes c)).
Qed.

End NodeFactoryProperties.

Lemma capability_queries_unknown_type_witness :
  (isNodeContent exampleFactory "table" = Throw (UnknownNodeType "table") /\
   canNodeTakeAnnotationType (fun name : string => Some name)
     (fun (annotation : string) class => String.eqb annotation class)
     exampleFactory "table" "textStyle/bold" = Throw (UnknownNodeType "table")) /\
  is_ok (canNodeHaveChildren exampleFactory "list") /\
  is_ok (canNodeTakeAnnotationType (fun name : string => Some name)
           (fun (annotation : string) class => String.eqb annotation class)
           (<["code" := codeClass]> exampleFactory) "code" "textStyle/bold").
Proof.
  pose proof (capability_queries_unknown_type (fun name : string => Some name)
                (fun (annotation : string) class => String.eqb annotation class)
                exampleFactory "table") as [Hunknown _].
  pose proof (capability_queries_unknown_type (fun name : string => Some name)
                (fun (annotation : string) class => String.eqb annotation class)
                exampleFactory "list") as [_ Hknown].
  pose proof (capability_queries_unknown_type (fun name : string => Some name)
                (fun (annotation : string) class => String.eqb annotation class)
                (<["code" := codeClass]> exampleFactory) "code") as [_ Hcode].
  split; [|split].
  - destruct Hunknown
      as (_ & _ & _ & _ & _ & _ & _ & _ & H & _ & _ & _ & _ & _ & _ & Hann & _).
    + vm_compute. reflexivity.
    + split; [exact H | apply Hann].
  - edestruct Hknown as (_ & _ & _ & H & _).
    + vm_compute. reflexivity.
    + exact H.
  - destruct (Hcode codeClass)
      as (_ & _ & _ & _ & _ & _ & _ & _ & _ & _ & _ & _ & _ & _ & _ & _ & Hann & _).
    + vm_compute. reflexivity.
    + apply Hann. intros name _. eexists. reflexivity.
Defined.

(** C8, as stated, fails for [canNodeTakeAnnotationType]: on a registered
    node type whose blacklist names an annotation class that the annotation
    factory does not know, the query raises a TypeError. Here the annotation
    factory knows the class [link] only, and the blacklist of the node type
    [code] names the text styles. *)
Lemma capability_queries_counterexample :
  is_Some ((<["code" := codeClass]> exampleFactory) !! "code") /\
  canNodeTakeAnnotationType
    (fun name : string => if String.eqb name "link" then Some name else None)
    (fun (annotation : string) class => String.eqb annotation class)
    (<["code" := codeClass]> exampleFactory) "code" "link" = Throw TypeError /\
  ~ is_ok (canNodeTakeAnnotationType
             (fun name : string => if String.eqb name "link" then Some name else None)
             (fun (annotation : string) class => String.eqb annotation class)
             (<["code" := codeClass]> exampleFactory) "code" "link").
Proof.
  split; [vm_compute; eexists; reflexivity|].
  split; [vm_compute; reflexivity|].
  intros [b H]. vm_compute in H. discriminate H.
Qed.

(** ** Structural offsets *)

Lemma structuralRule_restricted (shape : bool) (kind extra : result bool) :
  (structuralRule true shape kind extra = Ok true ->
   structuralRule false shape kind extra = Ok true) /\
  (structuralRule true shape kind extra = Ok false ->
   structuralRule false shape kind extra = Ok true \/
   structuralRule false shape kind extra = Ok false).
Proof.
  unfold structuralRule.
  destruct shape, kind as [[]|], extra as [[]|]; cbn; split; intros H;
    try discriminate; auto.
Qed.

Lemma structuralRules_restricted (s1 s2 s3 : bool) (k1 e1 k2 e2 k3 e3 : result bool) :
  (structuralRule true s1 k1 e1 ||| structuralRule true s2 k2 e2
   ||| structuralRule true s3 k3 e3) = Ok true ->
  (structuralRule false s1 k1 e1 ||| structuralRule false s2 k2 e2
   ||| structuralRule false s3 k3 e3) = Ok true.
Proof.
  destruct (structuralRule_restricted s1 k1 e1) as [T1 F1].
  destruct (structuralRule_restricted s2 k2 e2) as [T2 F2].
  destruct (structuralRule_restricted s3 k3 e3) as [T3 F3].
  destruct (structuralRule true s1 k1 e1) as [[]|]; cbn; try discriminate.
  { intros _. now rewrite T1. }
  destruct (F1 eq_refl) as [-> | ->]; cbn; [reflexivity|].
  destruct (structuralRule true s2 k2 e2) as [[]|]; cbn; try discriminate.
  { intros _. now rewrite T2. }
  destruct (F2 eq_refl) as [-> | ->]; cbn; [reflexivity|].
  destruct (structuralRule true s3 k3 e3) as [[]|]; cbn; try discriminate.
  intros _. now rewrite T3.
Qed.

Lemma isStructuralOffset_edges (nf : NodeFactory) (d : LinearData) (u : bool) :
  isStructuralOffset nf d 0 u = Ok true /\
  isStructuralOffset nf d (getLength d) u = Ok true.
Proof.
  unfold isStructuralOffset. split.
  - reflexivity.
  - rewrite Z.eqb_refl, orb_true_r. reflexivity.
Qed.

(** C4. The two edges are structural offsets in both modes, and an offset
    that is structural in unrestricted mode is structural in restricted
    mode too. *)
Theorem isStructuralOffset_unrestricted_subset (nf : NodeFactory) (d : LinearData) :
  (forall u, isStructuralOffset nf d 0 u = Ok true /\
             isStructuralOffset nf d (getLength d) u = Ok true) /\
  (forall offset,
     isStructuralOffset nf d offset true = Ok true ->
     isStructuralOffset nf d offset false = Ok true).
Proof.
  split; [intros u; apply isStructuralOffset_edges|].
  intros offset. unfold isStructuralOffset.
  destruct ((offset =? 0) || (offset =? getLength d)); [auto|].
  destruct (getData d (offset - 1)) as [l|]; [|auto].
  destruct (getData d offset) as [r|]; [|auto].
  destruct (itemType l) as [ltype|]; [|auto].
  destruct (itemType r) as [rtype|]; [|auto].
  apply (structuralRules_restricted
           (startsWithSlash ltype) (negb (startsWithSlash rtype))
           (bool_decide ("/" +:+ ltype = rtype))
           (canNodeHaveChildren nf (slice1 ltype) ||| notR (isNodeContent nf (slice1 ltype)))
           (t ← getParentNodeTypes nf (slice1 ltype); Ok (isNull t))
           (canNodeHaveChildren nf rtype ||| notR (isNodeContent nf rtype))
           (t ← getParentNodeTypes nf rtype; Ok (isNull t))
           (canNodeHaveChildrenNotContent nf ltype)
           (t ← getChildNodeTypes nf ltype; Ok (isNull t))).
Qed.

Lemma isStructuralOffset_unrestricted_subset_witness :
  isStructuralOffset exampleFactory
    [open "list"; open "listItem"; close "listItem"; close "list"] 2 true = Ok true /\
  isStructuralOffset exampleFactory
    [open "list"; open "listItem"; close "listItem"; close "list"] 2 false = Ok true.
Proof.
  assert (H : isStructuralOffset exampleFactory
                [open "list"; open "listItem"; close "listItem"; close "list"] 2 true
              = Ok true) by (vm_compute; reflexivity).
  split; [exact H|].
  exact (proj2 (isStructuralOffset_unrestricted_subset exampleFactory _) 2 H).
Defined.

(** ** Setting annotations and attributes *)

Lemma getData_Some_bounds (d : LinearData) (offset : Z) (item : Item) :
  getData d offset = Some item ->
  0 <= offset /\ d !! Z.to_nat offset = Some item /\ offset <> getLength d.
Proof.
  unfold getData, getLength. destruct (offset <? 0) eqn:E; [discriminate|].
  intros H. apply Z.ltb_ge in E. repeat split; [lia | exact H |].
  apply lookup_lt_Some in H. lia.
Qed.

Lemma setData_inside (d : LinearData) (offset : Z) (old new : Item) :
  getData d offset = Some old ->
  setData d offset new = <[Z.to_nat offset := new]> d.
Proof.
  intros H. destruct (getData_Some_bounds _ _ _ H) as (H0 & _ & Hlen).
  unfold setData. destruct (offset <? 0) eqn:E; [apply Z.ltb_lt in E; lia|].
  destruct (offset =? getLength d) eqn:E'; [apply Z.eqb_eq in E'; lia|reflexivity].
Qed.

Lemma getData_insert (d : LinearData) (offset : Z) (old new : Item) :
  getData d offset = Some old ->
  getData (<[Z.to_nat offset := new]> d) offset = Some new.
Proof.
  intros H. destruct (getData_Some_bounds _ _ _ H) as (H0 & Hl & _).
  unfold getData. destruct (offset <? 0) eqn:E; [apply Z.ltb_lt in E; lia|].
  apply list_lookup_insert_eq. now apply lookup_lt_Some in Hl.
Qed.

(** C7. Setting an empty index list on an annotated character leaves the bare
    character in its slot, and on an element leaves the element without an
    [annotations] field; nothing else in the data changes, and
    [setAnnotationsAtOffset] with the empty set does the same. *)
Theorem setAnnotationIndexesAtOffset_empty (d : LinearData) (offset : Z) :
  (forall c indexes,
     getData d offset = Some (AnnotatedCharacter c indexes) ->
     setAnnotationIndexesAtOffset d offset [] = <[Z.to_nat offset := Character c]> d /\
     getData (setAnnotationIndexesAtOffset d offset []) offset = Some (Character c)) /\
  (forall e,
     getData d offset = Some (ElementItem e) ->
     exists e',
       setAnnotationIndexesAtOffset d offset [] = <[Z.to_nat offset := ElementItem e']> d /\
       getData (setAnnotationIndexesAtOffset d offset []) offset = Some (ElementItem e') /\
       annotations e' = None /\
       type e' = type e /\ attributes e' = attributes e /\ internal e' = internal e /\
       originalDomElementsIndex e' = originalDomElementsIndex e) /\
  (forall store,
     setAnnotationsAtOffset store d offset [] =
     Ok (store, setAnnotationIndexesAtOffset d offset [])).
Proof.
  repeat split.
  - unfold setAnnotationIndexesAtOffset, isElementData, getCharacterData. rewrite H. simpl.
    apply (setData_inside _ _ _ _ H).
  - unfold setAnnotationIndexesAtOffset, isElementData, getCharacterData. rewrite H. simpl.
    rewrite (setData_inside _ _ _ _ H). apply (getData_insert _ _ _ _ H).
  - intros e H.
    unfold setAnnotationIndexesAtOffset, isElementData, modifyElement. rewrite H. simpl.
    eexists. split; [reflexivity|].
    split; [apply (getData_insert _ _ _ _ H)|].
    cbn. auto.
Qed.

Lemma setAnnotationIndexesAtOffset_empty_witness :
  setAnnotationIndexesAtOffset
    [open "paragraph"; AnnotatedCharacter "a" [0%nat]; close "paragraph"] 1 []
  = [open "paragraph"; Character "a"; close "paragraph"] /\
  exists e',
    setAnnotationIndexesAtOffset
      [ElementItem {| type := "inlineImage"; attributes := None; annotations := Some [0%nat];
                      internal := None; originalDomElementsIndex := None |}] 0 []
    = [ElementItem e'] /\ annotations e' = None.
Proof.
  split.
  - exact (proj1 (proj1 (setAnnotationIndexesAtOffset_empty
                           [open "paragraph"; AnnotatedCharacter "a" [0%nat]; close "paragraph"] 1)
                   "a" [0%nat] eq_refl)).
  - destruct (proj1 (proj2 (setAnnotationIndexesAtOffset_empty
                [ElementItem {| type := "inlineImage"; attributes := None;
                                annotations := Some [0%nat]; internal := None;
                                originalDomElementsIndex := None |}] 0)) _ eq_refl)
      as (e' & Heq & _ & Hann & _).
    exists e'. split; [exact Heq | exact Hann].
Defined.

(** C9. Where the item at the offset is not an element (a character, an
    annotated character, or nothing), [setAttributeAtOffset] returns before
    touching the data. *)
Theorem setAttributeAtOffset_not_element (d : LinearData) (offset : Z) (key : string)
    (value : option Mixed) :
  (forall e, getData d offset <> Some (ElementItem e)) ->
  setAttributeAtOffset d offset key value = d.
Proof.
  intros H. unfold setAttributeAtOffset, isElementData.
  destruct (getData d offset) as [[c|c indexes|e]|]; cbn; try reflexivity.
  now destruct (H e).
Qed.

Lemma setAttributeAtOffset_not_element_witness :
  setAttributeAtOffset [open "paragraph"; Character "a"; close "paragraph"] 1
    "level" (Some (JNum 2))
  = [open "paragraph"; Character "a"; close "paragraph"] /\
  setAttributeAtOffset [open "paragraph"; AnnotatedCharacter "a" [0%nat]] 7 "level" None
  = [open "paragraph"; AnnotatedCharacter "a" [0%nat]].
Proof.
  split; apply setAttributeAtOffset_not_element; intros e H; discriminate H.
Defined.

(** ** Nearest offsets *)

(** C3, as stated, fails: between two paragraphs the content offsets on either
    side are equally far, and the right one is returned; in the middle of a
    two-character paragraph the structural offsets on either side are equally
    far, and the right one is returned. *)
Lemma nearest_offset_tie_counterexample :
  (isContentOffset exampleFactory
     [open "paragraph"; Character "a"; close "paragraph";
      open "paragraph"; Character "b"; close "paragraph"] 3 = Ok false /\
   getRelativeContentOffset exampleFactory
     [open "paragraph"; Character "a"; close "paragraph";
      open "paragraph"; Character "b"; close "paragraph"] 3 (-1) = Ok 2 /\
   getRelativeContentOffset exampleFactory
     [open "paragraph"; Character "a"; close "paragraph";
      open "paragraph"; Character "b"; close "paragraph"] 3 1 = Ok 4 /\
   getNearestContentOffset exampleFactory
     [open "paragraph"; Character "a"; close "paragraph";
      open "paragraph"; Character "b"; close "paragraph"] 3 None <> Ok 2) /\
  (isStructuralOffset exampleFactory
     [open "paragraph"; Character "a"; Character "b"; close "paragraph"] 2 false = Ok false /\
   getRelativeStructuralOffset exampleFactory
     [open "paragraph"; Character "a"; Character "b"; close "paragraph"] 2 (-1) false = Ok 0 /\
   getRelativeStructuralOffset exampleFactory
     [open "paragraph"; Character "a"; Character "b"; close "paragraph"] 2 1 false = Ok 4 /\
   getNearestStructuralOffset exampleFactory
     [open "paragraph"; Character "a"; Character "b"; close "paragraph"] 2 None false <> Ok 0).
Proof.
  repeat split; try (vm_compute; reflexivity); vm_compute; intros H; discriminate H.
Qed.

(** C3, amended. With no direction given and an offset that is not valid
    itself, both directions are searched and the left result is returned only
    where it is strictly nearer; where the two results are equally far from
    the offset, the right one is returned. *)
Theorem nearest_offset_tie_prefers_right (nf : NodeFactory) (d : LinearData)
    (offset l r : Z) :
  (isContentOffset nf d offset = Ok false ->
   getRelativeContentOffset nf d offset (-1) = Ok l ->
   getRelativeContentOffset nf d offset 1 = Ok r ->
   getNearestContentOffset nf d offset None
   = Ok (if offset - l <? r - offset then l else r) /\
   (offset - l = r - offset -> getNearestContentOffset nf d offset None = Ok r)) /\
  (forall unrestricted,
   isStructuralOffset nf d offset unrestricted = Ok false ->
   getRelativeStructuralOffset nf d offset (-1) unrestricted = Ok l ->
   getRelativeStructuralOffset nf d offset 1 unrestricted = Ok r ->
   getNearestStructuralOffset nf d offset None unrestricted
   = Ok (if offset - l <? r - offset then l else r) /\
   (offset - l = r - offset ->
    getNearestStructuralOffset nf d offset None unrestricted = Ok r)).
Proof.
  split.
  - intros Hv Hl Hr. unfold getNearestContentOffset.
    rewrite Hv, bind_Ok. cbv beta iota. rewrite Hl, bind_Ok, Hr, bind_Ok.
    split; [reflexivity|].
    intros Htie. destruct (offset - l <? r - offset) eqn:E; [|reflexivity].
    apply Z.ltb_lt in E. lia.
  - intros unrestricted Hv Hl Hr. unfold getNearestStructuralOffset.
    rewrite Hv, bind_Ok. cbv beta iota. rewrite Hl, bind_Ok, Hr, bind_Ok.
    split; [reflexivity|].
    intros Htie. destruct (offset - l <? r - offset) eqn:E; [|reflexivity].
    apply Z.ltb_lt in E. lia.
Qed.

Lemma nearest_offset_tie_prefers_right_witness :
  getNearestContentOffset exampleFactory
    [open "paragraph"; Character "a"; close "paragraph";
     open "paragraph"; Character "b"; close "paragraph"] 3 None = Ok 4 /\
  getNearestStructuralOffset exampleFactory
    [open "paragraph"; Character "a"; Character "b"; close "paragraph"] 2 None false = Ok 4.
Proof.
  split.
  - refine (proj2 (proj1 (nearest_offset_tie_prefers_right exampleFactory
              [open "paragraph"; Character "a"; close "paragraph";
               open "paragraph"; Character "b"; close "paragraph"] 3 2 4) _ _ _) _);
      try (vm_compute; reflexivity); lia.
  - refine (proj2 (proj2 (nearest_offset_tie_prefers_right exampleFactory
              [open "paragraph"; Character "a"; Character "b"; close "paragraph"] 2 0 4)
              false _ _ _) _);
      try (vm_compute; reflexivity); lia.
Defined.

(** ** Well-formed data *)

Lemma startsWithSlash_true (s : string) :
  startsWithSlash s = true -> s = "/" +:+ slice1 s.
Proof.
  destruct s as [|c rest]; cbn; [discriminate|].
  intros H. apply Ascii.eqb_eq in H. now subst c.
Qed.

Lemma startsWithSlash_slash (t : string) : startsWithSlash ("/" +:+ t) = true.
Proof. reflexivity. Qed.

Lemma slice1_slash (t : string) : slice1 ("/" +:+ t) = t.
Proof. reflexivity. Qed.

Lemma stripSlash_open (t : string) : startsWithSlash t = false -> stripSlash t = t.
Proof. unfold stripSlash. now intros ->. Qed.

Lemma stripSlash_close (t : string) : startsWithSlash t = true -> stripSlash t = slice1 t.
Proof. unfold stripSlash. now intros ->. Qed.

Lemma knownTypes_lookup (nf : NodeFactory) (d : LinearData) (i : nat) (e : Element) :
  knownTypes nf d -> d !! i = Some (ElementItem e) ->
  exists c, nf !! stripSlash (type e) = Some c.
Proof.
  unfold knownTypes. intros H Hi.
  rewrite forallb_forall in H.
  assert (Hin : In (ElementItem e) d).
  { apply list_elem_of_In. apply list_elem_of_lookup. eauto. }
  specialize (H _ Hin). cbn in H. apply bool_decide_eq_true in H.
  destruct H as [c Hc]. eauto.
Qed.

Lemma knownTypes_getData (nf : NodeFactory) (d : LinearData) (offset : Z) (e : Element) :
  knownTypes nf d -> getData d offset = Some (ElementItem e) ->
  exists c, nf !! stripSlash (type e) = Some c.
Proof.
  intros H Hd. apply getData_Some_bounds in Hd as (_ & Hd & _).
  eapply knownTypes_lookup; eauto.
Qed.

Lemma plainTypeNames_lookup (nf : NodeFactory) (t : string) (c : NodeClass) :
  plainTypeNames nf -> nf !! t = Some c -> startsWithSlash t = false.
Proof.
  unfold plainTypeNames. intros H Ht. rewrite forallb_forall in H.
  assert (Hin : In (t, c) (map_to_list nf)).
  { apply list_elem_of_In. now apply elem_of_map_to_list. }
  specialize (H _ Hin). cbn in H. now apply negb_true_iff in H.
Qed.

Lemma getData_interior (d : LinearData) (offset : Z) :
  0 <= offset < getLength d -> exists item, getData d offset = Some item.
Proof.
  unfold getData, getLength. intros H.
  destruct (offset <? 0) eqn:E; [apply Z.ltb_lt in E; lia|].
  destruct (lookup_lt_is_Some_2 d (Z.to_nat offset)) as [item Hitem]; [lia|].
  eauto.
Qed.

(** ** Content offsets *)

Lemma isContentOffset_edges (nf : NodeFactory) (d : LinearData) :
  isContentOffset nf d 0 = Ok false /\ isContentOffset nf d (getLength d) = Ok false.
Proof.
  unfold isContentOffset. split; [reflexivity|].
  now rewrite Z.eqb_refl, orb_true_r.
Qed.

Lemma isContentOffset_interior (nf : NodeFactory) (d : LinearData) (offset : Z) (l r : Item) :
  0 < offset < getLength d ->
  getData d (offset - 1) = Some l -> getData d offset = Some r ->
  isContentOffset nf d offset =
    (Ok (isString l || isString r) |||
     Ok (isArray l || isArray r) |||
     ((Ok (bool_decide (is_Some (itemType l))) &&&
       Ok (startsWithSlash (toKey (itemType l))) &&&
       isNodeContent nf (slice1 (toKey (itemType l)))) |||
      (Ok (bool_decide (is_Some (itemType r))) &&&
       Ok (negb (startsWithSlash (toKey (itemType r)))) &&&
       isNodeContent nf (toKey (itemType r))) |||
      (Ok (bool_decide (Some ("/" +:+ toKey (itemType l)) = itemType r)) &&&
       canNodeContainContent nf (toKey (itemType l))))).
Proof.
  intros Hoff Hl Hr. unfold isContentOffset. rewrite Hl, Hr.
  destruct (offset =? 0) eqn:E0; [apply Z.eqb_eq in E0; lia|].
  destruct (offset =? getLength d) eqn:E1; [apply Z.eqb_eq in E1; lia|].
  reflexivity.
Qed.

(** Between two elements of registered types the three element rules come
    down to three tests on the classes. *)
Lemma isContentOffset_elements (nf : NodeFactory) (d : LinearData) (offset : Z)
    (el er : Element) (cl cr : NodeClass) :
  plainTypeNames nf ->
  0 < offset < getLength d ->
  getData d (offset - 1) = Some (ElementItem el) ->
  getData d offset = Some (ElementItem er) ->
  nf !! stripSlash (type el) = Some cl ->
  nf !! stripSlash (type er) = Some cr ->
  isContentOffset nf d offset =
    Ok ((startsWithSlash (type el) && isContent cl)
        || (negb (startsWithSlash (type er)) && isContent cr)
        || (bool_decide ("/" +:+ type el = type er) && canContainContent cl)).
Proof.
  intros Hplain Hoff Hl Hr Hcl Hcr.
  rewrite (isContentOffset_interior nf d offset _ _ Hoff Hl Hr). cbn.
  unfold isNodeContent, canNodeContainContent, registered.
  destruct (startsWithSlash (type el)) eqn:Sl.
  - rewrite (stripSlash_close _ Sl) in Hcl. rewrite Hcl. cbn.
    destruct (isContent cl); cbn; [reflexivity|].
    assert (Hno : bool_decide (Some ("/" +:+ type el) = Some (type er)) = false).
    { apply bool_decide_eq_false. intros [= Heq].
      assert (Sr : startsWithSlash (type er) = true) by now rewrite <- Heq.
      rewrite (stripSlash_close _ Sr), <- Heq, slice1_slash in Hcr.
      pose proof (plainTypeNames_lookup _ _ _ Hplain Hcr). congruence. }
    assert (Hno' : bool_decide ("/" +:+ type el = type er) = false).
    { apply bool_decide_eq_false. intros Heq. apply bool_decide_eq_false in Hno.
      apply Hno. now f_equal. }
    rewrite Hno, Hno', !andb_false_l, orb_false_r.
    destruct (startsWithSlash (type er)) eqn:Sr; cbn; [reflexivity|].
    rewrite (stripSlash_open _ Sr) in Hcr. rewrite Hcr. cbn.
    now destruct (isContent cr).
  - rewrite (stripSlash_open _ Sl) in Hcl. cbn.
    assert (Hdec : bool_decide (Some ("/" +:+ type el) = Some (type er))
                   = bool_decide ("/" +:+ type el = type er)).
    { apply bool_decide_ext. split; [now intros [= ->] | now intros ->]. }
    rewrite Hdec.
    destruct (startsWithSlash (type er)) eqn:Sr; cbn.
    + destruct (bool_decide ("/" +:+ type el = type er)); cbn; [|reflexivity].
      now rewrite Hcl.
    + rewrite (stripSlash_open _ Sr) in Hcr. rewrite Hcr. cbn.
      destruct (isContent cr); cbn; [reflexivity|].
      destruct (bool_decide ("/" +:+ type el = type er)); cbn; [|reflexivity].
      now rewrite Hcl.
Qed.

(** On data whose element types are registered the test never raises. *)
Lemma isContentOffset_is_ok (nf : NodeFactory) (d : LinearData) (offset : Z) :
  knownTypes nf d -> is_ok (isContentOffset nf d offset).
Proof.
  intros Hk. unfold isContentOffset.
  destruct ((offset =? 0) || (offset =? getLength d)); [apply is_ok_Ok|].
  destruct (getData d (offset - 1)) as [l|] eqn:Hl; [|apply is_ok_Ok].
  destruct (getData d offset) as [r|] eqn:Hr; [|apply is_ok_Ok].
  destruct l as [?|? ?|el], r as [?|? ?|er]; try (cbn; apply is_ok_Ok).
  destruct (knownTypes_getData _ _ _ _ Hk Hl) as [cl Hcl].
  destruct (knownTypes_getData _ _ _ _ Hk Hr) as [cr Hcr].
  cbn. unfold isNodeContent, canNodeContainContent, registered.
  destruct (startsWithSlash (type el)) eqn:Sl; cbn.
  - rewrite (stripSlash_close _ Sl) in Hcl. rewrite Hcl. cbn.
    destruct (isContent cl); cbn; [apply is_ok_Ok|].
    destruct (startsWithSlash (type er)) eqn:Sr; cbn.
    + destruct (bool_decide _) eqn:Hd; cbn; [|apply is_ok_Ok].
      apply bool_decide_eq_true in Hd. injection Hd as Hd.
      rewrite (stripSlash_close _ Sr), <- Hd, slice1_slash in Hcr.
      rewrite Hcr. apply is_ok_Ok.
    + rewrite (stripSlash_open _ Sr) in Hcr. rewrite Hcr. cbn.
      destruct (isContent cr); cbn; [apply is_ok_Ok|].
      destruct (bool_decide _) eqn:Hd; cbn; [|apply is_ok_Ok].
      apply bool_decide_eq_true in Hd. injection Hd as Hd.
      rewrite <- Hd in Sr. discriminate Sr.
  - rewrite (stripSlash_open _ Sl) in Hcl.
    destruct (startsWithSlash (type er)) eqn:Sr; cbn.
    + destruct (bool_decide _); cbn; [|apply is_ok_Ok]. rewrite Hcl. apply is_ok_Ok.
    + rewrite (stripSlash_open _ Sr) in Hcr. rewrite Hcr. cbn.
      destruct (isContent cr); cbn; [apply is_ok_Ok|].
      destruct (bool_decide _); cbn; [|apply is_ok_Ok]. rewrite Hcl. apply is_ok_Ok.
Qed.

(** C1, as stated, fails: to the left of an inline image, an opening element
    of a content type, the offset is claimed to be a content offset whatever
    stands on its left; with the closing marker of an unregistered type there
    the test raises the registry's error and returns nothing. *)
Lemma isContentOffset_counterexample :
  0 < 2 < getLength [open "paragraph"; close "comment"; open "inlineImage";
                     close "inlineImage"; close "paragraph"] /\
  getData [open "paragraph"; close "comment"; open "inlineImage";
           close "inlineImage"; close "paragraph"] 2 = Some (open "inlineImage") /\
  openingElementOf (open "inlineImage") "inlineImage" /\
  holds exampleFactory isContent "inlineImage" /\
  isContentOffset exampleFactory
    [open "paragraph"; close "comment"; open "inlineImage";
     close "inlineImage"; close "paragraph"] 2 = Throw (UnknownNodeType "comment") /\
  isContentOffset exampleFactory
    [open "paragraph"; close "comment"; open "inlineImage";
     close "inlineImage"; close "paragraph"] 2 <> Ok true.
Proof.
  split; [vm_compute; split; reflexivity|].
  split; [reflexivity|].
  split; [exists (element "inlineImage"); repeat split|].
  split; [eexists; split; vm_compute; reflexivity|].
  split; [vm_compute; reflexivity|].
  vm_compute. intros H. discriminate H.
Qed.

(** C1, amended. On data whose element types are all registered, in a
    registry none of whose type names starts with a slash, [isContentOffset]
    is false at offset 0 and at offset length, raises nowhere, and at an
    interior offset is true exactly where the item on the left or on the right
    is a plain or annotated character, or the left item is the closing marker
    of a content type, or the right item is the opening element of a content
    type, or the left item is the opening element of a type that can contain
    content and the right item is its closing marker. *)
Theorem isContentOffset_characterisation (nf : NodeFactory) (d : LinearData) :
  knownTypes nf d -> plainTypeNames nf ->
  isContentOffset nf d 0 = Ok false /\
  isContentOffset nf d (getLength d) = Ok false /\
  forall offset, 0 < offset < getLength d ->
    exists l r,
      getData d (offset - 1) = Some l /\ getData d offset = Some r /\
      is_ok (isContentOffset nf d offset) /\
      (isContentOffset nf d offset = Ok true <->
       characterItem l \/ characterItem r \/
       (exists t, closingMarkerOf l t /\ holds nf isContent t) \/
       (exists t, openingElementOf r t /\ holds nf isContent t) \/
       (exists t, openingElementOf l t /\ closingMarkerOf r t /\
                  holds nf canContainContent t)).
Proof.
  intros Hk Hplain.
  split; [apply isContentOffset_edges|]. split; [apply isContentOffset_edges|].
  intros offset Hoff.
  destruct (getData_interior d (offset - 1)) as [l Hl]; [lia|].
  destruct (getData_interior d offset) as [r Hr]; [lia|].
  exists l, r. split; [exact Hl|]. split; [exact Hr|].
  split; [now apply isContentOffset_is_ok|].
  destruct l as [cl0|cl0 il|el].
  { rewrite (isContentOffset_interior nf d offset _ _ Hoff Hl Hr).
    split; [intros _; left; exact I | intros _; reflexivity]. }
  { rewrite (isContentOffset_interior nf d offset _ _ Hoff Hl Hr).
    split; [intros _; left; exact I | intros _; now destruct r]. }
  destruct r as [cr0|cr0 ir|er].
  { rewrite (isContentOffset_interior nf d offset _ _ Hoff Hl Hr).
    split; [intros _; right; left; exact I | intros _; reflexivity]. }
  { rewrite (isContentOffset_interior nf d offset _ _ Hoff Hl Hr).
    split; [intros _; right; left; exact I | intros _; reflexivity]. }
  destruct (knownTypes_getData _ _ _ _ Hk Hl) as [cl Hcl].
  destruct (knownTypes_getData _ _ _ _ Hk Hr) as [cr Hcr].
  rewrite (isContentOffset_elements nf d offset el er cl cr Hplain Hoff Hl Hr Hcl Hcr).
  split.
  - intros [= H]. right. right.
    apply orb_true_iff in H as [H | H]; [apply orb_true_iff in H as [H | H]|];
      apply andb_true_iff in H as [H1 H2].
    + left. exists (slice1 (type el)). split.
      * exists el. split; [reflexivity | now apply startsWithSlash_true].
      * exists cl. rewrite <- (stripSlash_close _ H1). now split.
    + right. left. apply negb_true_iff in H1. exists (type er). split.
      * exists er. now repeat split.
      * exists cr. rewrite <- (stripSlash_open _ H1). now split.
    + right. right. apply bool_decide_eq_true in H1.
      assert (Sl : startsWithSlash (type el) = false).
      { destruct (startsWithSlash (type el)) eqn:Sl; [|reflexivity].
        assert (Sr : startsWithSlash (type er) = true) by now rewrite <- H1.
        rewrite (stripSlash_close _ Sr), <- H1, slice1_slash in Hcr.
        pose proof (plainTypeNames_lookup _ _ _ Hplain Hcr). congruence. }
      exists (type el). split; [exists el; now repeat split|].
      split; [exists er; now split|].
      exists cl. rewrite <- (stripSlash_open _ Sl). now split.
  - intros [[] | [[] | [H | [H | H]]]]; f_equal.
    + destruct H as (t & (e & [= <-] & Ht) & c & Hc & Hcap).
      assert (Sl : startsWithSlash (type el) = true) by now rewrite Ht.
      rewrite (stripSlash_close _ Sl), Ht, slice1_slash in Hcl.
      assert (cl = c) by congruence. subst c.
      now rewrite Sl, Hcap.
    + destruct H as (t & (e & [= <-] & Ht & Sr) & c & Hc & Hcap).
      subst t. rewrite (stripSlash_open _ Sr) in Hcr.
      assert (cr = c) by congruence. subst c.
      rewrite Sr, Hcap. cbn. now rewrite orb_true_r.
    + destruct H as (t & (e & [= <-] & Ht & Sl) & (e' & [= <-] & Ht') & c & Hc & Hcap).
      subst t. rewrite (stripSlash_open _ Sl) in Hcl.
      assert (cl = c) by congruence. subst c.
      rewrite Hcap, (bool_decide_eq_true_2 _ (eq_sym Ht')). cbn. now rewrite orb_true_r.
Qed.

Lemma isContentOffset_characterisation_witness :
  isContentOffset exampleFactory
    [open "paragraph"; Character "a"; open "inlineImage"; close "inlineImage";
     close "paragraph"] 0 = Ok false /\
  is_ok (isContentOffset exampleFactory
    [open "paragraph"; Character "a"; open "inlineImage"; close "inlineImage";
     close "paragraph"] 3).
Proof.
  assert (Hk : knownTypes exampleFactory
            [open "paragraph"; Character "a"; open "inlineImage"; close "inlineImage";
             close "paragraph"]) by (vm_compute; reflexivity).
  assert (Hp : plainTypeNames exampleFactory) by (vm_compute; reflexivity).
  destruct (isContentOffset_characterisation exampleFactory _ Hk Hp) as (H0 & _ & Hin).
  split; [exact H0|].
  destruct (Hin 3) as (l & r & _ & _ & Hok & _); [vm_compute; split; reflexivity|].
  exact Hok.
Defined.

(** ** Relative offsets: the search returns *)

Lemma getType_element (d : LinearData) (offset : Z) (e : Element) :
  getData d offset = Some (ElementItem e) ->
  getType d offset = Ok (Some (stripSlash (type e))).
Proof.
  intros H. unfold getType, isCloseElementData, stripSlash. rewrite H. cbn.
  now destruct (startsWithSlash (type e)).
Qed.

Lemma getType_is_ok (d : LinearData) (offset : Z) :
  0 <= offset < getLength d -> is_ok (getType d offset).
Proof.
  intros H. destruct (getData_interior d offset H) as [item Hitem].
  unfold getType. rewrite Hitem. destruct (isCloseElementData d offset); apply is_ok_Ok.
Qed.

Section RelativeOffsetTotal.
Variable nf : NodeFactory.
Variable d : LinearData.
Variable start : Z.
Variable callback : Z -> result bool.
Hypothesis Hknown : knownTypes nf d.
Hypothesis Hstart : 0 <= start <= getLength d.
Hypothesis Hcallback : forall o, 0 <= o <= getLength d -> is_ok (callback o).

Lemma ignoreChildrenStep_is_ok (direction dataOffset depth : Z) :
  is_ok (ignoreChildrenStep nf d direction dataOffset depth).
Proof.
  unfold ignoreChildrenStep, isElementData.
  destruct (getData d dataOffset) as [[c|c ix|e]|] eqn:Hd; try apply is_ok_Ok.
  rewrite (getType_element _ _ _ Hd).
  destruct (knownTypes_getData _ _ _ _ Hknown Hd) as [c Hc].
  cbn. unfold shouldIgnoreChildren, registered. rewrite Hc. cbn.
  destruct (ignoreChildren c); [|apply is_ok_Ok].
  destruct (_ || _); [apply is_ok_Ok|].
  destruct (depth - 1 <? 0); apply is_ok_Ok.
Qed.

Lemma aboutToReachEdge_is_ok (st : RelativeOffsetState) :
  0 <= rs_i st <= getLength d ->
  (0 < rs_direction st -> 1 <= rs_i st) ->
  is_ok (aboutToReachEdge d st).
Proof.
  intros Hi Hdir. unfold aboutToReachEdge.
  destruct (negb (rs_turnedAround st)); cbn; [|apply is_ok_Ok].
  destruct (rs_steps st =? 0); cbn; [|apply is_ok_Ok].
  destruct ((rs_direction st <? 0) && (rs_i st =? 0)); cbn; [apply is_ok_Ok|].
  destruct (0 <? rs_direction st) eqn:E; cbn; [|apply is_ok_Ok].
  destruct (rs_i st =? getLength d); cbn; [apply is_ok_Ok|].
  apply Z.ltb_lt in E.
  destruct (getType_is_ok d (rs_i st - 1)) as [t Ht]; [specialize (Hdir E); lia|].
  rewrite Ht. apply is_ok_Ok.
Qed.

Lemma getRelativeOffset_body_spec (st : RelativeOffsetState) :
  searchInvariant (getLength d) st -> 0 <= rs_i st <= getLength d ->
  exists step, getRelativeOffset_body nf d start callback st = Ok step /\
    match step with
    | Return r => r = -1 \/ 0 <= r <= getLength d
    | Continue st' => searchInvariant (getLength d) st' /\ (searchMeasure (getLength d) st' < searchMeasure (getLength d) st)%nat
    end.
Proof.
  intros [Hdir Hfwd Hoff] Hi. unfold getRelativeOffset_body.
  destruct (ignoreChildrenStep_is_ok (rs_direction st)
              (rs_i st + (if 0 <? rs_direction st then -1 else 0))
              (rs_ignoreChildrenDepth st)) as [depth ->].
  rewrite bind_Ok. destruct depth as [depth|]; [|eexists; split; [reflexivity|now left]].
  destruct (Hcallback (rs_i st) Hi) as [valid ->]. rewrite bind_Ok.
  assert (Hstep : forall steps offset depth',
    (offset = -1 \/ 0 <= offset <= getLength d) ->
    searchInvariant (getLength d)
      {| rs_i := rs_i st + rs_direction st; rs_direction := rs_direction st;
         rs_distance := rs_distance st; rs_steps := steps; rs_offset := offset;
         rs_turnedAround := rs_turnedAround st; rs_ignoreChildrenDepth := depth' |} /\
    (searchMeasure (getLength d)
      {| rs_i := rs_i st + rs_direction st; rs_direction := rs_direction st;
         rs_distance := rs_distance st; rs_steps := steps; rs_offset := offset;
         rs_turnedAround := rs_turnedAround st; rs_ignoreChildrenDepth := depth' |}
     < searchMeasure (getLength d) st)%nat).
  { intros steps offset depth' Hoffset. split.
    - constructor; cbn; [exact Hdir | intros E; specialize (Hfwd E); lia | exact Hoffset].
    - unfold searchMeasure, remaining, getLength in *. cbn.
      destruct (rs_turnedAround st), Hdir as [E | E]; rewrite E in *; cbn; lia. }
  destruct valid.
  - destruct (depth =? 0).
    + destruct (rs_distance st =? rs_steps st + 1).
      * eexists. split; [reflexivity|]. right. lia.
      * eexists. split; [reflexivity|]. apply Hstep. right. lia.
    + eexists. split; [reflexivity|]. now apply Hstep.
  - destruct (aboutToReachEdge_is_ok st Hi) as [turn Hturn].
    { intros E. apply Hfwd. destruct Hdir; lia. }
    rewrite Hturn, bind_Ok. destruct turn.
    + destruct (Hcallback start Hstart) as [stay ->]. rewrite bind_Ok.
      destruct stay; eexists; (split; [reflexivity|]); [right; lia|].
      assert (Hnot : rs_turnedAround st = false).
      { unfold aboutToReachEdge in Hturn.
        destruct (rs_turnedAround st); [discriminate Hturn | reflexivity]. }
      split.
      * constructor; cbn; [destruct Hdir as [-> | ->]; lia | lia | exact Hoff].
      * clear Hstep. unfold searchMeasure, remaining, getLength in *. cbn. rewrite Hnot.
        destruct Hdir as [E | E]; rewrite E in *;
          [change (0 <? 1 * -1) with false | change (0 <? -1 * -1) with true];
          cbv iota; lia.
    + eexists. split; [reflexivity|]. now apply Hstep.
Qed.

Lemma getRelativeOffset_loop_total (fuel : nat) :
  forall st, searchInvariant (getLength d) st -> (searchMeasure (getLength d) st < fuel)%nat ->
  exists r, getRelativeOffset_loop nf d start callback fuel st = Ok r /\
            (r = -1 \/ 0 <= r <= getLength d).
Proof.
  induction fuel as [|fuel IH]; intros st Hinv Hfuel; [lia|].
  cbn [getRelativeOffset_loop].
  destruct ((0 <=? rs_i st) && (rs_i st <=? getLength d)) eqn:Hcond.
  - apply andb_true_iff in Hcond as [H1 H2].
    apply Z.leb_le in H1. apply Z.leb_le in H2.
    destruct (getRelativeOffset_body_spec st Hinv (conj H1 H2)) as (step & -> & Hstep).
    rewrite bind_Ok. destruct step as [st'|r].
    + destruct Hstep as [Hinv' Hlt]. apply IH; [exact Hinv' | lia].
    + eauto.
  - exists (rs_offset st). split; [reflexivity | apply (si_offset _ _ Hinv)].
Qed.

Lemma getRelativeOffset_returns (distance : Z) :
  exists r, getRelativeOffset nf d start callback distance = Ok r /\
            (r = -1 \/ 0 <= r <= getLength d).
Proof.
  unfold getRelativeOffset.
  assert (Hloop : forall distance',
    exists r,
      getRelativeOffset_loop nf d start callback (getRelativeOffset_fuel d)
        {| rs_i := start + searchDirection (getLength d) start distance';
           rs_direction := searchDirection (getLength d) start distance';
           rs_distance := Z.abs distance'; rs_steps := 0; rs_offset := -1;
           rs_turnedAround := false; rs_ignoreChildrenDepth := 0 |} = Ok r /\
      (r = -1 \/ 0 <= r <= getLength d)).
  { intros distance'. apply getRelativeOffset_loop_total.
    - unfold searchDirection. constructor; cbn.
      + destruct (start <=? 0); [now left|].
        destruct (start >=? getLength d); [now right|].
        destruct (distance' >? 0); [now left | now right].
      + lia.
      + now left.
    - unfold searchMeasure, getRelativeOffset_fuel, remaining, searchDirection, getLength in *.
      cbn. destruct (start <=? 0) eqn:E1; cbn; [lia|].
      destruct (start >=? Z.of_nat (length d)) eqn:E2; cbn; [lia|].
      destruct (distance' >? 0); cbn; lia. }
  destruct (distance =? 0) eqn:E0.
  - destruct (Hcallback start Hstart) as [valid ->]. rewrite !bind_Ok.
    destruct valid; rewrite bind_Ok.
    + exists start. split; [reflexivity | right; lia].
    + apply (Hloop 1).
  - rewrite bind_Ok. apply (Hloop distance).
Qed.

End RelativeOffsetTotal.

(** ** Relative offsets: the offset found *)

Lemma getRelativeOffset_loop_fuel_mono (nf : NodeFactory) (d : LinearData) (start : Z)
    (callback : Z -> result bool) (fuel : nat) :
  forall fuel' st r,
    getRelativeOffset_loop nf d start callback fuel st = Ok r -> (fuel <= fuel')%nat ->
    getRelativeOffset_loop nf d start callback fuel' st = Ok r.
Proof.
  induction fuel as [|fuel IH]; intros fuel' st r H Hle; [discriminate H|].
  destruct fuel' as [|fuel']; [lia|].
  cbn [getRelativeOffset_loop] in *.
  destruct ((0 <=? rs_i st) && (rs_i st <=? getLength d)); [|exact H].
  destruct (getRelativeOffset_body nf d start callback st) as [[st'|r']|e];
    [|exact H|discriminate H].
  rewrite bind_Ok in *. apply IH; [exact H | lia].
Qed.

Lemma last_cons_default {A : Type} (x : A) (l : list A) (a : A) :
  List.last (x :: l) a = List.last l x.
Proof.
  revert x a. induction l as [|y l IH]; intros x a; [reflexivity|].
  change (List.last (x :: y :: l) a) with (List.last (y :: l) a).
  now rewrite !IH.
Qed.

Lemma last_nonempty_default {A : Type} (l : list A) (a b : A) :
  l <> [] -> List.last l a = List.last l b.
Proof.
  destruct l as [|x l]; [congruence|]. intros _. now rewrite !last_cons_default.
Qed.

Lemma In_offsetsFrom (n : nat) :
  forall i direction o,
    In o (offsetsFrom i direction n) <->
    exists k, (k < n)%nat /\ o = i + Z.of_nat k * direction.
Proof.
  induction n as [|n IH]; intros i direction o; cbn.
  - split; [intros [] | intros (k & Hk & _); lia].
  - rewrite IH. split.
    + intros [<- | (k & Hk & ->)]; [exists 0%nat; split; lia|].
      exists (S k). split; lia.
    + intros (k & Hk & ->). destruct k as [|k]; [left; lia|].
      right. exists k. split; lia.
Qed.

Lemma In_offsetsBeyond (len start direction o : Z) :
  direction = 1 \/ direction = -1 -> 0 <= start <= len ->
  (In o (offsetsBeyond len start direction) <->
   0 <= o <= len /\ 0 < (o - start) * direction).
Proof.
  intros Hdir Hstart. unfold offsetsBeyond, remaining. rewrite In_offsetsFrom.
  destruct Hdir as [-> | ->];
    [change (0 <? 1) with true | change (0 <? -1) with false]; cbv iota.
  - split.
    + intros (k & Hk & ->). lia.
    + intros H. exists (Z.to_nat (o - start - 1)). lia.
  - split.
    + intros (k & Hk & ->). lia.
    + intros H. exists (Z.to_nat (start - 1 - o)). lia.
Qed.

(** The last valid offset of a run is valid, in the run, and no valid offset
    of the run lies further on. *)
Lemma last_filter_extreme (p : Z -> bool) (direction : Z) (n : nat) :
  direction = 1 \/ direction = -1 ->
  forall i o,
    List.filter p (offsetsFrom i direction n) <> [] ->
    In (List.last (List.filter p (offsetsFrom i direction n)) o)
       (offsetsFrom i direction n) /\
    p (List.last (List.filter p (offsetsFrom i direction n)) o) = true /\
    forall x, In x (offsetsFrom i direction n) -> p x = true ->
      (x - List.last (List.filter p (offsetsFrom i direction n)) o) * direction <= 0.
Proof.
  intros Hdir. induction n as [|n IH]; intros i o Hne; [now destruct Hne|].
  cbn [offsetsFrom List.filter] in *.
  destruct (list_eq_nil_dec (List.filter p (offsetsFrom (i + direction) direction n)))
    as [Hnil | Hcons].
  - rewrite Hnil in *. destruct (p i) eqn:Hpi; [|now destruct Hne].
    cbn. split; [now left|]. split; [exact Hpi|].
    intros x [<- | Hx] Hpx; [lia|].
    assert (Hin : In x (List.filter p (offsetsFrom (i + direction) direction n)))
      by (apply filter_In; now split).
    rewrite Hnil in Hin. destruct Hin.
  - assert (Hlast : List.last (if p i then i :: List.filter p (offsetsFrom (i + direction) direction n)
                               else List.filter p (offsetsFrom (i + direction) direction n)) o
                    = List.last (List.filter p (offsetsFrom (i + direction) direction n)) o).
    { destruct (p i); [|reflexivity].
      rewrite last_cons_default. now apply last_nonempty_default. }
    rewrite Hlast. destruct (IH (i + direction) o Hcons) as (Hin & Hp & Hmax).
    split; [now right|]. split; [exact Hp|].
    intros x [<- | Hx] Hpx; [|now apply Hmax].
    apply In_offsetsFrom in Hin as (k & _ & ->).
    destruct Hdir as [-> | ->]; lia.
Qed.

(** The first valid offset of a run is valid, in the run, and no valid offset
    of the run lies before it. *)
Lemma hd_filter_nearest (p : Z -> bool) (direction : Z) (n : nat) :
  direction = 1 \/ direction = -1 ->
  forall i o,
    List.filter p (offsetsFrom i direction n) <> [] ->
    In (List.hd o (List.filter p (offsetsFrom i direction n)))
       (offsetsFrom i direction n) /\
    p (List.hd o (List.filter p (offsetsFrom i direction n))) = true /\
    forall x, In x (offsetsFrom i direction n) -> p x = true ->
      0 <= (x - List.hd o (List.filter p (offsetsFrom i direction n))) * direction.
Proof.
  intros Hdir. induction n as [|n IH]; intros i o Hne; [now destruct Hne|].
  cbn [offsetsFrom List.filter] in *.
  destruct (p i) eqn:Hpi.
  - cbn. split; [now left|]. split; [exact Hpi|].
    intros x [<- | Hx] Hpx; [lia|].
    apply In_offsetsFrom in Hx as (k & _ & ->).
    destruct Hdir as [-> | ->]; lia.
  - destruct (IH (i + direction) o Hne) as (Hin & Hp & Hmin).
    split; [now right|]. split; [exact Hp|].
    intros x [<- | Hx] Hpx; [congruence | now apply Hmin].
Qed.

Lemma noIgnoredChildren_getData (nf : NodeFactory) (d : LinearData) (offset : Z)
    (e : Element) (c : NodeClass) :
  noIgnoredChildren nf d -> getData d offset = Some (ElementItem e) ->
  nf !! stripSlash (type e) = Some c -> ignoreChildren c = false.
Proof.
  unfold noIgnoredChildren. intros H Hd Hc. rewrite forallb_forall in H.
  apply getData_Some_bounds in Hd as (_ & Hd & _).
  assert (Hin : In (ElementItem e) d).
  { apply list_elem_of_In. apply list_elem_of_lookup. eauto. }
  specialize (H _ Hin). cbn in H. rewrite Hc in H. now apply negb_true_iff in H.
Qed.

Lemma noInternalList_getType (d : LinearData) (offset : Z) :
  noInternalList d -> 0 <= offset < getLength d ->
  exists t, getType d offset = Ok t /\ t <> Some "internalList".
Proof.
  unfold noInternalList. intros H Hoff. rewrite forallb_forall in H.
  destruct (getData_interior d offset Hoff) as [item Hitem].
  destruct item as [c|c ix|e].
  - exists None. unfold getType, isCloseElementData. rewrite Hitem. now split.
  - exists None. unfold getType, isCloseElementData. rewrite Hitem. now split.
  - exists (Some (stripSlash (type e))). split; [now apply getType_element|].
    apply getData_Some_bounds in Hitem as (_ & Hitem & _).
    assert (Hin : In (ElementItem e) d).
    { apply list_elem_of_In. apply list_elem_of_lookup. eauto. }
    specialize (H _ Hin). cbn in H. apply negb_true_iff in H.
    intros [= Heq]. rewrite Heq in H. discriminate H.
Qed.

Section RelativeOffsetExtreme.
Variable nf : NodeFactory.
Variable d : LinearData.
Variable start : Z.
Variable callback : Z -> result bool.
Variable p : Z -> bool.
Hypothesis Hknown : knownTypes nf d.
Hypothesis Hstart : 0 <= start <= getLength d.
Hypothesis Hp : forall o, 0 <= o <= getLength d -> callback o = Ok (p o).
Hypothesis Hignore : noIgnoredChildren nf d.
Hypothesis Hinternal : noInternalList d.

Lemma onTheWay_S (i direction : Z) (n : nat) :
  onTheWay (getLength d) i direction (S n) ->
  0 <= i <= getLength d /\ onTheWay (getLength d) (i + direction) direction n /\
  (atEdge (getLength d) i direction = true <-> n = O).
Proof.
  unfold onTheWay, remaining, atEdge.
  intros [Hn [[-> Hi] | [-> Hi]]];
    [change (0 <? 1) with true in * | change (0 <? -1) with false in *];
    [change (1 <? 0) with false | change (-1 <? 0) with true]; cbn [andb orb] in *.
  - split; [lia|]. split; [split; [lia | left; lia]|].
    rewrite Z.eqb_eq. lia.
  - split; [lia|]. split; [split; [lia | right; lia]|].
    rewrite orb_false_r, Z.eqb_eq. lia.
Qed.

Lemma onTheWay_O (i direction : Z) :
  onTheWay (getLength d) i direction O -> (0 <=? i) && (i <=? getLength d) = false.
Proof.
  unfold onTheWay, remaining.
  intros [Hn [[-> Hi] | [-> Hi]]];
    [change (0 <? 1) with true in * | change (0 <? -1) with false in *]; cbv iota in Hn.
  - apply andb_false_iff. right. apply Z.leb_gt. lia.
  - apply andb_false_iff. left. apply Z.leb_gt. lia.
Qed.

Lemma ignoreChildrenStep_none (direction dataOffset depth : Z) :
  ignoreChildrenStep nf d direction dataOffset depth = Ok (Some depth).
Proof.
  unfold ignoreChildrenStep, isElementData.
  destruct (getData d dataOffset) as [[c|c ix|e]|] eqn:Hd; try reflexivity.
  rewrite (getType_element _ _ _ Hd).
  destruct (knownTypes_getData _ _ _ _ Hknown Hd) as [c Hc].
  cbn. unfold shouldIgnoreChildren, registered. rewrite Hc. cbn.
  now rewrite (noIgnoredChildren_getData _ _ _ _ _ Hignore Hd Hc).
Qed.

Lemma aboutToReachEdge_simple (i direction distance steps offset : Z) (turned : bool) :
  0 <= i <= getLength d -> (direction = 1 /\ 1 <= i) \/ direction = -1 ->
  aboutToReachEdge d (searchState i direction distance steps offset turned)
  = Ok (negb turned && (steps =? 0) && atEdge (getLength d) i direction).
Proof.
  intros Hi Hdir. unfold aboutToReachEdge, atEdge. cbn [searchState rs_i rs_direction
    rs_turnedAround rs_steps].
  destruct (negb turned); [|reflexivity]. rewrite bind_Ok.
  destruct (steps =? 0); [|reflexivity]. rewrite bind_Ok.
  destruct Hdir as [[-> Hi1] | ->].
  - change (1 <? 0) with false. change (0 <? 1) with true. cbn [andb orb]. rewrite !bind_Ok.
    destruct (i =? getLength d) eqn:E; [reflexivity|]. rewrite ?bind_Ok.
    apply Z.eqb_neq in E.
    destruct (noInternalList_getType d (i - 1) Hinternal) as (t & -> & Ht); [lia|].
    rewrite bind_Ok. now rewrite bool_decide_eq_false_2.
  - change (-1 <? 0) with true. change (0 <? -1) with false. cbn [andb orb].
    destruct (i =? 0); reflexivity.
Qed.

Lemma getRelativeOffset_body_simple (i direction distance steps offset : Z) (turned : bool) :
  0 <= i <= getLength d -> (direction = 1 /\ 1 <= i) \/ direction = -1 ->
  getRelativeOffset_body nf d start callback
    (searchState i direction distance steps offset turned)
  = Ok (if p i then
          if distance =? steps + 1 then Return i
          else Continue (searchState (i + direction) direction distance (steps + 1) i turned)
        else if negb turned && (steps =? 0) && atEdge (getLength d) i direction then
          if p start then Return start
          else Continue (searchState (start + direction * -1) (direction * -1) 1 steps
                           offset true)
        else Continue (searchState (i + direction) direction distance steps offset turned)).
Proof.
  intros Hi Hdir. unfold getRelativeOffset_body.
  cbn [searchState rs_i rs_direction rs_ignoreChildrenDepth rs_steps rs_distance
       rs_offset rs_turnedAround].
  rewrite ignoreChildrenStep_none, bind_Ok, (Hp i Hi), bind_Ok.
  destruct (p i).
  - change (0 =? 0) with true. cbv iota.
    now destruct (distance =? steps + 1).
  - rewrite (aboutToReachEdge_simple i direction distance steps offset turned Hi Hdir),
      bind_Ok.
    destruct (negb turned && (steps =? 0) && atEdge (getLength d) i direction); [|reflexivity].
    rewrite (Hp start Hstart), bind_Ok. now destruct (p start).
Qed.

Lemma getRelativeOffset_loop_step (fuel : nat) (i direction distance steps offset : Z)
    (turned : bool) (n : nat) :
  onTheWay (getLength d) i direction (S n) ->
  getRelativeOffset_loop nf d start callback (S fuel)
    (searchState i direction distance steps offset turned)
  = if p i then
      if distance =? steps + 1 then Ok i
      else getRelativeOffset_loop nf d start callback fuel
             (searchState (i + direction) direction distance (steps + 1) i turned)
    else if negb turned && (steps =? 0) && atEdge (getLength d) i direction then
      if p start then Ok start
      else getRelativeOffset_loop nf d start callback fuel
             (searchState (start + direction * -1) (direction * -1) 1 steps offset true)
    else getRelativeOffset_loop nf d start callback fuel
           (searchState (i + direction) direction distance steps offset turned).
Proof.
  intros Hway. destruct (onTheWay_S _ _ _ Hway) as (Hi & _ & _).
  cbn [getRelativeOffset_loop]. cbn [searchState rs_i].
  replace ((0 <=? i) && (i <=? getLength d)) with true
    by (symmetry; apply andb_true_iff; split; apply Z.leb_le; lia).
  rewrite (getRelativeOffset_body_simple i direction distance steps offset turned Hi).
  2:{ destruct Hway as [_ [[-> H1] | [-> _]]]; [left; now split | now right]. }
  rewrite bind_Ok.
  destruct (p i).
  - now destruct (distance =? steps + 1).
  - destruct (negb turned && (steps =? 0) && atEdge (getLength d) i direction); [|reflexivity].
    now destruct (p start).
Qed.

Lemma getRelativeOffset_loop_edge (fuel : nat) (i direction distance steps offset : Z)
    (turned : bool) :
  onTheWay (getLength d) i direction O ->
  getRelativeOffset_loop nf d start callback (S fuel)
    (searchState i direction distance steps offset turned) = Ok offset.
Proof.
  intros Hway. cbn [getRelativeOffset_loop]. cbn [searchState rs_i rs_offset].
  now rewrite (onTheWay_O _ _ Hway).
Qed.

(** Once a step has been taken, or after the turn, the search walks on to the
    edge as long as the distance is not used up, and returns the last valid
    offset it passed. *)
Lemma scan_to_edge (direction distance : Z) (turned : bool) (n : nat) :
  forall fuel i steps offset,
    onTheWay (getLength d) i direction n ->
    1 <= steps \/ turned = true -> 0 <= steps ->
    steps + Z.of_nat (length (List.filter p (offsetsFrom i direction n))) < distance ->
    (n < fuel)%nat ->
    getRelativeOffset_loop nf d start callback fuel
      (searchState i direction distance steps offset turned)
    = Ok (List.last (List.filter p (offsetsFrom i direction n)) offset).
Proof.
  induction n as [|n IH]; intros fuel i steps offset Hway Hst Hsteps Hcount Hfuel;
    (destruct fuel as [|fuel]; [lia|]).
  - now apply getRelativeOffset_loop_edge.
  - rewrite (getRelativeOffset_loop_step _ _ _ _ _ _ _ n Hway).
    destruct (onTheWay_S _ _ _ Hway) as (Hi & Hway' & _).
    cbn [offsetsFrom List.filter] in *.
    destruct (p i).
    + cbn [length] in Hcount.
      replace (distance =? steps + 1) with false by (symmetry; apply Z.eqb_neq; lia).
      rewrite last_cons_default. apply IH; [exact Hway' | left; lia | lia | lia | lia].
    + replace (negb turned && (steps =? 0)) with false.
      2:{ symmetry. destruct Hst as [H | ->]; [|reflexivity].
          replace (steps =? 0) with false by (symmetry; apply Z.eqb_neq; lia).
          apply andb_false_r. }
      apply IH; [exact Hway' | exact Hst | lia | lia | lia].
Qed.

(** With one step left to take, the search returns the first valid offset
    ahead. *)
Lemma scan_first (direction distance : Z) (turned : bool) (n : nat) :
  forall fuel i steps offset,
    onTheWay (getLength d) i direction n ->
    List.filter p (offsetsFrom i direction n) <> [] ->
    distance = steps + 1 ->
    (n < fuel)%nat ->
    getRelativeOffset_loop nf d start callback fuel
      (searchState i direction distance steps offset turned)
    = Ok (List.hd offset (List.filter p (offsetsFrom i direction n))).
Proof.
  induction n as [|n IH]; intros fuel i steps offset Hway Hne Hdist Hfuel;
    (destruct fuel as [|fuel]; [lia|]); [now destruct Hne|].
  rewrite (getRelativeOffset_loop_step _ _ _ _ _ _ _ n Hway).
  destruct (onTheWay_S _ _ _ Hway) as (Hi & Hway' & Hedge).
  cbn [offsetsFrom List.filter] in *.
  destruct (p i); [now rewrite Hdist, Z.eqb_refl|].
  replace (atEdge (getLength d) i direction) with false.
  2:{ symmetry. apply not_true_is_false. intros H. apply Hedge in H. subst n.
      now destruct Hne. }
  rewrite andb_false_r. apply IH; [exact Hway' | exact Hne | exact Hdist | lia].
Qed.

(** Setting out, with valid offsets ahead but fewer than the distance, the
    search returns the last of them. *)
Lemma scan_fresh_found (direction distance : Z) (n : nat) :
  forall fuel i offset,
    onTheWay (getLength d) i direction n ->
    List.filter p (offsetsFrom i direction n) <> [] ->
    Z.of_nat (length (List.filter p (offsetsFrom i direction n))) < distance ->
    (n < fuel)%nat ->
    getRelativeOffset_loop nf d start callback fuel
      (searchState i direction distance 0 offset false)
    = Ok (List.last (List.filter p (offsetsFrom i direction n)) offset).
Proof.
  induction n as [|n IH]; intros fuel i offset Hway Hne Hcount Hfuel;
    (destruct fuel as [|fuel]; [lia|]); [now destruct Hne|].
  rewrite (getRelativeOffset_loop_step _ _ _ _ _ _ _ n Hway).
  destruct (onTheWay_S _ _ _ Hway) as (Hi & Hway' & Hedge).
  cbn [offsetsFrom List.filter] in *.
  destruct (p i).
  - cbn [length] in Hcount.
    replace (distance =? 0 + 1) with false by (symmetry; apply Z.eqb_neq; lia).
    rewrite last_cons_default.
    apply scan_to_edge; [exact Hway' | left; lia | lia | lia | lia].
  - replace (atEdge (getLength d) i direction) with false.
    2:{ symmetry. apply not_true_is_false. intros H. apply Hedge in H. subst n.
        now destruct Hne. }
    rewrite andb_false_r. apply IH; [exact Hway' | exact Hne | lia | lia].
Qed.

(** Setting out with no valid offset ahead, the search reaches the edge and
    there stays at a valid start or turns around. *)
Lemma scan_fresh_none (direction distance : Z) (n : nat) :
  forall fuel i offset,
    onTheWay (getLength d) i direction (S n) ->
    List.filter p (offsetsFrom i direction (S n)) = [] ->
    getRelativeOffset_loop nf d start callback (S n + fuel)
      (searchState i direction distance 0 offset false)
    = if p start then Ok start
      else getRelativeOffset_loop nf d start callback fuel
             (searchState (start + direction * -1) (direction * -1) 1 0 offset true).
Proof.
  induction n as [|n IH]; intros fuel i offset Hway Hnil;
    change (S ?m + fuel)%nat with (S (m + fuel));
    rewrite (getRelativeOffset_loop_step _ _ _ _ _ _ _ _ Hway);
    destruct (onTheWay_S _ _ _ Hway) as (Hi & Hway' & Hedge);
    cbn [offsetsFrom List.filter] in Hnil;
    (destruct (p i); [discriminate Hnil|]).
  - replace (atEdge (getLength d) i direction) with true by (symmetry; now apply Hedge).
    reflexivity.
  - replace (atEdge (getLength d) i direction) with false.
    2:{ symmetry. apply not_true_is_false. intros H. apply Hedge in H. discriminate H. }
    rewrite andb_false_r. apply IH; [exact Hway' | exact Hnil].
Qed.

End RelativeOffsetExtreme.

Lemma searchDirection_cases (len start distance : Z) :
  0 <= start <= len -> 0 < len ->
  (searchDirection len start distance = 1 /\ start < len) \/
  (searchDirection len start distance = -1 /\ 0 < start).
Proof.
  intros Hstart Hlen. unfold searchDirection.
  destruct (start <=? 0) eqn:E1; [left; apply Z.leb_le in E1; lia|].
  apply Z.leb_gt in E1.
  destruct (start >=? len) eqn:E2; [right; lia|].
  assert (start < len) by (rewrite Z.geb_leb in E2; apply Z.leb_gt in E2; lia).
  destruct (distance >? 0); [left | right]; lia.
Qed.

Lemma filter_nil_not_valid (p : Z -> bool) (l : list Z) (o : Z) :
  List.filter p l = [] -> In o l -> p o = false.
Proof.
  intros Hnil Hin. destruct (p o) eqn:Hpo; [|reflexivity].
  assert (H : In o (List.filter p l)) by (apply filter_In; now split).
  rewrite Hnil in H. destruct H.
Qed.

(** Where the distance is larger than the number of valid offsets ahead, the
    search ends on the valid offset that lies furthest in its direction. *)
Lemma getRelativeOffset_extreme (nf : NodeFactory) (d : LinearData) (start distance : Z)
    (callback : Z -> result bool) (p : Z -> bool) :
  knownTypes nf d -> 0 <= start <= getLength d ->
  (forall o, 0 <= o <= getLength d -> callback o = Ok (p o)) ->
  d <> [] -> noIgnoredChildren nf d -> noInternalList d ->
  Z.of_nat (length (List.filter p
    (offsetsBeyond (getLength d) start (searchDirection (getLength d) start distance))))
  < Z.abs distance ->
  exists r, getRelativeOffset nf d start callback distance = Ok r /\
    ((r = -1 /\ forall o, 0 <= o <= getLength d -> p o = false) \/
     (0 <= r <= getLength d /\ p r = true /\
      forall o, 0 <= o <= getLength d -> p o = true ->
        (o - r) * searchDirection (getLength d) start distance <= 0)).
Proof.
  intros Hknown Hstart Hp Hne Hignore Hinternal Hcount.
  assert (Hlen : 0 < getLength d).
  { unfold getLength. destruct d; [congruence | cbn; lia]. }
  assert (Hdist : (distance =? 0) = false) by (apply Z.eqb_neq; lia).
  unfold getRelativeOffset. rewrite Hdist, bind_Ok.
  change (if start <=? 0 then 1 else
          if start >=? getLength d then -1 else if distance >? 0 then 1 else -1)
    with (searchDirection (getLength d) start distance).
  set (dir := searchDirection (getLength d) start distance) in *.
  assert (Hdir : (dir = 1 /\ start < getLength d) \/ (dir = -1 /\ 0 < start))
    by (apply searchDirection_cases; lia).
  assert (Hdir' : dir = 1 \/ dir = -1) by (destruct Hdir as [[? _] | [? _]]; auto).
  fold (searchState (start + dir) dir (Z.abs distance) 0 (-1) false).
  unfold offsetsBeyond in Hcount.
  remember (remaining (getLength d) (start + dir) dir) as n eqn:Hn_def.
  assert (Hway : onTheWay (getLength d) (start + dir) dir n).
  { split; [exact Hn_def|]. destruct Hdir as [[-> ?] | [-> ?]]; [left | right]; lia. }
  assert (Hn : (1 <= n)%nat /\
               (n + remaining (getLength d) (start + dir * -1) (dir * -1) <= length d)%nat).
  { subst n. unfold remaining, getLength in *.
    destruct Hdir as [[E ?] | [E ?]]; rewrite E;
      [change (0 <? 1) with true; change (0 <? 1 * -1) with false
      |change (0 <? -1) with false; change (0 <? -1 * -1) with true];
      cbv iota; lia. }
  assert (Hbeyond : forall o, In o (offsetsFrom (start + dir) dir n) <->
                              0 <= o <= getLength d /\ 0 < (o - start) * dir).
  { intros o. rewrite Hn_def.
    apply (In_offsetsBeyond (getLength d) start dir o Hdir' Hstart). }
  destruct (list_eq_nil_dec (List.filter p (offsetsFrom (start + dir) dir n)))
    as [Hnil | Hcons].
  - (* nothing valid ahead *)
    destruct n as [|n']; [lia|].
    unfold getRelativeOffset_fuel.
    replace (2 * length d + 3)%nat with (S n' + (2 * length d + 3 - S n'))%nat by lia.
    rewrite (scan_fresh_none nf d start callback p Hknown Hstart Hp Hignore Hinternal
               dir (Z.abs distance) n' _ _ _ Hway Hnil).
    destruct (p start) eqn:Hps.
    + exists start. split; [reflexivity|]. right. split; [lia|]. split; [exact Hps|].
      intros o Ho Hpo.
      destruct (Z_lt_le_dec 0 ((o - start) * dir)) as [Hside | Hside]; [|exact Hside].
      pose proof (filter_nil_not_valid p _ o Hnil (proj2 (Hbeyond o) (conj Ho Hside))). congruence.
    + set (n2 := remaining (getLength d) (start + dir * -1) (dir * -1)).
      assert (Hway2 : onTheWay (getLength d) (start + dir * -1) (dir * -1) n2).
      { split; [reflexivity|]. destruct Hdir as [[-> ?] | [-> ?]]; [right | left]; lia. }
      assert (Hn2 : (S n' + n2 <= length d)%nat) by (subst n2; lia).
      assert (Hdir2 : dir * -1 = 1 \/ dir * -1 = -1) by lia.
      assert (Hbeyond2 : forall o, In o (offsetsFrom (start + dir * -1) (dir * -1) n2) <->
                                   0 <= o <= getLength d /\ 0 < (o - start) * (dir * -1)).
      { intros o. apply (In_offsetsBeyond (getLength d) start (dir * -1) o Hdir2 Hstart). }
      destruct (list_eq_nil_dec (List.filter p (offsetsFrom (start + dir * -1) (dir * -1) n2)))
        as [Hnil2 | Hcons2].
      * (* nothing valid behind either *)
        rewrite (scan_to_edge nf d start callback p Hknown Hstart Hp Hignore Hinternal
                   (dir * -1) 1 true n2 _ _ 0 (-1) Hway2);
          [|now right | lia | rewrite Hnil2; cbn; lia | lia].
        rewrite Hnil2. exists (-1). split; [reflexivity|]. left. split; [reflexivity|].
        intros o Ho.
        destruct (Z_lt_le_dec 0 ((o - start) * dir)) as [Hside | Hside].
        { exact (filter_nil_not_valid p _ o Hnil (proj2 (Hbeyond o) (conj Ho Hside))). }
        destruct (Z.eq_dec o start) as [-> | Hneq]; [exact Hps|].
        apply (filter_nil_not_valid p _ o Hnil2). apply Hbeyond2. split; [exact Ho|].
        destruct Hdir' as [E | E]; rewrite E in *; lia.
      * (* the nearest valid offset behind *)
        rewrite (scan_first nf d start callback p Hknown Hstart Hp Hignore Hinternal
                   (dir * -1) 1 true n2 _ _ 0 (-1) Hway2 Hcons2); [|lia|lia].
        destruct (hd_filter_nearest p (dir * -1) n2 Hdir2 (start + dir * -1) (-1) Hcons2)
          as (Hin & Hpr & Hmin).
        eexists. split; [reflexivity|]. right.
        apply Hbeyond2 in Hin as [Hr Hrside].
        split; [exact Hr|]. split; [exact Hpr|].
        intros o Ho Hpo.
        destruct (Z_lt_le_dec 0 ((o - start) * dir)) as [Hside | Hside].
        { pose proof (filter_nil_not_valid p _ o Hnil (proj2 (Hbeyond o) (conj Ho Hside))). congruence. }
        destruct (Z.eq_dec o start) as [-> | Hneq]; [congruence|].
        assert (Hin2 : In o (offsetsFrom (start + dir * -1) (dir * -1) n2)).
        { apply Hbeyond2. split; [exact Ho|].
          destruct Hdir' as [E | E]; rewrite E in *; lia. }
        specialize (Hmin o Hin2 Hpo). lia.
  - (* valid offsets ahead, fewer than the distance *)
    rewrite (scan_fresh_found nf d start callback p Hknown Hstart Hp Hignore Hinternal
               dir (Z.abs distance) n _ _ (-1) Hway Hcons Hcount);
      [|unfold getRelativeOffset_fuel; lia].
    destruct (last_filter_extreme p dir n Hdir' (start + dir) (-1) Hcons)
      as (Hin & Hpr & Hmax).
    eexists. split; [reflexivity|]. right.
    apply Hbeyond in Hin as [Hr Hrside].
    split; [exact Hr|]. split; [exact Hpr|].
    intros o Ho Hpo.
    destruct (Z_lt_le_dec 0 ((o - start) * dir)) as [Hside | Hside].
    + apply Hmax; [now apply Hbeyond | exact Hpo].
    + destruct Hdir' as [E | E]; rewrite E in *; lia.
Qed.

(** C2, as stated, fails. An element of an unregistered type on the way
    makes the search raise; starting inside a node whose children are
    ignored, the search returns -1 after it has passed a valid offset; next
    to the opening of an internal list the search turns around early and
    returns -1 with valid offsets ahead; and in empty data it returns -1
    although offset 0 passes the test. *)
Lemma getRelativeOffset_counterexample :
  getRelativeOffset exampleFactory
    [open "paragraph"; open "comment"; close "comment"; close "paragraph"] 0
    (fun _ => Ok false) 1 = Throw (UnknownNodeType "comment") /\
  (isContentOffset exampleFactory
     [open "references"; open "paragraph"; Character "a"; close "paragraph";
      close "references"] 3 = Ok true /\
   getRelativeOffset exampleFactory
     [open "references"; open "paragraph"; Character "a"; close "paragraph";
      close "references"] 2
     (isContentOffset exampleFactory
        [open "references"; open "paragraph"; Character "a"; close "paragraph";
         close "references"]) 5 = Ok (-1)) /\
  (isContentOffset exampleFactory
     [open "internalList"; open "paragraph"; Character "a"; close "paragraph";
      close "internalList"] 2 = Ok true /\
   getRelativeOffset exampleFactory
     [open "internalList"; open "paragraph"; Character "a"; close "paragraph";
      close "internalList"] 0
     (isContentOffset exampleFactory
        [open "internalList"; open "paragraph"; Character "a"; close "paragraph";
         close "internalList"]) 3 = Ok (-1)) /\
  (isStructuralOffset exampleFactory [] 0 false = Ok true /\
   getRelativeOffset exampleFactory [] 0
     (fun o => isStructuralOffset exampleFactory [] o false) 1 = Ok (-1)).
Proof.
  repeat split; vm_compute; reflexivity.
Qed.

(** C2, amended. On data whose element types are all registered, from a
    start in [0, length] and with a test that does not raise on the offsets
    of the data, [getRelativeOffset] returns, without raising, -1 or an
    offset in [0, length]. If moreover the data is not empty and holds no
    element whose children are ignored and no internal list, and the
    magnitude of the distance exceeds the number of valid offsets beyond the
    start in the direction of the search, then the result is the valid offset
    of the data that lies furthest in that direction, or -1 where the data
    has no valid offset at all. *)
Theorem getRelativeOffset_total (nf : NodeFactory) (d : LinearData) (start distance : Z)
    (callback : Z -> result bool) :
  knownTypes nf d -> 0 <= start <= getLength d ->
  (forall o, 0 <= o <= getLength d -> is_ok (callback o)) ->
  (exists r, getRelativeOffset nf d start callback distance = Ok r /\
             (r = -1 \/ 0 <= r <= getLength d)) /\
  (forall p : Z -> bool,
     (forall o, 0 <= o <= getLength d -> callback o = Ok (p o)) ->
     d <> [] -> noIgnoredChildren nf d -> noInternalList d ->
     Z.of_nat (length (List.filter p
       (offsetsBeyond (getLength d) start (searchDirection (getLength d) start distance))))
     < Z.abs distance ->
     exists r, getRelativeOffset nf d start callback distance = Ok r /\
       ((r = -1 /\ forall o, 0 <= o <= getLength d -> p o = false) \/
        (0 <= r <= getLength d /\ p r = true /\
         forall o, 0 <= o <= getLength d -> p o = true ->
           (o - r) * searchDirection (getLength d) start distance <= 0))).
Proof.
  intros Hknown Hstart Hcallback. split.
  - now apply getRelativeOffset_returns.
  - intros p Hp Hne Hignore Hinternal Hcount.
    now apply getRelativeOffset_extreme.
Qed.

Lemma getRelativeOffset_total_witness :
  (exists r,
     getRelativeOffset exampleFactory
       [open "paragraph"; Character "a"; Character "b"; Character "c"; close "paragraph"] 2
       (isContentOffset exampleFactory
          [open "paragraph"; Character "a"; Character "b"; Character "c"; close "paragraph"])
       7 = Ok r /\ (r = -1 \/ 0 <= r <= 5)) /\
  getRelativeOffset exampleFactory
    [open "paragraph"; Character "a"; Character "b"; Character "c"; close "paragraph"] 2
    (isContentOffset exampleFactory
       [open "paragraph"; Character "a"; Character "b"; Character "c"; close "paragraph"])
    7 = Ok 4.
Proof.
  assert (Hk : knownTypes exampleFactory
            [open "paragraph"; Character "a"; Character "b"; Character "c";
             close "paragraph"]) by (vm_compute; reflexivity).
  destruct (getRelativeOffset_total exampleFactory
              [open "paragraph"; Character "a"; Character "b"; Character "c";
               close "paragraph"] 2 7
              (isContentOffset exampleFactory
                 [open "paragraph"; Character "a"; Character "b"; Character "c";
                  close "paragraph"]) Hk) as [Hreturns Hextreme].
  - vm_compute. split; discriminate.
  - intros o _. now apply isContentOffset_is_ok.
  - split; [exact Hreturns|].
    destruct (Hextreme (fun o => (1 <=? o) && (o <=? 4))) as (r & Hr & _).
    + intros o Ho.
      assert (Hcases : o = 0 \/ o = 1 \/ o = 2 \/ o = 3 \/ o = 4 \/ o = 5)
        by (unfold getLength in Ho; cbn in Ho; lia).
      destruct Hcases as [-> | [-> | [-> | [-> | [-> | ->]]]]]; vm_compute; reflexivity.
    + discriminate.
    + vm_compute. reflexivity.
    + vm_compute. reflexivity.
    + vm_compute. reflexivity.
    + rewrite Hr. f_equal.
      assert (Hv : getRelativeOffset exampleFactory
                [open "paragraph"; Character "a"; Character "b"; Character "c";
                 close "paragraph"] 2
                (isContentOffset exampleFactory
                   [open "paragraph"; Character "a"; Character "b"; Character "c";
                    close "paragraph"]) 7 = Ok 4) by (vm_compute; reflexivity).
      congruence.
Defined.

(** ** Annotation indexes at an offset *)

Lemma toKey_Some (t : string) : toKey (Some t) = t.
Proof. reflexivity. Qed.

(** The test that decides whether the offset is moved back off a closing
    marker. *)
Lemma rewind_is_ok (nf : NodeFactory) (d : LinearData) (offset : Z) (ignoreClose : bool) :
  knownTypes nf d ->
  is_ok (Ok (negb ignoreClose) &&& Ok (isCloseElementData d offset) &&&
         notR (t ← getType d offset; canNodeHaveChildren nf (toKey t))).
Proof.
  intros Hk. destruct (negb ignoreClose); [|apply is_ok_Ok]. rewrite bind_Ok.
  unfold isCloseElementData.
  destruct (getData d offset) as [[c|c ix|e]|] eqn:Hd; try apply is_ok_Ok.
  destruct (startsWithSlash (type e)); [|apply is_ok_Ok]. rewrite !bind_Ok.
  rewrite (getType_element _ _ _ Hd).
  destruct (knownTypes_getData _ _ _ _ Hk Hd) as [c Hc].
  unfold notR, canNodeHaveChildren, registered. rewrite bind_Ok, toKey_Some.
  rewrite Hc. apply is_ok_Ok.
Qed.

Lemma getRelativeContentOffset_is_ok (nf : NodeFactory) (d : LinearData)
    (offset distance : Z) :
  knownTypes nf d -> 0 <= offset <= getLength d ->
  is_ok (getRelativeContentOffset nf d offset distance).
Proof.
  intros Hk Hoff. unfold getRelativeContentOffset.
  destruct (getRelativeOffset_returns nf d offset (isContentOffset nf d) Hk Hoff
              (fun o _ => isContentOffset_is_ok nf d o Hk) distance) as (r & -> & _).
  apply is_ok_Ok.
Qed.

Lemma getAnnotationIndexesFromOffset_inside (nf : NodeFactory) (d : LinearData)
    (offset : Z) (ignoreClose : bool) :
  knownTypes nf d -> 0 <= offset <= getLength d ->
  is_ok (getAnnotationIndexesFromOffset nf d offset ignoreClose).
Proof.
  intros Hk Hoff. unfold getAnnotationIndexesFromOffset.
  replace ((offset <? 0) || (offset >? getLength d)) with false
    by (symmetry; apply orb_false_iff; split; [apply Z.ltb_ge | rewrite Z.gtb_ltb; apply Z.ltb_ge];
        lia).
  destruct (rewind_is_ok nf d offset ignoreClose Hk) as [rewind ->]. rewrite bind_Ok.
  assert (Hoffset : is_ok (if rewind then getRelativeContentOffset nf d offset (-1)
                           else Ok offset)).
  { destruct rewind; [now apply getRelativeContentOffset_is_ok | apply is_ok_Ok]. }
  destruct Hoffset as [offset' ->]. rewrite bind_Ok.
  destruct (getData d offset') as [[c|c ix|e]|]; try apply is_ok_Ok.
  destruct (annotations e); apply is_ok_Ok.
Qed.

Lemma getAnnotationIndexesFromOffset_outside (nf : NodeFactory) (d : LinearData)
    (offset : Z) (ignoreClose : bool) :
  offset < 0 \/ offset > getLength d ->
  getAnnotationIndexesFromOffset nf d offset ignoreClose = Throw (OutOfBounds offset).
Proof.
  intros Hoff. unfold getAnnotationIndexesFromOffset.
  replace ((offset <? 0) || (offset >? getLength d)) with true; [reflexivity|].
  symmetry. apply orb_true_iff.
  destruct Hoff; [left; apply Z.ltb_lt | right; rewrite Z.gtb_ltb; apply Z.ltb_lt]; lia.
Qed.

Lemma getAnnotationIndexesFromOffset_at_length (nf : NodeFactory) (d : LinearData)
    (ignoreClose : bool) :
  getAnnotationIndexesFromOffset nf d (getLength d) ignoreClose = Ok [].
Proof.
  unfold getAnnotationIndexesFromOffset.
  assert (Hnone : getData d (getLength d) = None).
  { unfold getData, getLength. destruct (Z.of_nat (length d) <? 0); [reflexivity|].
    apply lookup_ge_None. lia. }
  replace ((getLength d <? 0) || (getLength d >? getLength d)) with false.
  2:{ symmetry. apply orb_false_iff. unfold getLength.
      split; [apply Z.ltb_ge | rewrite Z.gtb_ltb; apply Z.ltb_ge]; lia. }
  unfold isCloseElementData. rewrite Hnone.
  destruct (negb ignoreClose); cbn; now rewrite Hnone.
Qed.

(** *** The returned array is a new object *)

Lemma getData_viewData (h : Heap) (sd : list StoredItem) (offset : Z) :
  getData (viewData h sd) offset
  = viewItem h <$> (if offset <? 0 then None else sd !! Z.to_nat offset).
Proof.
  unfold getData, viewData. destruct (offset <? 0); [reflexivity|].
  apply list_lookup_fmap.
Qed.

Lemma allocArray_fresh (h : Heap) (contents : list nat) :
  h !! (allocArray h contents).2 = None /\
  arrayAt (allocArray h contents).1 (allocArray h contents).2 = contents /\
  forall b, b <> (allocArray h contents).2 -> (allocArray h contents).1 !! b = h !! b.
Proof.
  unfold allocArray, arrayAt. cbn. split; [|split].
  - apply not_elem_of_dom. apply is_fresh.
  - now rewrite lookup_insert_eq.
  - intros b Hb. now rewrite lookup_insert_ne.
Qed.

Lemma getAnnotationIndexesFromOffset_alloc_spec (nf : NodeFactory) (h : Heap)
    (sd : list StoredItem) (offset : Z) (ignoreClose : bool) :
  match getAnnotationIndexesFromOffset_alloc nf h sd offset ignoreClose with
  | Ok (h', a) =>
      getAnnotationIndexesFromOffset nf (viewData h sd) offset ignoreClose
      = Ok (arrayAt h' a) /\
      h !! a = None /\ (forall b, b <> a -> h' !! b = h !! b)
  | Throw e =>
      getAnnotationIndexesFromOffset nf (viewData h sd) offset ignoreClose = Throw e
  end.
Proof.
  unfold getAnnotationIndexesFromOffset_alloc, getAnnotationIndexesFromOffset.
  destruct ((offset <? 0) || (offset >? getLength (viewData h sd))); [reflexivity|].
  destruct (Ok (negb ignoreClose) &&& Ok (isCloseElementData (viewData h sd) offset) &&&
            notR (t ← getType (viewData h sd) offset; canNodeHaveChildren nf (toKey t)))
    as [rewind|e]; [|reflexivity].
  rewrite !bind_Ok.
  destruct (if rewind then getRelativeContentOffset nf (viewData h sd) offset (-1)
            else Ok offset) as [offset'|e]; [|reflexivity].
  rewrite !bind_Ok, getData_viewData.
  assert (Halloc : forall contents,
    Ok contents = Ok (arrayAt (allocArray h contents).1 (allocArray h contents).2) /\
    h !! (allocArray h contents).2 = None /\
    (forall b, b <> (allocArray h contents).2 -> (allocArray h contents).1 !! b = h !! b)).
  { intros contents. destruct (allocArray_fresh h contents) as (H1 & H2 & H3).
    rewrite H2. auto. }
  destruct (if offset' <? 0 then None else sd !! Z.to_nat offset')
    as [[c|c a|e [a|]]|]; cbn [fmap option_fmap option_map viewItem annotations];
    apply Halloc.
Qed.

Lemma viewData_agree (h h2 : Heap) (sd : list StoredItem) :
  allocated h sd -> (forall b, is_Some (h !! b) -> h2 !! b = h !! b) ->
  viewData h2 sd = viewData h sd.
Proof.
  intros Halloc Hagree. unfold viewData. apply list_fmap_ext. intros i item Hitem.
  assert (Hother : forall b, b ∈ itemAddresses item -> arrayAt h2 b = arrayAt h b).
  { intros b Hb. unfold arrayAt.
    now rewrite (Hagree b (Halloc item b (list_elem_of_lookup_2 _ _ _ Hitem) Hb)). }
  destruct item as [c|c b|e [b|]]; cbn in *; try reflexivity.
  - rewrite Hother; [reflexivity | apply list_elem_of_here].
  - rewrite Hother; [reflexivity | apply list_elem_of_here].
Qed.

(** C10, as stated, fails: at the closing marker of an unregistered type,
    inside the bounds, the call raises the registry's error. *)
Lemma getAnnotationIndexesFromOffset_counterexample :
  0 <= 2 <= getLength [open "paragraph"; open "comment"; close "comment"; close "paragraph"] /\
  getAnnotationIndexesFromOffset exampleFactory
    [open "paragraph"; open "comment"; close "comment"; close "paragraph"] 2 false
  = Throw (UnknownNodeType "comment").
Proof.
  split; [vm_compute; split; discriminate | vm_compute; reflexivity].
Qed.

(** C10, amended. On data whose element types are all registered,
    [getAnnotationIndexesFromOffset] raises exactly where the offset is below
    0 or above the length; at the length it returns the empty list; and the
    array a call returns is a new object, holding what the call returns: no
    array of the heap before the call is changed by the call, and writing to
    the returned array leaves the stored data as it was. *)
Theorem getAnnotationIndexesFromOffset_bounds (nf : NodeFactory) (d : LinearData)
    (offset : Z) (ignoreClose : bool) :
  knownTypes nf d ->
  ((exists e, getAnnotationIndexesFromOffset nf d offset ignoreClose = Throw e) <->
   offset < 0 \/ offset > getLength d) /\
  getAnnotationIndexesFromOffset nf d (getLength d) ignoreClose = Ok [] /\
  (forall (h : Heap) (sd : list StoredItem),
     viewData h sd = d -> allocated h sd ->
     match getAnnotationIndexesFromOffset_alloc nf h sd offset ignoreClose with
     | Throw e => getAnnotationIndexesFromOffset nf d offset ignoreClose = Throw e
     | Ok (h', a) =>
         getAnnotationIndexesFromOffset nf d offset ignoreClose = Ok (arrayAt h' a) /\
         h !! a = None /\
         (forall b, b <> a -> h' !! b = h !! b) /\
         (forall contents, viewData (<[a := contents]> h') sd = d)
     end).
Proof.
  intros Hk. split; [|split].
  - split.
    + intros [e He].
      destruct (Z_lt_le_dec offset 0) as [Hlo | Hlo]; [now left|].
      destruct (Z_lt_le_dec (getLength d) offset) as [Hhi | Hhi]; [right; lia|].
      destruct (getAnnotationIndexesFromOffset_inside nf d offset ignoreClose Hk)
        as [l Hl]; [lia | congruence].
    + intros Hout. eexists. now apply getAnnotationIndexesFromOffset_outside.
  - apply getAnnotationIndexesFromOffset_at_length.
  - intros h sd <- Halloc.
    pose proof (getAnnotationIndexesFromOffset_alloc_spec nf h sd offset ignoreClose)
      as Hspec.
    destruct (getAnnotationIndexesFromOffset_alloc nf h sd offset ignoreClose)
      as [[h' a]|e]; [|exact Hspec].
    destruct Hspec as (Hres & Hfresh & Hsame).
    split; [exact Hres|]. split; [exact Hfresh|]. split; [exact Hsame|].
    intros contents. apply viewData_agree; [exact Halloc|].
    intros b [l Hb].
    assert (b <> a) by congruence.
    rewrite lookup_insert_ne; [now apply Hsame | congruence].
Qed.

Lemma getAnnotationIndexesFromOffset_bounds_witness :
  ~ (exists e, getAnnotationIndexesFromOffset exampleFactory
                 [open "paragraph"; AnnotatedCharacter "a" [0%nat]; close "paragraph"]
                 1 false = Throw e) /\
  getAnnotationIndexesFromOffset exampleFactory
    [open "paragraph"; AnnotatedCharacter "a" [0%nat]; close "paragraph"] 3 false = Ok [] /\
  match getAnnotationIndexesFromOffset_alloc exampleFactory {[ 5%nat := [0%nat] ]}
          [StoredElement (element "paragraph") None; StoredAnnotatedCharacter "a" 5;
           StoredElement (element "/paragraph") None] 1 false with
  | Ok (h', a) =>
      ({[ 5%nat := [0%nat] ]} : Heap) !! a = None /\
      viewData (<[a := [1%nat; 2%nat]]> h')
        [StoredElement (element "paragraph") None; StoredAnnotatedCharacter "a" 5;
         StoredElement (element "/paragraph") None]
      = [open "paragraph"; AnnotatedCharacter "a" [0%nat]; close "paragraph"]
  | Throw _ => False
  end.
Proof.
  assert (Hk : knownTypes exampleFactory
            [open "paragraph"; AnnotatedCharacter "a" [0%nat]; close "paragraph"])
    by (vm_compute; reflexivity).
  pose proof (getAnnotationIndexesFromOffset_bounds exampleFactory
                [open "paragraph"; AnnotatedCharacter "a" [0%nat]; close "paragraph"]
                1 false Hk) as (Hiff & _ & Hheap).
  assert (Hin : ~ (exists e, getAnnotationIndexesFromOffset exampleFactory
                     [open "paragraph"; AnnotatedCharacter "a" [0%nat]; close "paragraph"]
                     1 false = Throw e)).
  { intros Hthrow. apply Hiff in Hthrow. unfold getLength in Hthrow. cbn in Hthrow. lia. }
  split; [exact Hin|]. split.
  - exact (proj1 (proj2 (getAnnotationIndexesFromOffset_bounds exampleFactory
                           [open "paragraph"; AnnotatedCharacter "a" [0%nat];
                            close "paragraph"] 3 false Hk))).
  - specialize (Hheap {[ 5%nat := [0%nat] ]}
                  [StoredElement (element "paragraph") None; StoredAnnotatedCharacter "a" 5;
                   StoredElement (element "/paragraph") None]).
    destruct (getAnnotationIndexesFromOffset_alloc exampleFactory {[ 5%nat := [0%nat] ]}
                [StoredElement (element "paragraph") None; StoredAnnotatedCharacter "a" 5;
                 StoredElement (element "/paragraph") None] 1 false) as [[h' a]|e].
    + destruct Hheap as (_ & Hfresh & _ & Hsame).
      * reflexivity.
      * intros item b Hitem Hb.
        apply elem_of_cons in Hitem as [-> | Hitem]; [now apply elem_of_nil in Hb|].
        apply elem_of_cons in Hitem as [-> | Hitem].
        { apply list_elem_of_singleton in Hb as ->. now eexists. }
        apply elem_of_cons in Hitem as [-> | Hitem]; [now apply elem_of_nil in Hb|].
        now apply elem_of_nil in Hitem.
      * split; [exact Hfresh | apply Hsame].
    + apply Hin. exists e. apply Hheap.
      * reflexivity.
      * intros item b Hitem Hb.
        apply elem_of_cons in Hitem as [-> | Hitem]; [now apply elem_of_nil in Hb|].
        apply elem_of_cons in Hitem as [-> | Hitem].
        { apply list_elem_of_singleton in Hb as ->. now eexists. }
        apply elem_of_cons in Hitem as [-> | Hitem]; [now apply elem_of_nil in Hb|].
        now apply elem_of_nil in Hitem.
Defined.

(** ** Counting items outside internal nodes *)

Lemma getData_middle (pre rest : list Item) (item : Item) :
  getData (pre ++ item :: rest) (Z.of_nat (length pre)) = Some item.
Proof.
  unfold getData. destruct (Z.of_nat (length pre) <? 0) eqn:E; [apply Z.ltb_lt in E; lia|].
  rewrite Nat2Z.id. now apply list_lookup_middle.
Qed.

Lemma nonInternalItems_nonneg (nf : NodeFactory) (d : list Item) :
  forall depth, 0 <= nonInternalItems nf depth d.
Proof.
  induction d as [|item rest IH]; intros depth; cbn; [lia|].
  destruct (internalElement nf item); [apply IH|].
  specialize (IH depth). destruct (depth =? 0); lia.
Qed.

(** One pass of the counting loop over an item of known type. *)
Lemma countNonInternalElements_loop_step (nf : NodeFactory) (limit : option Z)
    (pre rest : list Item) (item : Item) (n : nat) (internalDepth count : Z) :
  knownTypes nf (pre ++ item :: rest) ->
  countNonInternalElements_loop nf (pre ++ item :: rest) limit (S n)
    (Z.of_nat (length pre)) internalDepth count
  = if internalElement nf item then
      countNonInternalElements_loop nf (pre ++ item :: rest) limit n
        (Z.of_nat (length pre) + 1)
        (match itemType item with
         | Some t => if startsWithSlash t then internalDepth - 1 else internalDepth + 1
         | None => internalDepth
         end) count
    else if internalDepth =? 0 then
      if match limit with
         | Some l => negb (l =? 0) && (count + 1 >=? l)
         | None => false
         end
      then Ok (count + 1)
      else countNonInternalElements_loop nf (pre ++ item :: rest) limit n
             (Z.of_nat (length pre) + 1) internalDepth (count + 1)
    else countNonInternalElements_loop nf (pre ++ item :: rest) limit n
           (Z.of_nat (length pre) + 1) internalDepth count.
Proof.
  intros Hk. cbn [countNonInternalElements_loop].
  pose proof (getData_middle pre rest item) as Hd.
  unfold internalElement, isOpenElementData. rewrite Hd.
  destruct item as [c|c ix|e].
  - unfold getType, isCloseElementData. rewrite Hd. reflexivity.
  - unfold getType, isCloseElementData. rewrite Hd. reflexivity.
  - rewrite (getType_element _ _ _ Hd), bind_Ok.
    destruct (knownTypes_getData _ _ _ _ Hk Hd) as [c Hc].
    cbn [itemType]. rewrite toKey_Some. unfold isNodeInternal, registered. rewrite Hc.
    destruct (negb (String.eqb (stripSlash (type e)) "")); rewrite !bind_Ok; cbn [andb].
    + destruct (isInternal c); [|reflexivity].
      now destruct (startsWithSlash (type e)).
    + reflexivity.
Qed.

(** With the limit of 3 the loop returns the number of items outside internal
    nodes, capped at 3. *)
Lemma countNonInternalElements_loop_limit3 (nf : NodeFactory) (rest : list Item) :
  forall pre internalDepth count,
    knownTypes nf (pre ++ rest) -> 0 <= count < 3 ->
    countNonInternalElements_loop nf (pre ++ rest) (Some 3) (length rest)
      (Z.of_nat (length pre)) internalDepth count
    = Ok (Z.min 3 (count + nonInternalItems nf internalDepth rest)).
Proof.
  induction rest as [|item rest IH]; intros pre internalDepth count Hk Hcount.
  - cbn. f_equal. lia.
  - cbn [length]. rewrite (countNonInternalElements_loop_step _ _ _ _ _ _ _ _ Hk).
    cbn [nonInternalItems].
    assert (Hnext : Z.of_nat (length pre) + 1 = Z.of_nat (length (pre ++ [item])))
      by (rewrite length_app; cbn; lia).
    assert (Hsame : pre ++ item :: rest = (pre ++ [item]) ++ rest)
      by now rewrite <- app_assoc.
    rewrite Hnext, Hsame. rewrite Hsame in Hk.
    pose proof (nonInternalItems_nonneg nf rest internalDepth) as Hnonneg.
    destruct (internalElement nf item).
    + now apply IH.
    + destruct (internalDepth =? 0).
      * change (negb (3 =? 0)) with true. cbn [andb].
        destruct (count + 1 >=? 3) eqn:E.
        { f_equal. rewrite Z.geb_leb in E. apply Z.leb_le in E. lia. }
        rewrite Z.geb_leb in E. apply Z.leb_gt in E.
        rewrite IH; [f_equal; lia | exact Hk | lia].
      * rewrite IH; [f_equal; lia | exact Hk | lia].
Qed.

Lemma countNonInternalElements_limit3 (nf : NodeFactory) (d : LinearData) :
  knownTypes nf d ->
  countNonInternalElements nf d (Some 3) = Ok (Z.min 3 (nonInternalItems nf 0 d)).
Proof.
  intros Hk. unfold countNonInternalElements.
  apply (countNonInternalElements_loop_limit3 nf d [] 0 0); [exact Hk | lia].
Qed.

(** ** Content *)

Lemma hasContent_counted (nf : NodeFactory) (d : LinearData) (n : Z) :
  countNonInternalElements nf d (Some 3) = Ok n ->
  hasContent nf d =
    if n >? 2 then Ok true
    else (Ok (isElementData d 0) &&&
          notR (t ← getType d 0; canNodeContainContent nf (toKey t)) &&&
          notR (t ← getType d 0; isNodeInternal nf (toKey t))).
Proof. intros H. unfold hasContent. rewrite H. reflexivity. Qed.

(** C6, as stated, fails: an empty block of a type that cannot have children
    (not a branch type), cannot contain content and is not internal makes
    [hasContent] return true with two items; and with an element of an
    unregistered type first the call raises. *)
Lemma hasContent_counterexample :
  (nonInternalItems exampleFactory 0 [open "alienBlock"; close "alienBlock"] = 2 /\
   canNodeHaveChildren exampleFactory "alienBlock" = Ok false /\
   hasContent exampleFactory [open "alienBlock"; close "alienBlock"] = Ok true) /\
  (nonInternalItems exampleFactory 0 [open "comment"; close "comment"] = 2 /\
   hasContent exampleFactory [open "comment"; close "comment"]
   = Throw (UnknownNodeType "comment")).
Proof.
  repeat split; vm_compute; reflexivity.
Qed.

(** C6, amended. On data whose element types are all registered,
    [hasContent] returns true exactly where more than 2 items lie outside
    internal nodes, or the first item is an element whose type can neither
    contain content nor is internal, whether or not the type can have
    children; so with at most 2 such items it returns false unless the first
    item is such an element. *)
Theorem hasContent_characterisation (nf : NodeFactory) (d : LinearData) :
  knownTypes nf d ->
  exists b, hasContent nf d = Ok b /\
    (b = true <->
     2 < nonInternalItems nf 0 d \/
     exists e rest c,
       d = ElementItem e :: rest /\ nf !! stripSlash (type e) = Some c /\
       canContainContent c = false /\ isInternal c = false).
Proof.
  intros Hk.
  rewrite (hasContent_counted nf d _ (countNonInternalElements_limit3 nf d Hk)).
  pose proof (nonInternalItems_nonneg nf d 0) as Hnonneg.
  destruct (Z.min 3 (nonInternalItems nf 0 d) >? 2) eqn:Hmany.
  { exists true. split; [reflexivity|]. split; [|reflexivity].
    intros _. left. rewrite Z.gtb_ltb in Hmany. apply Z.ltb_lt in Hmany. lia. }
  rewrite Z.gtb_ltb in Hmany. apply Z.ltb_ge in Hmany.
  unfold isElementData.
  destruct d as [|[ch|ch ix|e] rest].
  - exists false. split; [reflexivity|]. split; [discriminate|].
    intros [H | (e & r & c & H & _)]; [lia | discriminate H].
  - exists false. split; [reflexivity|]. split; [discriminate|].
    intros [H | (e & r & c & H & _)]; [lia | discriminate H].
  - exists false. split; [reflexivity|]. split; [discriminate|].
    intros [H | (e & r & c & H & _)]; [lia | discriminate H].
  - assert (Hd : getData (ElementItem e :: rest) 0 = Some (ElementItem e)) by reflexivity.
    rewrite Hd, (getType_element _ _ _ Hd).
    destruct (knownTypes_getData _ _ _ _ Hk Hd) as [c Hc].
    unfold notR, canNodeContainContent, isNodeInternal, registered.
    rewrite !bind_Ok, toKey_Some, Hc, !bind_Ok.
    exists (negb (canContainContent c) && negb (isInternal c)).
    split; [now destruct (canContainContent c), (isInternal c)|].
    split.
    + intros H. apply andb_true_iff in H as [H1 H2].
      apply negb_true_iff in H1. apply negb_true_iff in H2.
      right. exists e, rest, c. auto.
    + intros [H | (e' & r & c' & [= <- <-] & Hc' & H1 & H2)]; [lia|].
      assert (c' = c) by congruence. subst c'. now rewrite H1, H2.
Qed.

Lemma hasContent_characterisation_witness :
  hasContent exampleFactory [open "paragraph"; close "paragraph"] = Ok false /\
  hasContent exampleFactory
    [open "paragraph"; Character "a"; close "paragraph"] = Ok true.
Proof.
  split.
  - destruct (hasContent_characterisation exampleFactory
                [open "paragraph"; close "paragraph"]) as (b & Hb & Hiff);
      [vm_compute; reflexivity|].
    rewrite Hb. f_equal. destruct b; [|reflexivity].
    destruct (proj1 Hiff eq_refl) as [H | (e & rest & c & [= <- <-] & Hc & H1 & _)].
    + vm_compute in H. discriminate H.
    + vm_compute in Hc. injection Hc as <-. discriminate H1.
  - destruct (hasContent_characterisation exampleFactory
                [open "paragraph"; Character "a"; close "paragraph"]) as (b & Hb & Hiff);
      [vm_compute; reflexivity|].
    rewrite Hb. f_equal. apply Hiff. left. vm_compute. reflexivity.
Defined.

(** ** Sanitization in plain-text mode *)

Lemma getLength_app (pre post : list Item) :
  getLength (pre ++ post) = Z.of_nat (length pre) + Z.of_nat (length post).
Proof. unfold getLength. rewrite length_app. lia. Qed.

Lemma setData_middle (pre post : list Item) (old new : Item) :
  setData (pre ++ old :: post) (Z.of_nat (length pre)) new = pre ++ new :: post.
Proof.
  rewrite (setData_inside _ _ old new (getData_middle pre post old)).
  rewrite Nat2Z.id.
  replace (length pre) with (length pre + 0)%nat at 1 by lia.
  now rewrite insert_app_r.
Qed.

Lemma getAnnotationIndexesFromOffset_ignoreClose (nf : NodeFactory) (d : LinearData)
    (offset : Z) :
  0 <= offset <= getLength d ->
  getAnnotationIndexesFromOffset nf d offset true
  = Ok (match getData d offset with
        | Some (ElementItem e) => default [] (annotations e)
        | Some (AnnotatedCharacter _ indexes) => indexes
        | _ => []
        end).
Proof.
  intros Hoff. unfold getAnnotationIndexesFromOffset.
  replace ((offset <? 0) || (offset >? getLength d)) with false
    by (symmetry; apply orb_false_iff;
        split; [apply Z.ltb_ge | rewrite Z.gtb_ltb; apply Z.ltb_ge]; lia).
  cbn [negb]. rewrite !bind_Ok.
  destruct (getData d offset) as [[c|c ix|e]|]; try reflexivity.
  now destruct (annotations e).
Qed.

Lemma getCharacterData_annotated (pre post : list Item) (c : string) (indexes : list nat) :
  getCharacterData (pre ++ AnnotatedCharacter c indexes :: post) (Z.of_nat (length pre)) = c.
Proof. unfold getCharacterData. now rewrite getData_middle. Qed.

Lemma setAnnotationsAtOffset_nil (store : IndexValueStore) (d : LinearData) (offset : Z) :
  setAnnotationsAtOffset store d offset []
  = Ok (store, setAnnotationIndexesAtOffset d offset []).
Proof. reflexivity. Qed.

Lemma setAnnotationIndexesAtOffset_annotated_nil (pre post : list Item) (c : string)
    (indexes : list nat) :
  setAnnotationIndexesAtOffset (pre ++ AnnotatedCharacter c indexes :: post)
    (Z.of_nat (length pre)) []
  = pre ++ Character c :: post.
Proof.
  unfold setAnnotationIndexesAtOffset, isElementData.
  rewrite getData_middle, getCharacterData_annotated.
  cbn [length Z.of_nat]. change (0 <? 0) with false. cbv iota.
  apply setData_middle.
Qed.

Section SanitizePlainText.
Variable nf : NodeFactory.
Variable modelRegistry_sanitize : string -> option (Rules -> Element -> Element).
Variable store : IndexValueStore.

(** An annotated character other than a newline loses its annotations and
    the cursor moves on. *)
Lemma sanitize_body_character (pre post : list Item) (c : string) (index : nat)
    (type_ : option string) (contentElement : option Z) :
  c <> newline ->
  sanitize_body nf modelRegistry_sanitize plainTextRules []
    (sanitizeAt store pre (AnnotatedCharacter c [index] :: post) type_ contentElement)
  = Ok (sanitizeAt store (pre ++ [Character c]) post type_ contentElement).
Proof.
  intros Hc. unfold sanitize_body, sanitizeAt.
  cbn [ss_data ss_i ss_store ss_len ss_type ss_contentElement].
  pose proof (getData_middle pre post (AnnotatedCharacter c [index])) as Hd.
  unfold isElementData. rewrite Hd.
  unfold sanitize_character. cbn [ss_data ss_i ss_store ss_len ss_type ss_contentElement].
  rewrite getCharacterData_annotated.
  replace (String.eqb c newline) with false
    by (symmetry; now apply String.eqb_neq).
  rewrite !bind_Ok. cbv iota. unfold sanitize_tail.
  cbn [ss_data ss_i ss_store ss_len ss_type ss_contentElement].
  rewrite getAnnotationIndexesFromOffset_ignoreClose
    by (rewrite getLength_app; cbn [length]; lia).
  rewrite Hd, bind_Ok. cbn [annotationSet_isEmpty negb plainText plainTextRules].
  rewrite setAnnotationsAtOffset_nil, setAnnotationIndexesAtOffset_annotated_nil, bind_Ok.
  unfold isOpenElementData. rewrite (getData_middle pre post (Character c)), bind_Ok.
  f_equal. rewrite <- app_assoc. cbn [app].
  f_equal; rewrite ?length_app; cbn [length]; lia.
Qed.

(** The run of annotated characters is turned into bare characters one by
    one. *)
Lemma sanitize_loop_characters (index : nat) (type_ : option string)
    (contentElement : option Z) (chars : list string) :
  forall fuel pre post,
    Forall (fun c => c <> newline) chars ->
    sanitize_loop nf modelRegistry_sanitize plainTextRules [] (length chars + fuel)
      (sanitizeAt store pre (annotatedWith index chars ++ post) type_ contentElement)
    = sanitize_loop nf modelRegistry_sanitize plainTextRules [] fuel
        (sanitizeAt store (pre ++ bare chars) post type_ contentElement).
Proof.
  induction chars as [|c chars IH]; intros fuel pre post Hchars.
  - cbn. now rewrite app_nil_r.
  - inversion Hchars as [|? ? Hc Hrest]; subst.
    cbn [length Nat.add annotatedWith bare fmap list_fmap app].
    cbn [sanitize_loop].
    replace (ss_i (sanitizeAt store pre
               (AnnotatedCharacter c [index] :: ((fun c0 => AnnotatedCharacter c0 [index]) <$> chars) ++ post)
               type_ contentElement)
             <? ss_len (sanitizeAt store pre
               (AnnotatedCharacter c [index] :: ((fun c0 => AnnotatedCharacter c0 [index]) <$> chars) ++ post)
               type_ contentElement)) with true.
    2:{ symmetry. apply Z.ltb_lt. unfold sanitizeAt. cbn [ss_i ss_len].
        rewrite length_app. cbn [length]. lia. }
    rewrite (sanitize_body_character pre _ c index type_ contentElement Hc), bind_Ok.
    fold (annotatedWith index chars).
    rewrite (IH fuel (pre ++ [Character c]) post Hrest).
    now rewrite <- app_assoc.
Qed.

End SanitizePlainText.

Lemma isCloseElementData_middle (pre post : list Item) (item : Item) :
  isCloseElementData (pre ++ item :: post) (Z.of_nat (length pre))
  = match item with ElementItem e => startsWithSlash (type e) | _ => false end.
Proof. unfold isCloseElementData. rewrite getData_middle. now destruct item. Qed.

Lemma isOpenElementData_middle (pre post : list Item) (item : Item) :
  isOpenElementData (pre ++ item :: post) (Z.of_nat (length pre))
  = match item with ElementItem e => negb (startsWithSlash (type e)) | _ => false end.
Proof. unfold isOpenElementData. rewrite getData_middle. now destruct item. Qed.

Section SanitizePlainTextElement.
Variable nf : NodeFactory.
Variable modelRegistry_sanitize : string -> option (Rules -> Element -> Element).
Variable store : IndexValueStore.

(** After the branches, an element without annotations is passed over. *)
Lemma sanitize_tail_element (pre post : list Item) (el : Element) (len : Z)
    (type_ : option string) (contentElement : option Z) :
  annotations el = None ->
  sanitize_tail nf modelRegistry_sanitize plainTextRules []
    {| ss_data := pre ++ ElementItem el :: post; ss_store := store;
       ss_i := Z.of_nat (length pre); ss_len := len; ss_type := type_;
       ss_contentElement := contentElement |}
  = Ok {| ss_data := pre ++ ElementItem el :: post; ss_store := store;
          ss_i := Z.of_nat (length pre) + 1; ss_len := len; ss_type := type_;
          ss_contentElement := contentElement |}.
Proof.
  intros Hann. unfold sanitize_tail.
  cbn [ss_data ss_i ss_store ss_len ss_type ss_contentElement].
  rewrite getAnnotationIndexesFromOffset_ignoreClose
    by (rewrite getLength_app; cbn [length]; lia).
  rewrite getData_middle, Hann, bind_Ok.
  cbn [default from_option id annotationSet_isEmpty negb]. rewrite bind_Ok.
  rewrite isOpenElementData_middle.
  cbv [plainTextRules nodeSanitization removeOriginalDomElements].
  now destruct (negb (startsWithSlash (type el))).
Qed.

(** An element of a type other than paragraph that can contain content is
    replaced by a bare paragraph element of the same side, unless it opens a
    node that the next item closes. *)
Lemma sanitize_body_element (pre post : list Item) (e : Element)
    (type_ : option string) (contentElement : option Z) :
  holds nf canContainContent (stripSlash (type e)) ->
  stripSlash (type e) <> "paragraph" ->
  startsWithSlash (type e) = true \/
  (forall replaced,
     isCloseElementData (pre ++ replaced :: post) (Z.of_nat (length pre) + 1) = false) ->
  sanitize_body nf modelRegistry_sanitize plainTextRules []
    (sanitizeAt store pre (ElementItem e :: post) type_ contentElement)
  = Ok (sanitizeAt store
          (pre ++ [ElementItem (element ((if startsWithSlash (type e) then "/" else "")
                                          +:+ "paragraph"))])
          post (Some "paragraph")
          (if startsWithSlash (type e) then None else Some (Z.of_nat (length pre)))).
Proof.
  intros (c & Hc & Hcontent) Hneq Hnext.
  unfold sanitize_body, sanitizeAt.
  cbn [ss_data ss_i ss_store ss_len ss_type ss_contentElement].
  pose proof (getData_middle pre post (ElementItem e)) as Hd.
  unfold isElementData. rewrite Hd.
  unfold sanitize_element.
  cbn [ss_data ss_i ss_store ss_len ss_type ss_contentElement].
  rewrite (getType_element _ _ _ Hd), bind_Ok, toKey_Some.
  unfold canNodeContainContent, registered. rewrite Hc, Hcontent, bind_Ok.
  cbv [plainTextRules conversions plainText blacklisted blacklist allowBreaks
       keepEmptyContentBranches preserveHtmlWhitespace].
  replace (String.eqb (stripSlash (type e)) "paragraph") with false
    by (symmetry; now apply String.eqb_neq).
  cbn [negb andb orb].
  rewrite isCloseElementData_middle, isOpenElementData_middle, setData_middle.
  change (String.eqb "paragraph" "paragraph") with true.
  change (String.eqb "paragraph" "break") with false.
  cbn [negb andb orb].
  match goal with
  | |- context [negb (startsWithSlash (type e)) && isCloseElementData ?d ?i && ?g && true] =>
      replace (negb (startsWithSlash (type e)) && isCloseElementData d i && g && true)
        with false
  end.
  2:{ symmetry. destruct Hnext as [-> | Hnext]; [reflexivity|].
      rewrite Hnext. now destruct (startsWithSlash (type e)). }
  rewrite getData_middle.
  match goal with
  | |- context [getProp_internal (Some (ElementItem (element ?t))) "whitespace"] =>
      change (getProp_internal (Some (ElementItem (element t))) "whitespace") with false
  end.
  cbv iota. rewrite bind_Ok.
  rewrite sanitize_tail_element by reflexivity.
  f_equal. rewrite <- app_assoc. cbn [app].
  f_equal; rewrite ?length_app; cbn [length]; try lia.
  now destruct (startsWithSlash (type e)).
Qed.

End SanitizePlainTextElement.

Lemma getAnnotationsFromRange_loop_is_ok (nf : NodeFactory) (d : LinearData)
    (getComparableAnnotationsFromSet : AnnotationSet -> AnnotationSet -> AnnotationSet)
    (range : Range) (all : bool) (n : nat) :
  knownTypes nf d ->
  forall i left_ depth,
    0 <= i -> i + Z.of_nat n <= getLength d ->
    is_ok (getAnnotationsFromRange_loop nf d getComparableAnnotationsFromSet range all
             n i left_ depth).
Proof.
  intros Hk. induction n as [|n IH]; intros i left_ depth Hi Hn; [apply is_ok_Ok|].
  cbn [getAnnotationsFromRange_loop].
  assert (Hnext : forall l dp,
    is_ok (getAnnotationsFromRange_loop nf d getComparableAnnotationsFromSet range all
             n (i + 1) l dp)) by (intros; apply IH; lia).
  match goal with
  | |- is_ok (mbind _ ?skip) =>
      assert (Hskip' : is_ok skip)
  end.
  { unfold isElementData in *.
    destruct (getData d i) as [[c|c ix|e]|] eqn:Hd; try apply is_ok_Ok.
    rewrite (getType_element _ _ _ Hd), bind_Ok, toKey_Some.
    destruct (knownTypes_getData _ _ _ _ Hk Hd) as [c Hc].
    unfold shouldIgnoreChildren, isNodeContent, registered. rewrite Hc.
    apply is_ok_Ok. }
  destruct Hskip' as [[skipped depth'] ->]. rewrite bind_Ok.
  destruct (skipped || (0 <? depth')); [apply Hnext|].
  destruct (getAnnotationIndexesFromOffset_inside nf d i false Hk) as [l Hl]; [lia|].
  destruct left_ as [left_|]; rewrite Hl, bind_Ok.
  - destruct (all && negb (annotationSet_isEmpty l)); [apply Hnext|].
    destruct (negb all); [|apply Hnext].
    destruct (annotationSet_isEmpty l); [apply is_ok_Ok|].
    destruct (annotationSet_isEmpty (getComparableAnnotationsFromSet left_ l));
      [apply is_ok_Ok | apply Hnext].
  - destruct ((range_getLength range =? 0) || (range_getLength range =? 1));
      [apply is_ok_Ok | apply Hnext].
Qed.

Lemma getAnnotationsFromRange_whole_is_ok (nf : NodeFactory) (d : LinearData)
    (getComparableAnnotationsFromSet : AnnotationSet -> AnnotationSet -> AnnotationSet)
    (all : bool) :
  knownTypes nf d ->
  is_ok (getAnnotationsFromRange nf d getComparableAnnotationsFromSet
           (mkRange 0 (getLength d)) all).
Proof.
  intros Hk. unfold getAnnotationsFromRange, range_start, range_end.
  cbn [from to]. unfold getLength.
  apply getAnnotationsFromRange_loop_is_ok; [exact Hk | lia | unfold getLength; lia].
Qed.

Lemma knownTypes_heading (nf : NodeFactory) (heading closing : Element) (index : nat)
    (chars : list string) :
  is_Some (nf !! type heading) -> startsWithSlash (type heading) = false ->
  type closing = "/" +:+ type heading ->
  knownTypes nf (ElementItem heading :: annotatedWith index chars ++ [ElementItem closing]).
Proof.
  intros Hreg Hopen Hclose. unfold knownTypes.
  cbn [forallb itemType]. rewrite forallb_app. cbn [forallb itemType].
  rewrite (stripSlash_open _ Hopen), Hclose.
  change (stripSlash ("/" +:+ type heading)) with (type heading).
  rewrite (bool_decide_eq_true_2 _ Hreg). cbn [andb]. rewrite andb_true_r.
  apply forallb_forall. intros item Hin.
  apply list_elem_of_In in Hin. unfold annotatedWith in Hin.
  apply list_elem_of_fmap in Hin as (c & -> & _). reflexivity.
Qed.

(** C5, as stated, fails: a newline among the characters of the heading does
    not come out as the same character; away from other whitespace it comes
    out as a space. *)
Lemma sanitize_plainText_counterexample :
  sanitize exampleFactory (fun _ => None) (fun set _ => set) plainTextRules boldStore
    (open "heading" :: annotatedWith 0 ["a"; newline; "b"] ++ [close "heading"])
  = Ok (boldStore, open "paragraph" :: bare ["a"; " "; "b"] ++ [close "paragraph"]) /\
  sanitize exampleFactory (fun _ => None) (fun set _ => set) plainTextRules boldStore
    (open "heading" :: annotatedWith 0 ["a"; newline; "b"] ++ [close "heading"])
  <> Ok (boldStore, open "paragraph" :: bare ["a"; newline; "b"] ++ [close "paragraph"]).
Proof.
  split; [vm_compute; reflexivity|].
  vm_compute. intros H. discriminate H.
Qed.

(** C5, amended. For the linear data made of the opening element of a
    registered type other than paragraph that can contain content, one or more
    characters none of which is a newline, each annotated with the same
    annotation, and the matching closing marker, [sanitize] with the rules
    [{ plainText: true }] returns and leaves one opening paragraph element
    without attributes, the same characters as bare strings, and one closing
    paragraph marker; the store is as before. *)
Theorem sanitize_plainText_heading (nf : NodeFactory)
    (modelRegistry_sanitize : string -> option (Rules -> Element -> Element))
    (getComparableAnnotationsFromSet : AnnotationSet -> AnnotationSet -> AnnotationSet)
    (store : IndexValueStore) (heading closing : Element) (bold : nat)
    (chars : list string) :
  holds nf canContainContent (type heading) ->
  type heading <> "paragraph" ->
  startsWithSlash (type heading) = false ->
  type closing = "/" +:+ type heading ->
  chars <> [] ->
  Forall (fun c => c <> newline) chars ->
  sanitize nf modelRegistry_sanitize getComparableAnnotationsFromSet plainTextRules store
    (ElementItem heading :: annotatedWith bold chars ++ [ElementItem closing])
  = Ok (store, open "paragraph" :: bare chars ++ [close "paragraph"]).
Proof.
  intros Hholds Hneq Hopen Hclose Hne Hchars.
  assert (Hk : knownTypes nf
            (ElementItem heading :: annotatedWith bold chars ++ [ElementItem closing])).
  { apply knownTypes_heading; [|exact Hopen|exact Hclose].
    destruct Hholds as (c & Hc & _). now exists c. }
  unfold sanitize.
  destruct (getAnnotationsFromRange_whole_is_ok nf _ getComparableAnnotationsFromSet true Hk)
    as [allAnnotations ->].
  rewrite bind_Ok. cbn [plainText plainTextRules]. rewrite bind_Ok.
  change {| ss_data := ElementItem heading :: annotatedWith bold chars ++ [ElementItem closing];
            ss_store := store; ss_i := 0;
            ss_len := getLength (ElementItem heading :: annotatedWith bold chars
                                 ++ [ElementItem closing]);
            ss_type := None; ss_contentElement := None |}
    with (sanitizeAt store []
            (ElementItem heading :: annotatedWith bold chars ++ [ElementItem closing])
            None None).
  replace (sanitize_fuel (ElementItem heading :: annotatedWith bold chars
                          ++ [ElementItem closing]))
    with (S (length chars + S (S (2 * length chars + 4)))).
  2:{ unfold sanitize_fuel, annotatedWith. cbn [length].
      rewrite length_app, length_fmap. cbn [length]. lia. }
  (* the opening element *)
  cbn [sanitize_loop].
  replace (ss_i (sanitizeAt store []
             (ElementItem heading :: annotatedWith bold chars ++ [ElementItem closing])
             None None)
           <? ss_len (sanitizeAt store []
             (ElementItem heading :: annotatedWith bold chars ++ [ElementItem closing])
             None None)) with true
    by (symmetry; apply Z.ltb_lt; unfold sanitizeAt; cbn [ss_i ss_len app length]; lia).
  rewrite sanitize_body_element.
  2:{ now rewrite (stripSlash_open _ Hopen). }
  2:{ now rewrite (stripSlash_open _ Hopen). }
  2:{ right. intros replaced. destruct chars as [|c chars]; [congruence|]. reflexivity. }
  rewrite bind_Ok, Hopen. cbn [app length].
  change (ElementItem (element ("" +:+ "paragraph"))) with (open "paragraph").
  (* the characters *)
  rewrite sanitize_loop_characters by exact Hchars.
  (* the closing marker *)
  cbn [sanitize_loop].
  replace (ss_i (sanitizeAt store ([open "paragraph"] ++ bare chars) [ElementItem closing]
             (Some "paragraph") (Some (Z.of_nat 0)))
           <? ss_len (sanitizeAt store ([open "paragraph"] ++ bare chars) [ElementItem closing]
             (Some "paragraph") (Some (Z.of_nat 0)))) with true
    by (symmetry; apply Z.ltb_lt; unfold sanitizeAt; cbn [ss_i ss_len];
        rewrite !length_app; cbn [length]; lia).
  assert (Hslash : startsWithSlash (type closing) = true) by now rewrite Hclose.
  assert (Hstrip : stripSlash (type closing) = type heading).
  { rewrite (stripSlash_close _ Hslash), Hclose. apply slice1_slash. }
  rewrite sanitize_body_element; [|now rewrite Hstrip|now rewrite Hstrip|now left].
  rewrite bind_Ok, Hslash.
  change (ElementItem (element ("/" +:+ "paragraph"))) with (close "paragraph").
  replace (ss_i (sanitizeAt store (([open "paragraph"] ++ bare chars) ++ [close "paragraph"]) []
             (Some "paragraph") None)
           <? ss_len (sanitizeAt store
                        (([open "paragraph"] ++ bare chars) ++ [close "paragraph"]) []
                        (Some "paragraph") None)) with false
    by (symmetry; apply Z.ltb_ge; unfold sanitizeAt; cbn [ss_i ss_len];
        rewrite !length_app; cbn [length]; lia).
  rewrite bind_Ok. unfold sanitizeAt. cbn [ss_store ss_data].
  now rewrite app_nil_r.
Qed.

Lemma sanitize_plainText_heading_witness :
  sanitize exampleFactory (fun _ => None) (fun set _ => set) plainTextRules boldStore
    (open "heading" :: annotatedWith 0 ["a"; "b"] ++ [close "heading"])
  = Ok (boldStore, open "paragraph" :: bare ["a"; "b"] ++ [close "paragraph"]).
Proof.
  apply (sanitize_plainText_heading exampleFactory (fun _ => None) (fun set _ => set)
           boldStore (element "heading") (element "/heading") 0 ["a"; "b"]).
  - eexists. split; vm_compute; reflexivity.
  - discriminate.
  - reflexivity.
  - reflexivity.
  - discriminate.
  - repeat constructor; discriminate.
Defined.

(** * Further properties of the code *)

(** ** The further queries on small documents *)

(** The text of a paragraph of two characters, with and without a line break
    for every element, and of a part of it. *)
Example text_of_a_paragraph :
  getText exampleParagraph false None = "ab" /\
  getText exampleParagraph true None = newline +:+ "ab" +:+ newline /\
  getText exampleParagraph true (Some (mkRange 2 4)) = "b" +:+ newline /\
  getText exampleParagraph true (Some (mkRange 2 9)) = "b" +:+ newline.
Proof. repeat split; vm_compute; reflexivity. Qed.

(** Plain text and content data: a paragraph is neither, its characters are
    plain text, and with non-content nodes allowed the paragraph is plain
    text as well. *)
Example plain_text_of_a_paragraph :
  isPlainText exampleFactory exampleParagraph (fun set _ => set) (fun _ _ => false)
    false None false None = Ok false /\
  isPlainText exampleFactory exampleParagraph (fun set _ => set) (fun _ _ => false)
    false None false (Some (mkRange 1 3)) = Ok true /\
  isPlainText exampleFactory exampleParagraph (fun set _ => set) (fun _ _ => false)
    true None false None = Ok true /\
  isPlainText exampleFactory exampleAnnotated (fun set _ => set) (fun _ _ => false)
    true None false None = Ok false /\
  isContentData exampleFactory exampleParagraph = Ok false /\
  isContentData exampleFactory [Character "a"; open "inlineImage"; close "inlineImage"]
  = Ok true.
Proof. repeat split; vm_compute; reflexivity. Qed.

(** Trimming a range that covers " a " inside a paragraph, forwards and
    backwards, and a collapsed range behind a space. *)
Example trimmed_ranges :
  trimOuterSpaceFromRange
    [open "paragraph"; Character " "; Character "a"; Character " "; close "paragraph"]
    (mkRange 1 4) = mkRange 2 3 /\
  trimOuterSpaceFromRange
    [open "paragraph"; Character " "; Character "a"; Character " "; close "paragraph"]
    (mkRange 4 1) = mkRange 3 2 /\
  trimOuterSpaceFromRange
    [open "paragraph"; Character " "; Character "a"; Character " "; close "paragraph"]
    (mkRange 4 4) = mkRange 4 3.
Proof. repeat split; vm_compute; reflexivity. Qed.

(** White space outside ASCII is trimmed as well: an em space and a no-break
    space at the end of the range are left out, a letter whose encoding ends
    in the byte of the no-break space is kept. *)
Example trimmed_ranges_outside_ascii :
  matchesWhitespace emSpace = true /\
  matchesWhitespace noBreakSpace = true /\
  matchesWhitespace capitalGWithDot = false /\
  matchesWhitespace "" = false /\
  trimOuterSpaceFromRange
    [open "paragraph"; Character "a"; Character emSpace; close "paragraph"]
    (mkRange 1 3) = mkRange 1 2 /\
  trimOuterSpaceFromRange
    [open "paragraph"; Character "a"; Character noBreakSpace; close "paragraph"]
    (mkRange 1 3) = mkRange 1 2 /\
  trimOuterSpaceFromRange
    [open "paragraph"; Character "a"; Character capitalGWithDot; close "paragraph"]
    (mkRange 1 3) = mkRange 1 3.
Proof. repeat split; vm_compute; reflexivity. Qed.

(** Annotations in a paragraph whose last two characters are bold. *)
Example annotations_of_a_paragraph :
  hasAnnotationsInRange exampleFactory exampleAnnotated (mkRange 1 2) = Ok false /\
  hasAnnotationsInRange exampleFactory exampleAnnotated (mkRange 1 3) = Ok true /\
  hasAnnotationsInRange exampleFactory exampleAnnotated (mkRange 4 7) = Throw (OutOfBounds 6) /\
  getAnnotatedRangeFromOffset exampleFactory exampleAnnotated (containsIndex 0) 1 = Ok None /\
  getAnnotatedRangeFromOffset exampleFactory exampleAnnotated (containsIndex 0) 2
  = Ok (Some (mkRange 2 4)) /\
  getAnnotatedRangeFromSelection exampleFactory exampleAnnotated (containsIndex 0)
    (mkRange 3 3) = Ok (mkRange 2 4) /\
  getAnnotatedRangeFromSelection exampleFactory exampleAnnotated (containsIndex 0)
    (mkRange 1 1) = Ok (mkRange 1 1) /\
  getInsertionAnnotationsFromRange exampleFactory exampleAnnotated boldStore
    (fun _ => true) (fun _ _ => false) (mkRange 3 3) false = Ok [0%nat] /\
  getInsertionAnnotationsFromRange exampleFactory exampleAnnotated boldStore
    (fun _ => false) (fun _ _ => false) (mkRange 3 3) false = Ok [] /\
  getInsertionAnnotationsFromRange exampleFactory exampleAnnotated boldStore
    (fun _ => true) (fun _ _ => false) (mkRange 2 2) false = Ok [] /\
  getInsertionAnnotationsFromRange exampleFactory exampleAnnotated boldStore
    (fun _ => true) (fun _ _ => false) (mkRange 2 2) true = Ok [0%nat].
Proof. repeat split; vm_compute; reflexivity. Qed.

(** The cursor positions next to the edges of a paragraph without slugs. *)
Example correct_offsets_of_a_paragraph :
  getNearestCorrectOffset exampleFactory exampleParagraph (fun _ => false) 0 (Some 1)
  = Ok 1 /\
  getNearestCorrectOffset exampleFactory exampleParagraph (fun _ => false) 0 None = Ok 1 /\
  getNearestCorrectOffset exampleFactory exampleParagraph (fun _ => false) 4 None = Ok 3 /\
  getNearestCorrectOffset exampleFactory exampleParagraph (fun _ => false) 2 None = Ok 2 /\
  getNearestCorrectOffset exampleFactory exampleParagraph (fun o => o =? 4) 4 (Some 1)
  = Ok 4.
Proof. repeat split; vm_compute; reflexivity. Qed.

(** ** Relative offsets: only valid offsets are returned *)

Section RelativeOffsetSound.
Variable nf : NodeFactory.
Variable d : LinearData.
Variable start : Z.
Variable callback : Z -> result bool.

Lemma getRelativeOffset_body_accepted (st : RelativeOffsetState)
    (step : LoopStep RelativeOffsetState Z) :
  accepted callback (rs_offset st) ->
  getRelativeOffset_body nf d start callback st = Ok step ->
  match step with
  | Return r => accepted callback r
  | Continue st' => accepted callback (rs_offset st')
  end.
Proof.
  intros Hacc. unfold getRelativeOffset_body.
  destruct (ignoreChildrenStep _ _ _ _ _) as [[depth|]|e]; rewrite ?bind_Ok, ?bind_Throw;
    [| intros [= <-]; now left | discriminate].
  destruct (callback (rs_i st)) as [[|]|e] eqn:Hcb; rewrite ?bind_Ok, ?bind_Throw;
    [| | discriminate].
  - destruct (depth =? 0).
    + destruct (rs_distance st =? rs_steps st + 1); intros [= <-]; right; exact Hcb.
    + intros [= <-]. exact Hacc.
  - destruct (aboutToReachEdge d st) as [[|]|e]; rewrite ?bind_Ok, ?bind_Throw;
      [| intros [= <-]; exact Hacc | discriminate].
    destruct (callback start) as [[|]|e] eqn:Hst; rewrite ?bind_Ok, ?bind_Throw;
      [intros [= <-]; now right | intros [= <-]; exact Hacc | discriminate].
Qed.

Lemma getRelativeOffset_loop_accepted (fuel : nat) :
  forall st r,
    accepted callback (rs_offset st) ->
    getRelativeOffset_loop nf d start callback fuel st = Ok r -> accepted callback r.
Proof.
  induction fuel as [|fuel IH]; intros st r Hacc; [discriminate|].
  cbn [getRelativeOffset_loop].
  destruct ((0 <=? rs_i st) && (rs_i st <=? getLength d)); [|now intros [= <-]].
  destruct (getRelativeOffset_body nf d start callback st) as [step|e] eqn:Hbody;
    rewrite ?bind_Ok, ?bind_Throw; [|discriminate].
  pose proof (getRelativeOffset_body_accepted st step Hacc Hbody) as Hstep.
  destruct step as [st'|r']; [now apply IH | now intros [= <-]].
Qed.

End RelativeOffsetSound.

(** X1: whatever the data, the starting offset, the distance and the
    validity test, an offset that [getRelativeOffset] returns is -1 or an
    offset that the validity test accepts: the search never hands back an
    offset it found invalid or did not test, whether it stops on the way,
    stays at the start, turns around or runs out at an edge. *)
Theorem getRelativeOffset_valid (nf : NodeFactory) (d : LinearData) (start distance : Z)
    (callback : Z -> result bool) (r : Z) :
  getRelativeOffset nf d start callback distance = Ok r ->
  r = -1 \/ callback r = Ok true.
Proof.
  unfold getRelativeOffset.
  destruct (distance =? 0).
  - destruct (callback start) as [[|]|e] eqn:Hst; rewrite ?bind_Ok, ?bind_Throw;
      [intros [= <-]; now right | | discriminate].
    apply getRelativeOffset_loop_accepted. now left.
  - rewrite bind_Ok. apply getRelativeOffset_loop_accepted. now left.
Qed.

Lemma getRelativeOffset_valid_witness :
  getRelativeOffset exampleFactory exampleParagraph 1
    (isContentOffset exampleFactory exampleParagraph) 5 = Ok 3 /\
  (3 = -1 \/ isContentOffset exampleFactory exampleParagraph 3 = Ok true).
Proof.
  split; [vm_compute; reflexivity|].
  apply (getRelativeOffset_valid exampleFactory exampleParagraph 1 5).
  vm_compute. reflexivity.
Defined.

(** ** Relative offsets: the offset found when the distance can be covered *)

Section RelativeOffsetNth.
Variable nf : NodeFactory.
Variable d : LinearData.
Variable start : Z.
Variable callback : Z -> result bool.
Variable p : Z -> bool.
Hypothesis Hknown : knownTypes nf d.
Hypothesis Hstart : 0 <= start <= getLength d.
Hypothesis Hp : forall o, 0 <= o <= getLength d -> callback o = Ok (p o).
Hypothesis Hignore : noIgnoredChildren nf d.
Hypothesis Hinternal : noInternalList d.

(** With enough valid offsets ahead, the search counts them off and returns
    the one that uses up the distance. *)
Lemma scan_nth (direction distance : Z) (turned : bool) (n : nat) :
  forall fuel i steps offset,
    onTheWay (getLength d) i direction n ->
    0 <= steps < distance ->
    distance - steps <= Z.of_nat (length (List.filter p (offsetsFrom i direction n))) ->
    (n < fuel)%nat ->
    getRelativeOffset_loop nf d start callback fuel
      (searchState i direction distance steps offset turned)
    = Ok (List.nth (Z.to_nat (distance - steps - 1))
            (List.filter p (offsetsFrom i direction n)) (-1)).
Proof.
  induction n as [|n IH]; intros fuel i steps offset Hway Hsteps Hcount Hfuel;
    (destruct fuel as [|fuel]; [lia|]); [cbn in Hcount; lia|].
  rewrite (getRelativeOffset_loop_step nf d start callback p Hknown Hstart Hp Hignore
             Hinternal _ _ _ _ _ _ _ n Hway).
  destruct (onTheWay_S d _ _ _ Hway) as (Hi & Hway' & Hedge).
  cbn [offsetsFrom List.filter] in *.
  destruct (p i).
  - cbn [length] in Hcount.
    destruct (distance =? steps + 1) eqn:E.
    + apply Z.eqb_eq in E. now replace (Z.to_nat (distance - steps - 1)) with O by lia.
    + apply Z.eqb_neq in E.
      rewrite IH; [|exact Hway' | lia | lia | lia].
      replace (Z.to_nat (distance - steps - 1))
        with (S (Z.to_nat (distance - (steps + 1) - 1))) by lia.
      reflexivity.
  - replace (atEdge (getLength d) i direction) with false.
    2:{ symmetry. apply not_true_is_false. intros H. apply Hedge in H. subst n.
        cbn in Hcount. lia. }
    rewrite andb_false_r. apply IH; [exact Hway' | lia | lia | lia].
Qed.

End RelativeOffsetNth.

(** With enough valid offsets ahead, the search returns the one that uses up
    the distance. *)
Lemma getRelativeOffset_nth (nf : NodeFactory) (d : LinearData)
    (start distance : Z) (callback : Z -> result bool) (p : Z -> bool) :
  knownTypes nf d -> 0 <= start <= getLength d ->
  (forall o, 0 <= o <= getLength d -> callback o = Ok (p o)) ->
  noIgnoredChildren nf d -> noInternalList d ->
  distance <> 0 ->
  Z.abs distance <= Z.of_nat (length (List.filter p
    (offsetsBeyond (getLength d) start (searchDirection (getLength d) start distance)))) ->
  getRelativeOffset nf d start callback distance
  = Ok (List.nth (Z.to_nat (Z.abs distance - 1))
          (List.filter p
             (offsetsBeyond (getLength d) start
                (searchDirection (getLength d) start distance))) (-1)).
Proof.
  intros Hknown Hstart Hp Hignore Hinternal Hdist Hcount.
  unfold getRelativeOffset.
  replace (distance =? 0) with false by (symmetry; now apply Z.eqb_neq).
  rewrite bind_Ok.
  change (if start <=? 0 then 1 else if start >=? getLength d then -1
          else if distance >? 0 then 1 else -1)
    with (searchDirection (getLength d) start distance).
  set (direction := searchDirection (getLength d) start distance) in *.
  assert (Hdir : direction = 1 \/ direction = -1).
  { unfold direction, searchDirection.
    destruct (start <=? 0); [now left|]. destruct (start >=? getLength d); [now right|].
    destruct (distance >? 0); [now left | now right]. }
  assert (Hside : direction = -1 -> 0 < start).
  { unfold direction, searchDirection.
    destruct (start <=? 0) eqn:E; [discriminate|]. apply Z.leb_gt in E. lia. }
  change {| rs_i := start + direction; rs_direction := direction;
            rs_distance := Z.abs distance; rs_steps := 0; rs_offset := -1;
            rs_turnedAround := false; rs_ignoreChildrenDepth := 0 |}
    with (searchState (start + direction) direction (Z.abs distance) 0 (-1) false).
  unfold offsetsBeyond in *.
  rewrite (scan_nth nf d start callback p Hknown Hstart Hp Hignore Hinternal direction
             (Z.abs distance) false
             (remaining (getLength d) (start + direction) direction)).
  - now rewrite Z.sub_0_r.
  - split; [reflexivity|]. destruct Hdir as [E | E]; rewrite E; [left | right]; lia.
  - lia.
  - lia.
  - unfold getRelativeOffset_fuel, remaining, getLength.
    destruct Hdir as [E | E]; rewrite E;
      [change (0 <? 1) with true | change (0 <? -1) with false]; cbv iota;
      unfold getLength in *; lia.
Qed.

(** X2: on data whose element types are registered, with no node whose
    children are ignored and no internal list, a search over a distance other
    than 0 that does not exceed the number of valid offsets ahead returns the
    valid offset that many places ahead of the start, counting valid offsets
    only, in the direction the search sets out in: to the right for a
    positive distance, to the left for a negative one, and away from the edge
    when the start is at an edge. The offset returned is an offset of the
    data, valid, and strictly ahead of the start in that direction. *)
Theorem getRelativeOffset_counts_valid_offsets (nf : NodeFactory) (d : LinearData)
    (start distance : Z) (callback : Z -> result bool) (p : Z -> bool) :
  knownTypes nf d -> 0 <= start <= getLength d ->
  (forall o, 0 <= o <= getLength d -> callback o = Ok (p o)) ->
  noIgnoredChildren nf d -> noInternalList d ->
  distance <> 0 ->
  Z.abs distance <= Z.of_nat (length (List.filter p
    (offsetsBeyond (getLength d) start (searchDirection (getLength d) start distance)))) ->
  exists r,
    getRelativeOffset nf d start callback distance = Ok r /\
    r = List.nth (Z.to_nat (Z.abs distance - 1))
          (List.filter p
             (offsetsBeyond (getLength d) start
                (searchDirection (getLength d) start distance))) (-1) /\
    0 <= r <= getLength d /\ p r = true /\
    0 < (r - start) * searchDirection (getLength d) start distance.
Proof.
  intros Hknown Hstart Hp Hignore Hinternal Hdist Hcount.
  eexists. split.
  { apply (getRelativeOffset_nth nf d start distance callback p); assumption. }
  split; [reflexivity|].
  set (valid := List.filter p
    (offsetsBeyond (getLength d) start (searchDirection (getLength d) start distance)))
    in *.
  assert (Hin : In (List.nth (Z.to_nat (Z.abs distance - 1)) valid (-1)) valid)
    by (apply nth_In; lia).
  apply filter_In in Hin as [Hin Hvalid].
  assert (Hdir : searchDirection (getLength d) start distance = 1 \/
                 searchDirection (getLength d) start distance = -1).
  { unfold searchDirection. destruct (start <=? 0); [now left|].
    destruct (start >=? getLength d); [now right|].
    destruct (distance >? 0); [now left | now right]. }
  apply In_offsetsBeyond in Hin as [Hrange Hahead]; [|exact Hdir|exact Hstart].
  now repeat split.
Qed.

Lemma getRelativeOffset_counts_valid_offsets_witness :
  exists r,
    getRelativeOffset exampleFactory exampleParagraph 1
      (isContentOffset exampleFactory exampleParagraph) 2 = Ok r /\
    r = List.nth (Z.to_nat (Z.abs 2 - 1))
          (List.filter (fun o => (1 <=? o) && (o <=? 3))
             (offsetsBeyond (getLength exampleParagraph) 1
                (searchDirection (getLength exampleParagraph) 1 2))) (-1) /\
    0 <= r <= getLength exampleParagraph /\ (1 <=? r) && (r <=? 3) = true /\
    0 < (r - 1) * searchDirection (getLength exampleParagraph) 1 2.
Proof.
  apply (getRelativeOffset_counts_valid_offsets exampleFactory exampleParagraph 1 2
           (isContentOffset exampleFactory exampleParagraph)
           (fun o => (1 <=? o) && (o <=? 3))).
  - reflexivity.
  - vm_compute. split; discriminate.
  - intros o Ho. unfold getLength in Ho. cbn in Ho.
    assert (Hcases : o = 0 \/ o = 1 \/ o = 2 \/ o = 3 \/ o = 4) by lia.
    destruct Hcases as [-> | [-> | [-> | [-> | ->]]]]; vm_compute; reflexivity.
  - reflexivity.
  - reflexivity.
  - discriminate.
  - vm_compute. discriminate.
Defined.

(** ** Nearest offsets *)

(** On data whose element types are registered the structural test never
    raises. *)
Lemma isStructuralOffset_is_ok (nf : NodeFactory) (d : LinearData) (offset : Z)
    (unrestricted : bool) :
  knownTypes nf d -> is_ok (isStructuralOffset nf d offset unrestricted).
Proof.
  intros Hk. unfold isStructuralOffset.
  destruct ((offset =? 0) || (offset =? getLength d)); [apply is_ok_Ok|].
  destruct (getData d (offset - 1)) as [l|] eqn:Hl; [|apply is_ok_Ok].
  destruct (getData d offset) as [r|] eqn:Hr; [|apply is_ok_Ok].
  destruct l as [?|? ?|el], r as [?|? ?|er]; try (cbn; apply is_ok_Ok).
  destruct (knownTypes_getData _ _ _ _ Hk Hl) as [cl Hcl].
  destruct (knownTypes_getData _ _ _ _ Hk Hr) as [cr Hcr].
  cbn [itemType].
  assert (H1 : is_ok
    (Ok (startsWithSlash (type el)) &&&
     (canNodeHaveChildren nf (slice1 (type el)) |||
      notR (isNodeContent nf (slice1 (type el)))) &&&
     (Ok (negb unrestricted) |||
      (t ← getParentNodeTypes nf (slice1 (type el)); Ok (isNull t))))).
  { destruct (startsWithSlash (type el)) eqn:Sl; [|apply is_ok_Ok].
    rewrite (stripSlash_close _ Sl) in Hcl. rewrite bind_Ok.
    unfold canNodeHaveChildren, isNodeContent, getParentNodeTypes, notR, registered.
    rewrite Hcl. cbn.
    repeat match goal with
           | |- context [match ?x with _ => _ end] => destruct x; cbn
           end; apply is_ok_Ok. }
  assert (H2 : is_ok
    (Ok (negb (startsWithSlash (type er))) &&&
     (canNodeHaveChildren nf (type er) ||| notR (isNodeContent nf (type er))) &&&
     (Ok (negb unrestricted) |||
      (t ← getParentNodeTypes nf (type er); Ok (isNull t))))).
  { destruct (startsWithSlash (type er)) eqn:Sr; [apply is_ok_Ok|].
    rewrite (stripSlash_open _ Sr) in Hcr. cbn [negb]. rewrite bind_Ok.
    unfold canNodeHaveChildren, isNodeContent, getParentNodeTypes, notR, registered.
    rewrite Hcr. cbn.
    repeat match goal with
           | |- context [match ?x with _ => _ end] => destruct x; cbn
           end; apply is_ok_Ok. }
  assert (H3 : is_ok
    (Ok (bool_decide ("/" +:+ type el = type er)) &&&
     canNodeHaveChildrenNotContent nf (type el) &&&
     (Ok (negb unrestricted) |||
      (t ← getChildNodeTypes nf (type el); Ok (isNull t))))).
  { destruct (bool_decide ("/" +:+ type el = type er)) eqn:Hd; [|apply is_ok_Ok].
    apply bool_decide_eq_true in Hd.
    assert (Sr : startsWithSlash (type er) = true) by now rewrite <- Hd.
    rewrite (stripSlash_close _ Sr), <- Hd, slice1_slash in Hcr. rewrite bind_Ok.
    unfold canNodeHaveChildrenNotContent, canNodeHaveChildren, getChildNodeTypes, registered.
    rewrite Hcr. cbn.
    repeat match goal with
           | |- context [match ?x with _ => _ end] => destruct x; cbn
           end; apply is_ok_Ok. }
  destruct H1 as [b1 ->], H2 as [b2 ->], H3 as [b3 ->].
  rewrite !bind_Ok. destruct b1; [apply is_ok_Ok|]. rewrite bind_Ok.
  destruct b2; apply is_ok_Ok.
Qed.

(** The test as a boolean, where it does not raise. *)
Lemma callback_as_bool (callback : Z -> result bool) (len : Z) :
  (forall o, 0 <= o <= len -> is_ok (callback o)) ->
  forall o, 0 <= o <= len ->
    callback o = Ok (match callback o with Ok b => b | Throw _ => false end).
Proof. intros H o Ho. destruct (H o Ho) as [b ->]. reflexivity. Qed.

(** On data without ignored children and internal list, a search over a
    distance other than 0 finds a valid offset whenever there is one. *)
Lemma getRelativeOffset_found (nf : NodeFactory) (d : LinearData) (start distance : Z)
    (callback : Z -> result bool) :
  knownTypes nf d -> 0 <= start <= getLength d ->
  (forall o, 0 <= o <= getLength d -> is_ok (callback o)) ->
  d <> [] -> noIgnoredChildren nf d -> noInternalList d -> distance <> 0 ->
  exists r, getRelativeOffset nf d start callback distance = Ok r /\
    ((r = -1 /\ forall o, 0 <= o <= getLength d -> callback o = Ok false) \/
     (0 <= r <= getLength d /\ callback r = Ok true)).
Proof.
  intros Hknown Hstart Hcb Hne Hignore Hinternal Hdist.
  set (p := fun o => match callback o with Ok b => b | Throw _ => false end).
  assert (Hp : forall o, 0 <= o <= getLength d -> callback o = Ok (p o))
    by (apply callback_as_bool; exact Hcb).
  set (valid := List.filter p
    (offsetsBeyond (getLength d) start (searchDirection (getLength d) start distance))).
  destruct (Z_lt_le_dec (Z.of_nat (length valid)) (Z.abs distance)) as [Hfew | Hmany].
  - destruct (getRelativeOffset_extreme nf d start distance callback p Hknown Hstart Hp Hne
                Hignore Hinternal Hfew) as (r & Hr & [[-> Hnone] | (Hrange & Hvalid & _)]).
    + exists (-1). split; [exact Hr|]. left. split; [reflexivity|].
      intros o Ho. now rewrite (Hp o Ho), (Hnone o Ho).
    + exists r. split; [exact Hr|]. right. split; [exact Hrange|].
      now rewrite (Hp r Hrange), Hvalid.
  - eexists. split.
    + apply (getRelativeOffset_nth nf d start distance callback p Hknown Hstart Hp Hignore
               Hinternal Hdist Hmany).
    + right. fold valid.
      assert (Hin : In (List.nth (Z.to_nat (Z.abs distance - 1)) valid (-1)) valid)
        by (apply nth_In; lia).
      apply filter_In in Hin as [Hin Hvalid].
      assert (Hlen : 0 < getLength d)
        by (unfold getLength; destruct d; [congruence | cbn; lia]).
      apply In_offsetsBeyond in Hin as [Hrange _]; [| |exact Hstart].
      * split; [exact Hrange|]. now rewrite (Hp _ Hrange), Hvalid.
      * destruct (searchDirection_cases (getLength d) start distance Hstart Hlen)
          as [[-> _] | [-> _]]; [now left | now right].
Qed.

(** The nearest content offset is a content offset, or there is none. *)
Lemma getNearestContentOffset_found (nf : NodeFactory) (d : LinearData)
    (offset : Z) (direction : option Z) :
  knownTypes nf d -> noIgnoredChildren nf d -> noInternalList d ->
  0 <= offset <= getLength d ->
  exists r, getNearestContentOffset nf d offset direction = Ok r /\
    ((r = -1 /\ forall o, 0 <= o <= getLength d -> isContentOffset nf d o = Ok false) \/
     (0 <= r <= getLength d /\ isContentOffset nf d r = Ok true)).
Proof.
  intros Hknown Hignore Hinternal Hoffset. unfold getNearestContentOffset.
  destruct (isContentOffset_is_ok nf d offset Hknown) as [valid Hvalid].
  rewrite Hvalid, bind_Ok. destruct valid; [exists offset; split; [reflexivity | now right]|].
  destruct d as [|item d'] eqn:Hd.
  { exists (-1). assert (offset = 0) by (unfold getLength in Hoffset; cbn in Hoffset; lia).
    subst offset. split.
    - destruct direction as [dir|]; [destruct (dir >? 0)|]; reflexivity.
    - left. split; [reflexivity|]. intros o Ho.
      assert (o = 0) by (unfold getLength in Ho; cbn in Ho; lia). now subst o. }
  rewrite <- Hd in *.
  assert (Hne : d <> []) by (rewrite Hd; discriminate).
  assert (Hsearch : forall distance, distance <> 0 ->
    exists r, getRelativeContentOffset nf d offset distance = Ok r /\
      ((r = -1 /\ forall o, 0 <= o <= getLength d -> isContentOffset nf d o = Ok false) \/
       (0 <= r <= getLength d /\ isContentOffset nf d r = Ok true))).
  { intros distance Hdist. apply getRelativeOffset_found; try assumption.
    intros o _. now apply isContentOffset_is_ok. }
  destruct direction as [dir|].
  - apply Hsearch. destruct (dir >? 0); discriminate.
  - destruct (Hsearch (-1)) as (l & -> & Hl); [discriminate|].
    destruct (Hsearch 1) as (r & -> & Hr); [discriminate|].
    rewrite !bind_Ok. eexists. split; [reflexivity|].
    destruct (offset - l <? r - offset); assumption.
Qed.

(** X3: on data whose element types are registered, with no node whose
    children are ignored and no internal list, [getNearestContentOffset] from
    an offset of the data never raises, whatever the direction asked for or
    left out, and it finds a content offset whenever the data has one: it
    returns an offset that [isContentOffset] accepts, or it returns -1 and
    then no offset of the data is a content offset. An offset that is a
    content offset already is returned as it is. *)
Theorem getNearestContentOffset_finds_content (nf : NodeFactory) (d : LinearData)
    (offset : Z) (direction : option Z) :
  knownTypes nf d -> noIgnoredChildren nf d -> noInternalList d ->
  0 <= offset <= getLength d ->
  exists r, getNearestContentOffset nf d offset direction = Ok r /\
    ((r = -1 /\ forall o, 0 <= o <= getLength d -> isContentOffset nf d o = Ok false) \/
     (0 <= r <= getLength d /\ isContentOffset nf d r = Ok true)) /\
    (isContentOffset nf d offset = Ok true -> r = offset).
Proof.
  intros Hknown Hignore Hinternal Hoffset.
  destruct (getNearestContentOffset_found nf d offset direction Hknown Hignore Hinternal
              Hoffset) as (r & Hr & Hfound).
  exists r. split; [exact Hr|]. split; [exact Hfound|].
  intros Hvalid. unfold getNearestContentOffset in Hr.
  rewrite Hvalid, bind_Ok in Hr. now injection Hr.
Qed.

Lemma getNearestContentOffset_finds_content_witness :
  exists r, getNearestContentOffset exampleFactory exampleParagraph 4 None = Ok r /\
    ((r = -1 /\ forall o, 0 <= o <= getLength exampleParagraph ->
                  isContentOffset exampleFactory exampleParagraph o = Ok false) \/
     (0 <= r <= getLength exampleParagraph /\
      isContentOffset exampleFactory exampleParagraph r = Ok true)) /\
    (isContentOffset exampleFactory exampleParagraph 4 = Ok true -> r = 4).
Proof.
  apply (getNearestContentOffset_finds_content exampleFactory exampleParagraph 4 None).
  - reflexivity.
  - reflexivity.
  - reflexivity.
  - vm_compute. split; discriminate.
Defined.

(** The nearest structural offset is a structural offset of the data. *)
Lemma getNearestStructuralOffset_found (nf : NodeFactory) (d : LinearData)
    (offset : Z) (direction : option Z) (unrestricted : bool) :
  knownTypes nf d -> noIgnoredChildren nf d -> noInternalList d ->
  0 <= offset <= getLength d ->
  exists r, getNearestStructuralOffset nf d offset direction unrestricted = Ok r /\
    0 <= r <= getLength d /\ isStructuralOffset nf d r unrestricted = Ok true.
Proof.
  intros Hknown Hignore Hinternal Hoffset. unfold getNearestStructuralOffset.
  destruct (isStructuralOffset_is_ok nf d offset unrestricted Hknown) as [valid Hvalid].
  rewrite Hvalid, bind_Ok. destruct valid; [exists offset; now split|].
  assert (Hne : d <> []).
  { intros ->. assert (offset = 0) by (unfold getLength in Hoffset; cbn in Hoffset; lia).
    subst offset. discriminate Hvalid. }
  assert (Hsearch : forall distance, distance <> 0 ->
    exists r, getRelativeStructuralOffset nf d offset distance unrestricted = Ok r /\
      0 <= r <= getLength d /\ isStructuralOffset nf d r unrestricted = Ok true).
  { intros distance Hdist. unfold getRelativeStructuralOffset.
    replace (distance =? 0) with false by (symmetry; now apply Z.eqb_neq).
    cbn [andb].
    destruct (getRelativeOffset_found nf d offset distance
                (fun o => isStructuralOffset nf d o unrestricted) Hknown Hoffset)
      as (r & Hr & [[_ Hnone] | Hfound]); try assumption.
    - intros o _. now apply isStructuralOffset_is_ok.
    - specialize (Hnone 0 ltac:(unfold getLength; lia)). discriminate Hnone.
    - exists r. now split. }
  destruct (negb _).
  - destruct (Hsearch (-1)) as (l & -> & Hl); [discriminate|].
    destruct (Hsearch 1) as (r & -> & Hr); [discriminate|].
    rewrite !bind_Ok. eexists. split; [reflexivity|].
    destruct (offset - l <? r - offset); assumption.
  - apply Hsearch. destruct (default 0 direction >? 0); discriminate.
Qed.

(** X4: on data whose element types are registered, with no node whose
    children are ignored and no internal list, [getNearestStructuralOffset]
    from an offset of the data never raises and never fails: whatever the
    direction and in either mode it returns an offset of the data that
    [isStructuralOffset] accepts in that mode, never -1. An offset that is a
    structural offset already, the two edges of the data among them, is
    returned as it is. *)
Theorem getNearestStructuralOffset_finds_structure (nf : NodeFactory) (d : LinearData)
    (offset : Z) (direction : option Z) (unrestricted : bool) :
  knownTypes nf d -> noIgnoredChildren nf d -> noInternalList d ->
  0 <= offset <= getLength d ->
  exists r, getNearestStructuralOffset nf d offset direction unrestricted = Ok r /\
    0 <= r <= getLength d /\ isStructuralOffset nf d r unrestricted = Ok true /\
    (isStructuralOffset nf d offset unrestricted = Ok true -> r = offset).
Proof.
  intros Hknown Hignore Hinternal Hoffset.
  destruct (getNearestStructuralOffset_found nf d offset direction unrestricted Hknown
              Hignore Hinternal Hoffset) as (r & Hr & Hrange & Hvalid).
  exists r. split; [exact Hr|]. split; [exact Hrange|]. split; [exact Hvalid|].
  intros Hstay. unfold getNearestStructuralOffset in Hr.
  rewrite Hstay, bind_Ok in Hr. now injection Hr.
Qed.

Lemma getNearestStructuralOffset_finds_structure_witness :
  exists r, getNearestStructuralOffset exampleFactory exampleParagraph 1 (Some 1) true = Ok r /\
    0 <= r <= getLength exampleParagraph /\
    isStructuralOffset exampleFactory exampleParagraph r true = Ok true /\
    (isStructuralOffset exampleFactory exampleParagraph 1 true = Ok true -> r = 1).
Proof.
  apply (getNearestStructuralOffset_finds_structure exampleFactory exampleParagraph 1
           (Some 1) true).
  - reflexivity.
  - reflexivity.
  - reflexivity.
  - vm_compute. split; discriminate.
Defined.

(** ** Content data *)

Lemma getData_of_nat (d : LinearData) (i : nat) : getData d (Z.of_nat i) = d !! i.
Proof.
  unfold getData. replace (Z.of_nat i <? 0) with false by (symmetry; apply Z.ltb_ge; lia).
  now rewrite Nat2Z.id.
Qed.

Lemma isContentData_loop_spec (nf : NodeFactory) (d : LinearData) (i : nat) :
  (forall k e, d !! k = Some (ElementItem e) -> startsWithSlash (type e) = false ->
     is_Some (nf !! type e)) ->
  (i <= length d)%nat ->
  exists b, isContentData_loop nf d i = Ok b /\
    (b = true <->
     forall k e, (k < i)%nat -> d !! k = Some (ElementItem e) ->
       startsWithSlash (type e) = false -> holds nf isContent (type e)).
Proof.
  intros Hreg. induction i as [|i IH]; intros Hi.
  - exists true. split; [reflexivity|]. split; [intros _ k e Hk; lia | reflexivity].
  - cbn [isContentData_loop]. rewrite getData_of_nat.
    destruct (lookup_lt_is_Some_2 d i) as [item Hitem]; [lia|]. rewrite Hitem.
    destruct IH as (b & Hb & Hiff); [lia|].
    destruct item as [c|c ix|e]; cbn [itemType]; rewrite ?bind_Ok.
    + exists b. split; [exact Hb|]. rewrite Hiff. split.
      * intros H k e Hk Hl. destruct (decide (k = i)) as [-> | Hne]; [congruence|].
        apply (H k); [lia | exact Hl].
      * intros H k e Hk. apply (H k). lia.
    + exists b. split; [exact Hb|]. rewrite Hiff. split.
      * intros H k e Hk Hl. destruct (decide (k = i)) as [-> | Hne]; [congruence|].
        apply (H k); [lia | exact Hl].
      * intros H k e Hk. apply (H k). lia.
    + rewrite bool_decide_eq_true_2 by eauto. rewrite bind_Ok, toKey_Some.
      destruct (startsWithSlash (type e)) eqn:Hslash; cbn [negb]; rewrite ?bind_Ok.
      * exists b. split; [exact Hb|]. rewrite Hiff. split.
        -- intros H k e' Hk Hl Hopen.
           destruct (decide (k = i)) as [-> | Hne]; [congruence|].
           apply (H k); [lia | exact Hl | exact Hopen].
        -- intros H k e' Hk. apply (H k). lia.
      * destruct (Hreg i e Hitem Hslash) as [c Hc].
        unfold notR, isNodeContent, registered. rewrite Hc, !bind_Ok.
        destruct (isContent c) eqn:Hcontent; cbn [negb].
        -- exists b. split; [exact Hb|]. rewrite Hiff. split.
           ++ intros H k e' Hk Hl Hopen.
              destruct (decide (k = i)) as [-> | Hne].
              ** assert (e' = e) by congruence. subst e'. exists c. now split.
              ** apply (H k); [lia | exact Hl | exact Hopen].
           ++ intros H k e' Hk. apply (H k). lia.
        -- exists false. split; [reflexivity|]. split; [discriminate|].
           intros H. destruct (H i e ltac:(lia) Hitem Hslash) as (c' & Hc' & Hcontent').
           congruence.
Qed.

(** X5: where the types of the opening elements of the data are
    registered, [isContentData] does not raise, and it returns true exactly
    when every opening element is of a content type. Characters and closing
    markers are not looked at: a closing marker of an unregistered type does
    no harm, and data without elements, the empty data among them, is content
    data. *)
Theorem isContentData_characterisation (nf : NodeFactory) (d : LinearData) :
  (forall e, In (ElementItem e) d -> startsWithSlash (type e) = false ->
     is_Some (nf !! type e)) ->
  exists b, isContentData nf d = Ok b /\
    (b = true <->
     forall e, In (ElementItem e) d -> startsWithSlash (type e) = false ->
       holds nf isContent (type e)).
Proof.
  intros Hreg. unfold isContentData.
  destruct (isContentData_loop_spec nf d (length d)) as (b & Hb & Hiff); [|lia|].
  - intros k e Hk. apply Hreg. apply list_elem_of_In. apply list_elem_of_lookup. eauto.
  - exists b. split; [exact Hb|]. rewrite Hiff. split.
    + intros H e Hin. apply list_elem_of_In, list_elem_of_lookup in Hin as [k Hk].
      apply (H k e); [|exact Hk]. apply lookup_lt_is_Some_1. eauto.
    + intros H k e _ Hk. apply H. apply list_elem_of_In. apply list_elem_of_lookup. eauto.
Qed.

Lemma isContentData_characterisation_witness :
  exists b,
    isContentData exampleFactory
      [Character "a"; open "inlineImage"; ElementItem (element "/unregistered")] = Ok b /\
    (b = true <->
     forall e,
       In (ElementItem e)
         [Character "a"; open "inlineImage"; ElementItem (element "/unregistered")] ->
       startsWithSlash (type e) = false -> holds exampleFactory isContent (type e)).
Proof.
  apply (isContentData_characterisation exampleFactory
           [Character "a"; open "inlineImage"; ElementItem (element "/unregistered")]).
  intros e [H | [H | [H | []]]] Hopen; [discriminate H | | ].
  - injection H as <-. now eexists.
  - injection H as <-. discriminate Hopen.
Defined.

(** ** Annotations in a range *)

Lemma hasAnnotationsInRange_loop_spec (nf : NodeFactory) (d : LinearData) (n : nat) :
  forall i, 0 <= i -> i + Z.of_nat n <= getLength d + 1 ->
  exists b, hasAnnotationsInRange_loop nf d n i = Ok b /\
    (b = true <-> exists o, i <= o < i + Z.of_nat n /\ storedAnnotations d o <> []).
Proof.
  induction n as [|n IH]; intros i Hi Hend.
  - exists false. split; [reflexivity|]. split; [discriminate | intros (o & Ho & _); lia].
  - cbn [hasAnnotationsInRange_loop].
    rewrite getAnnotationIndexesFromOffset_ignoreClose by lia. rewrite bind_Ok.
    fold (storedAnnotations d i).
    destruct (storedAnnotations d i) as [|x l] eqn:Hstored.
    + cbn [length]. change (0 <? Z.of_nat 0) with false. cbv iota.
      destruct (IH (i + 1)) as (b & Hb & Hiff); [lia | lia |].
      exists b. split; [exact Hb|]. rewrite Hiff. split.
      * intros (o & Ho & Hne). exists o. split; [lia | exact Hne].
      * intros (o & Ho & Hne). exists o. split; [|exact Hne].
        destruct (Z.eq_dec o i) as [-> | Hoi]; [congruence | lia].
    + replace (0 <? Z.of_nat (length (x :: l))) with true
        by (symmetry; apply Z.ltb_lt; cbn [length]; lia).
      exists true. split; [reflexivity|]. split; [|reflexivity].
      intros _. exists i. split; [lia|]. rewrite Hstored. discriminate.
Qed.

(** X6: for a range that starts at 0 or later and ends no later than one
    past the length of the data, [hasAnnotationsInRange] does not raise,
    whatever the registry holds, and returns true exactly when some item at
    an offset of the range carries annotation indexes, be it an annotated
    character, an opening element or a closing marker. *)
Theorem hasAnnotationsInRange_characterisation (nf : NodeFactory) (d : LinearData)
    (range : Range) :
  0 <= range_start range -> range_end range <= getLength d + 1 ->
  exists b, hasAnnotationsInRange nf d range = Ok b /\
    (b = true <->
     exists o, range_start range <= o < range_end range /\ storedAnnotations d o <> []).
Proof.
  intros Hstart Hend. unfold hasAnnotationsInRange.
  assert (Hle : range_start range <= range_end range)
    by (unfold range_start, range_end; lia).
  destruct (hasAnnotationsInRange_loop_spec nf d
              (Z.to_nat (range_end range - range_start range)) (range_start range))
    as (b & Hb & Hiff); [exact Hstart | lia |].
  exists b. split; [exact Hb|]. rewrite Hiff.
  now replace (range_start range + Z.of_nat (Z.to_nat (range_end range - range_start range)))
    with (range_end range) by lia.
Qed.

Lemma hasAnnotationsInRange_characterisation_witness :
  exists b,
    hasAnnotationsInRange ∅
      [open "paragraph"; Character "a"; AnnotatedCharacter "b" [0%nat]; close "paragraph"]
      (mkRange 3 1) = Ok b /\
    (b = true <->
     exists o, range_start (mkRange 3 1) <= o < range_end (mkRange 3 1) /\
       storedAnnotations
         [open "paragraph"; Character "a"; AnnotatedCharacter "b" [0%nat]; close "paragraph"]
         o <> []).
Proof.
  apply (hasAnnotationsInRange_characterisation ∅
           [open "paragraph"; Character "a"; AnnotatedCharacter "b" [0%nat];
            close "paragraph"] (mkRange 3 1)).
  - vm_compute. discriminate.
  - vm_compute. discriminate.
Defined.

(** ** Text of the data *)

Lemma append_empty_r (s : string) : s +:+ "" = s.
Proof.
  induction s as [|c s IH]; [reflexivity|].
  change (String c s +:+ "") with (String c (s +:+ "")). now rewrite IH.
Qed.

Lemma append_assoc (s1 s2 s3 : string) : (s1 +:+ s2) +:+ s3 = s1 +:+ (s2 +:+ s3).
Proof.
  induction s1 as [|c s1 IH]; [reflexivity|].
  change (String c ((s1 +:+ s2) +:+ s3) = String c (s1 +:+ (s2 +:+ s3))).
  now rewrite IH.
Qed.


(** The text collected so far only ever grows at its end. *)
Lemma getText_loop_acc (d : LinearData) (m : bool) (n : nat) :
  forall i text, getText_loop d m n i text = text +:+ getText_loop d m n i "".
Proof.
  induction n as [|n IH]; intros i text; cbn [getText_loop].
  - now rewrite append_empty_r.
  - rewrite IH. rewrite (IH (i + 1) (if negb (isElementData d i) then _ else _)).
    destruct (negb (isElementData d i)); [|destruct m];
      now rewrite <- ?append_assoc, ?append_empty_r.
Qed.

Lemma getText_loop_app (d : LinearData) (m : bool) (n1 n2 : nat) :
  forall i text,
    getText_loop d m (n1 + n2) i text
    = getText_loop d m n2 (i + Z.of_nat n1) (getText_loop d m n1 i text).
Proof.
  induction n1 as [|n1 IH]; intros i text.
  - cbn. now rewrite Z.add_0_r.
  - change (S n1 + n2)%nat with (S (n1 + n2)). cbn [getText_loop]. rewrite IH.
    now replace (i + 1 + Z.of_nat n1) with (i + Z.of_nat (S n1)) by lia.
Qed.

(** X7: the text of a range is the text of its first part followed by the
    text of the rest, wherever the range is cut, with and without
    [maintainIndices], and also where the range reaches beyond the data. *)
Theorem getText_split (d : LinearData) (maintainIndices : bool) (a b c : Z) :
  a <= b <= c ->
  getText d maintainIndices (Some (mkRange a c))
  = getText d maintainIndices (Some (mkRange a b)) +:+
    getText d maintainIndices (Some (mkRange b c)).
Proof.
  intros Habc. unfold getText, range_start, range_end.
  cbv [default from_option id from to].
  rewrite !Z.min_l, !Z.max_r by lia.
  replace (Z.to_nat (c - a)) with (Z.to_nat (b - a) + Z.to_nat (c - b))%nat by lia.
  rewrite getText_loop_app, getText_loop_acc.
  now replace (a + Z.of_nat (Z.to_nat (b - a))) with b by lia.
Qed.

Lemma getText_split_witness :
  getText exampleParagraph true (Some (mkRange 0 4))
  = getText exampleParagraph true (Some (mkRange 0 2)) +:+
    getText exampleParagraph true (Some (mkRange 2 4)).
Proof. apply (getText_split exampleParagraph true 0 2 4). lia. Defined.





(** ** Trimming whitespace off a range *)

Lemma getCharacterData_negative (d : LinearData) (offset : Z) :
  offset < 0 -> getCharacterData d offset = "".
Proof.
  intros H. unfold getCharacterData, getData.
  now replace (offset <? 0) with true by (symmetry; apply Z.ltb_lt; lia).
Qed.

(** The first loop stops in front of a character that is not whitespace, or
    where there is no character. *)
Lemma trimOuterSpaceFromRange_end_spec (d : LinearData) (n : nat) :
  forall e, e <= Z.of_nat n ->
    let e' := trimOuterSpaceFromRange_end d n e in
    e' <= e /\
    (forall o, e' <= o < e -> matchesWhitespace (getCharacterData d o) = true) /\
    matchesWhitespace (getCharacterData d (e' - 1)) = false.
Proof.
  induction n as [|n IH]; intros e He; cbn [trimOuterSpaceFromRange_end].
  - split; [lia|]. split; [intros o Ho; lia|].
    now rewrite getCharacterData_negative by lia.
  - destruct (matchesWhitespace (getCharacterData d (e - 1))) eqn:Hws.
    + destruct (IH (e - 1)) as (Hle & Hall & Hstop); [lia|].
      split; [lia|]. split; [|exact Hstop].
      intros o Ho. destruct (Z.eq_dec o (e - 1)) as [-> | Hne]; [exact Hws|].
      apply Hall. lia.
    + split; [lia|]. split; [intros o Ho; lia | exact Hws].
Qed.

(** The second loop stops at the end it is given or on a character that is
    not whitespace. *)
Lemma trimOuterSpaceFromRange_start_spec (d : LinearData) (e : Z) (n : nat) :
  forall s, e - s <= Z.of_nat n ->
    let s' := trimOuterSpaceFromRange_start d n s e in
    s <= s' /\
    (forall o, s <= o < s' -> matchesWhitespace (getCharacterData d o) = true) /\
    (s' < e -> matchesWhitespace (getCharacterData d s') = false) /\
    (s' <= e \/ s' = s).
Proof.
  induction n as [|n IH]; intros s Hs; cbn [trimOuterSpaceFromRange_start].
  - split; [lia|]. split; [intros o Ho; lia|]. split; [lia | now right].
  - destruct (s <? e) eqn:Hlt; cbn [andb].
    + apply Z.ltb_lt in Hlt.
      destruct (matchesWhitespace (getCharacterData d s)) eqn:Hws.
      * destruct (IH (s + 1)) as (Hle & Hall & Hstop & Hin); [lia|].
        split; [lia|]. split; [|split; [exact Hstop | left; lia]].
        intros o Ho. destruct (Z.eq_dec o s) as [-> | Hne]; [exact Hws|].
        apply Hall. lia.
      * split; [lia|]. split; [intros o Ho; lia|]. split; [intros _; exact Hws | now right].
    + apply Z.ltb_ge in Hlt.
      split; [lia|]. split; [intros o Ho; lia|]. split; [lia | now right].
Qed.

(** X9: [trimOuterSpaceFromRange] moves the end of the range back over
    whitespace characters (the ones [\s] matches, in and outside ASCII)
    until the character before it is not whitespace,
    then the start forward over whitespace characters up to that end at most,
    and gives the two back in the direction of the range it was given.
    Everything it leaves out is whitespace; what remains neither starts nor
    ends with whitespace. The end is not held back by the start: where the
    whitespace goes on in front of the start, the end comes to lie before the
    start, which then stays as it is. *)
Theorem trimOuterSpaceFromRange_trims (d : LinearData) (range : Range) :
  exists s e,
    trimOuterSpaceFromRange d range
    = (if to range <? from range then mkRange e s else mkRange s e) /\
    range_start range <= s /\ e <= range_end range /\
    (forall o, range_start range <= o < s ->
       matchesWhitespace (getCharacterData d o) = true) /\
    (forall o, e <= o < range_end range ->
       matchesWhitespace (getCharacterData d o) = true) /\
    matchesWhitespace (getCharacterData d (e - 1)) = false /\
    (s < e -> matchesWhitespace (getCharacterData d s) = false) /\
    (s <= e \/ s = range_start range).
Proof.
  unfold trimOuterSpaceFromRange.
  set (e := trimOuterSpaceFromRange_end d (Z.to_nat (range_end range)) (range_end range)).
  set (s := trimOuterSpaceFromRange_start d (Z.to_nat (e - range_start range))
              (range_start range) e).
  destruct (trimOuterSpaceFromRange_end_spec d (Z.to_nat (range_end range))
              (range_end range)) as (He & Hend & Hstop); [lia|].
  destruct (trimOuterSpaceFromRange_start_spec d e (Z.to_nat (e - range_start range))
              (range_start range)) as (Hs & Hstart & Hfirst & Hin); [fold e; lia|].
  fold e in He, Hend, Hstop. fold s in Hs, Hstart, Hfirst, Hin.
  exists s, e. split.
  - replace (to range <? range_end range) with (to range <? from range); [reflexivity|].
    unfold range_end. destruct (to range <? from range) eqn:E; symmetry.
    + apply Z.ltb_lt in E. apply Z.ltb_lt. lia.
    + apply Z.ltb_ge in E. apply Z.ltb_ge. lia.
  - repeat split; assumption.
Qed.

(** ** Plain text *)

(** A bare character carries no annotations, and finding that out needs no
    registry. *)
Lemma getAnnotationIndexesFromOffset_character (nf : NodeFactory) (d : LinearData)
    (offset : Z) (c : string) (ignoreClose : bool) :
  getData d offset = Some (Character c) ->
  getAnnotationIndexesFromOffset nf d offset ignoreClose = Ok [].
Proof.
  intros Hd. pose proof (getData_Some_bounds d offset _ Hd) as (Hlo & Hlookup & _).
  apply lookup_lt_Some in Hlookup.
  unfold getAnnotationIndexesFromOffset, isCloseElementData.
  replace ((offset <? 0) || (offset >? getLength d)) with false
    by (symmetry; apply orb_false_iff;
        split; [apply Z.ltb_ge | rewrite Z.gtb_ltb; apply Z.ltb_ge]; unfold getLength; lia).
  rewrite Hd. destruct (negb ignoreClose); rewrite !bind_Ok; now rewrite Hd.
Qed.

Section PlainTextProperties.
Variable nf : NodeFactory.
Variable d : LinearData.
Variable getComparableAnnotationsFromSet : AnnotationSet -> AnnotationSet -> AnnotationSet.
Variable containsAllOf : AnnotationSet -> AnnotationSet -> bool.

(** Without options the loop accepts bare characters and nothing else. *)
Lemma isPlainText_loop_strict (annotations_ : AnnotationSet) (n : nat) :
  forall i,
    exists b,
      isPlainText_loop nf d containsAllOf false None false annotations_ n i = Ok b /\
      (b = true <->
       forall o, i <= o < i + Z.of_nat n -> exists c, getData d o = Some (Character c)).
Proof.
  induction n as [|n IH]; intros i.
  - exists true. split; [reflexivity|]. split; [intros _ o Ho; lia | reflexivity].
  - cbn [isPlainText_loop].
    destruct (getData d i) as [[c|c ix|e]|] eqn:Hd; cbn [isString]; rewrite ?bind_Ok;
      cbn [orb andb]; try rewrite bool_decide_eq_false_2 by (intros [? ?]; discriminate);
      cbn [orb andb].
    + destruct (IH (i + 1)) as (b & Hb & Hiff). exists b. split; [exact Hb|].
      rewrite Hiff. split.
      * intros H o Ho. destruct (Z.eq_dec o i) as [-> | Hne]; [eauto|]. apply H. lia.
      * intros H o Ho. apply H. lia.
    + exists false. split; [reflexivity|]. split; [discriminate|].
      intros H. destruct (H i ltac:(lia)) as [c' Hc']. congruence.
    + exists false. split; [reflexivity|]. split; [discriminate|].
      intros H. destruct (H i ltac:(lia)) as [c' Hc']. congruence.
    + exists false. split; [reflexivity|]. split; [discriminate|].
      intros H. destruct (H i ltac:(lia)) as [c' Hc']. congruence.
Qed.

(** Bare characters pass under every choice of options. *)
Lemma isPlainText_loop_characters (allowNonContentNodes : bool)
    (allowedTypes : option (list string)) (ignoreCoveringAnnotations : bool)
    (annotations_ : AnnotationSet) (n : nat) :
  forall i,
    (forall o, i <= o < i + Z.of_nat n -> exists c, getData d o = Some (Character c)) ->
    isPlainText_loop nf d containsAllOf allowNonContentNodes allowedTypes
      ignoreCoveringAnnotations annotations_ n i = Ok true.
Proof.
  induction n as [|n IH]; intros i H; [reflexivity|].
  cbn [isPlainText_loop]. destruct (H i ltac:(lia)) as [c ->]. cbn [isString].
  apply IH. intros o Ho. apply H. lia.
Qed.

(** Over bare characters the annotations common to a range are none. *)
Lemma getAnnotationsFromRange_loop_characters (range : Range) (n : nat) :
  forall i left_,
    (forall o, i <= o < i + Z.of_nat n -> exists c, getData d o = Some (Character c)) ->
    is_ok (getAnnotationsFromRange_loop nf d getComparableAnnotationsFromSet range false
             n i left_ 0).
Proof.
  induction n as [|n IH]; intros i left_ H; [apply is_ok_Ok|].
  cbn [getAnnotationsFromRange_loop]. destruct (H i ltac:(lia)) as [c Hc].
  unfold isElementData. rewrite Hc, bind_Ok. cbn [orb]. change (0 <? 0) with false. cbv iota.
  rewrite (getAnnotationIndexesFromOffset_character nf d i c false Hc), !bind_Ok.
  destruct left_ as [l|].
  - cbn. apply is_ok_Ok.
  - destruct (_ || _); [apply is_ok_Ok|]. apply IH. intros o Ho. apply H. lia.
Qed.

End PlainTextProperties.

(** X10: called with a range at most, [isPlainText] never raises and does
    not consult the registry, and it returns true exactly when every offset
    of the range, of the whole data where no range is given, holds a bare
    character: an annotated character, an element, or an offset outside the
    data makes it false. *)
Theorem isPlainText_characterisation (nf : NodeFactory) (d : LinearData)
    (getComparableAnnotationsFromSet : AnnotationSet -> AnnotationSet -> AnnotationSet)
    (containsAllOf : AnnotationSet -> AnnotationSet -> bool) (range : option Range) :
  exists b,
    isPlainText nf d getComparableAnnotationsFromSet containsAllOf false None false range
    = Ok b /\
    (b = true <->
     forall o,
       range_start (default (mkRange 0 (getLength d)) range) <= o
         < range_end (default (mkRange 0 (getLength d)) range) ->
       exists c, getData d o = Some (Character c)).
Proof.
  unfold isPlainText. rewrite bind_Ok.
  set (r := default (mkRange 0 (getLength d)) range).
  destruct (isPlainText_loop_strict nf d containsAllOf []
              (Z.to_nat (range_end r - range_start r)) (range_start r)) as (b & Hb & Hiff).
  exists b. split; [exact Hb|]. rewrite Hiff.
  assert (Hle : range_start r <= range_end r) by (unfold range_start, range_end; lia).
  now replace (range_start r + Z.of_nat (Z.to_nat (range_end r - range_start r)))
    with (range_end r) by lia.
Qed.

(** X11: the options of [isPlainText] only widen what counts as plain
    text: a range that is plain text when no option is given is plain text
    under every choice of [allowNonContentNodes], [allowedTypes] and
    [ignoreCoveringAnnotations], and the call does not raise. *)
Theorem isPlainText_options_widen (nf : NodeFactory) (d : LinearData)
    (getComparableAnnotationsFromSet : AnnotationSet -> AnnotationSet -> AnnotationSet)
    (containsAllOf : AnnotationSet -> AnnotationSet -> bool) (range : option Range)
    (allowNonContentNodes : bool) (allowedTypes : option (list string))
    (ignoreCoveringAnnotations : bool) :
  isPlainText nf d getComparableAnnotationsFromSet containsAllOf false None false range
  = Ok true ->
  isPlainText nf d getComparableAnnotationsFromSet containsAllOf allowNonContentNodes
    allowedTypes ignoreCoveringAnnotations range = Ok true.
Proof.
  unfold isPlainText. rewrite bind_Ok.
  set (r := default (mkRange 0 (getLength d)) range). intros Hstrict.
  destruct (isPlainText_loop_strict nf d containsAllOf []
              (Z.to_nat (range_end r - range_start r)) (range_start r)) as (b & Hb & Hiff).
  rewrite Hb in Hstrict. injection Hstrict as ->.
  assert (Hchars := proj1 Hiff eq_refl).
  assert (Hannotations : is_ok
    (if ignoreCoveringAnnotations
     then getAnnotationsFromRange nf d getComparableAnnotationsFromSet r false
     else Ok [])).
  { destruct ignoreCoveringAnnotations; [|apply is_ok_Ok].
    unfold getAnnotationsFromRange. now apply getAnnotationsFromRange_loop_characters. }
  destruct Hannotations as [annotations_ ->]. rewrite bind_Ok.
  now apply isPlainText_loop_characters.
Qed.

Lemma isPlainText_options_widen_witness :
  isPlainText exampleFactory (bare ["a"; "b"]) (fun set _ => set)
    (fun _ _ => false) true (Some ["paragraph"]) true None = Ok true.
Proof.
  apply (isPlainText_options_widen exampleFactory (bare ["a"; "b"]) (fun set _ => set)
           (fun _ _ => false) None true (Some ["paragraph"]) true).
  vm_compute. reflexivity.
Defined.

(** ** The range an annotation covers *)

Section AnnotatedRangeProperties.
Variable nf : NodeFactory.
Variable d : LinearData.
Variable contains : AnnotationSet -> bool.
Hypothesis Hknown : knownTypes nf d.




End AnnotatedRangeProperties.





(** ** Counting with and without a limit *)

(** Past one item the cursor stands behind a prefix that is one item longer. *)
Lemma cursor_next (pre rest : list Item) (item : Item) :
  Z.of_nat (length pre) + 1 = Z.of_nat (length (pre ++ [item])) /\
  pre ++ item :: rest = (pre ++ [item]) ++ rest.
Proof. split; [rewrite length_app; cbn; lia | now rewrite <- app_assoc]. Qed.

(** Without a limit, and with the limit 0, the loop counts every item outside
    internal nodes. *)
Lemma countNonInternalElements_loop_unlimited (nf : NodeFactory) (limit : option Z)
    (rest : list Item) :
  limit = None \/ limit = Some 0 ->
  forall pre internalDepth count,
    knownTypes nf (pre ++ rest) ->
    countNonInternalElements_loop nf (pre ++ rest) limit (length rest)
      (Z.of_nat (length pre)) internalDepth count
    = Ok (count + nonInternalItems nf internalDepth rest).
Proof.
  intros Hlimit.
  induction rest as [|item rest IH]; intros pre internalDepth count Hk.
  - cbn. f_equal. lia.
  - cbn [length]. rewrite (countNonInternalElements_loop_step _ _ _ _ _ _ _ _ Hk).
    cbn [nonInternalItems].
    destruct (cursor_next pre rest item) as [Hnext Hsame].
    rewrite Hnext, Hsame. rewrite Hsame in Hk.
    replace (match limit with
             | Some l => negb (l =? 0) && (count + 1 >=? l)
             | None => false
             end) with false by (destruct Hlimit as [-> | ->]; reflexivity).
    destruct (internalElement nf item); [now apply IH|].
    destruct (internalDepth =? 0); rewrite IH by exact Hk; f_equal; lia.
Qed.

(** With a limit other than 0 the loop stops as soon as the count reaches the
    limit, after the first item counted where the limit is negative. *)
Lemma countNonInternalElements_loop_limited (nf : NodeFactory) (l : Z)
    (rest : list Item) :
  l <> 0 ->
  forall pre internalDepth count,
    knownTypes nf (pre ++ rest) -> 0 <= count < Z.max 1 l ->
    countNonInternalElements_loop nf (pre ++ rest) (Some l) (length rest)
      (Z.of_nat (length pre)) internalDepth count
    = Ok (Z.min (Z.max 1 l) (count + nonInternalItems nf internalDepth rest)).
Proof.
  intros Hl.
  induction rest as [|item rest IH]; intros pre internalDepth count Hk Hcount.
  - cbn. f_equal. lia.
  - cbn [length]. rewrite (countNonInternalElements_loop_step _ _ _ _ _ _ _ _ Hk).
    cbn [nonInternalItems].
    destruct (cursor_next pre rest item) as [Hnext Hsame].
    rewrite Hnext, Hsame. rewrite Hsame in Hk.
    pose proof (nonInternalItems_nonneg nf rest internalDepth) as Hnonneg.
    replace (negb (l =? 0)) with true
      by (symmetry; apply negb_true_iff; now apply Z.eqb_neq).
    cbn [andb].
    destruct (internalElement nf item); [now apply IH|].
    destruct (internalDepth =? 0).
    + destruct (count + 1 >=? l) eqn:E; rewrite Z.geb_leb in E.
      * apply Z.leb_le in E. f_equal. lia.
      * apply Z.leb_gt in E. rewrite IH; [f_equal; lia | exact Hk | lia].
    + rewrite IH; [f_equal; lia | exact Hk | lia].
Qed.

(** X14: on data whose element types are registered,
    [countNonInternalElements] does not raise. Without a limit, or with the
    limit 0, it returns the number of items, characters included, that lie
    outside nodes of internal types; with a positive limit it returns that
    number capped at the limit, so that the result never exceeds the limit;
    with a negative limit it stops at the first item it counts. *)
Theorem countNonInternalElements_capped (nf : NodeFactory) (d : LinearData)
    (limit : option Z) :
  knownTypes nf d ->
  countNonInternalElements nf d limit
  = Ok (match limit with
        | None => nonInternalItems nf 0 d
        | Some l =>
            if l =? 0 then nonInternalItems nf 0 d
            else if 0 <? l then Z.min l (nonInternalItems nf 0 d)
            else Z.min 1 (nonInternalItems nf 0 d)
        end).
Proof.
  intros Hk. unfold countNonInternalElements.
  destruct limit as [l|].
  - destruct (l =? 0) eqn:E0.
    + apply Z.eqb_eq in E0. subst l.
      apply (countNonInternalElements_loop_unlimited nf (Some 0) d (or_intror eq_refl)
               [] 0 0 Hk).
    + apply Z.eqb_neq in E0.
      pose proof (countNonInternalElements_loop_limited nf l d E0 [] 0 0 Hk ltac:(lia))
        as Hloop.
      cbn [app length] in Hloop. change (Z.of_nat 0) with 0 in Hloop. rewrite Hloop.
      f_equal. destruct (0 <? l) eqn:Epos;
        [apply Z.ltb_lt in Epos | apply Z.ltb_ge in Epos]; lia.
  - apply (countNonInternalElements_loop_unlimited nf None d (or_introl eq_refl)
             [] 0 0 Hk).
Qed.

Lemma countNonInternalElements_capped_witness :
  countNonInternalElements exampleFactory
    (exampleParagraph ++ [open "internalList"; open "paragraph"; close "paragraph";
                          close "internalList"]) None = Ok 4.
Proof.
  apply (countNonInternalElements_capped exampleFactory
           (exampleParagraph ++ [open "internalList"; open "paragraph"; close "paragraph";
                                 close "internalList"]) None).
  reflexivity.
Defined.

(** ** Sanitizing text *)

Lemma getData_bare (chars : list string) (offset : Z) :
  0 <= offset < getLength (bare chars) ->
  exists c, getData (bare chars) offset = Some (Character c).
Proof.
  intros Hoff. destruct (getData_interior _ _ Hoff) as [item Hitem].
  pose proof Hitem as Hlookup. apply getData_Some_bounds in Hlookup as (_ & Hlookup & _).
  unfold bare in Hlookup. rewrite list_lookup_fmap in Hlookup.
  destruct (chars !! Z.to_nat offset) as [c|]; [|discriminate Hlookup].
  injection Hlookup as <-. eauto.
Qed.

(** Over bare characters the annotations of a range are none, in either
    mode. *)
Lemma getAnnotationsFromRange_loop_bare (nf : NodeFactory) (d : LinearData)
    (getComparableAnnotationsFromSet : AnnotationSet -> AnnotationSet -> AnnotationSet)
    (range : Range) (all : bool) (n : nat) :
  forall i left_,
    (forall o, i <= o < i + Z.of_nat n -> exists c, getData d o = Some (Character c)) ->
    left_ = None \/ left_ = Some [] ->
    getAnnotationsFromRange_loop nf d getComparableAnnotationsFromSet range all n i left_ 0
    = Ok [].
Proof.
  induction n as [|n IH]; intros i left_ H Hleft.
  - destruct Hleft as [-> | ->]; reflexivity.
  - cbn [getAnnotationsFromRange_loop]. destruct (H i ltac:(lia)) as [c Hc].
    unfold isElementData. rewrite Hc, bind_Ok. cbn [orb]. change (0 <? 0) with false.
    cbv iota.
    rewrite (getAnnotationIndexesFromOffset_character nf d i c false Hc), !bind_Ok.
    assert (Hnext : getAnnotationsFromRange_loop nf d getComparableAnnotationsFromSet range
                      all n (i + 1) (Some []) 0 = Ok []).
    { apply IH; [intros o Ho; apply H; lia | now right]. }
    destruct Hleft as [-> | ->]; rewrite ?bind_Ok.
    + destruct (_ || _); [reflexivity | exact Hnext].
    + cbn [annotationSet_isEmpty negb]. rewrite andb_false_r.
      destruct (negb all); [reflexivity | exact Hnext].
Qed.

Lemma getCharacterData_character (pre post : list Item) (c : string) :
  getCharacterData (pre ++ Character c :: post) (Z.of_nat (length pre)) = c.
Proof. unfold getCharacterData. now rewrite getData_middle. Qed.

Section SanitizeText.
Variable nf : NodeFactory.
Variable modelRegistry_sanitize : string -> option (Rules -> Element -> Element).
Variable rules : Rules.
Variable setToRemove : AnnotationSet.
Variable store : IndexValueStore.

(** A bare character other than a newline is passed over, whatever the
    rules. *)
Lemma sanitize_body_bare (pre post : list Item) (c : string)
    (type_ : option string) (contentElement : option Z) :
  c <> newline ->
  sanitize_body nf modelRegistry_sanitize rules setToRemove
    (sanitizeAt store pre (Character c :: post) type_ contentElement)
  = Ok (sanitizeAt store (pre ++ [Character c]) post type_ contentElement).
Proof.
  intros Hc. unfold sanitize_body, sanitizeAt.
  cbn [ss_data ss_i ss_store ss_len ss_type ss_contentElement].
  pose proof (getData_middle pre post (Character c)) as Hd.
  unfold isElementData. rewrite Hd.
  unfold sanitize_character. cbn [ss_data ss_i ss_store ss_len ss_type ss_contentElement].
  rewrite getCharacterData_character.
  replace (String.eqb c newline) with false
    by (symmetry; now apply String.eqb_neq).
  rewrite !bind_Ok. cbv iota. unfold sanitize_tail.
  cbn [ss_data ss_i ss_store ss_len ss_type ss_contentElement].
  rewrite (getAnnotationIndexesFromOffset_character nf _ _ c true Hd), bind_Ok.
  cbn [annotationSet_isEmpty negb]. rewrite bind_Ok.
  unfold isOpenElementData. rewrite Hd, bind_Ok.
  f_equal. rewrite <- app_assoc. cbn [app].
  f_equal; rewrite ?length_app; cbn [length]; lia.
Qed.

Lemma sanitize_loop_bare (type_ : option string) (contentElement : option Z)
    (chars : list string) :
  forall fuel pre post,
    Forall (fun c => c <> newline) chars ->
    sanitize_loop nf modelRegistry_sanitize rules setToRemove (length chars + fuel)
      (sanitizeAt store pre (bare chars ++ post) type_ contentElement)
    = sanitize_loop nf modelRegistry_sanitize rules setToRemove fuel
        (sanitizeAt store (pre ++ bare chars) post type_ contentElement).
Proof.
  induction chars as [|c chars IH]; intros fuel pre post Hchars.
  - cbn. now rewrite app_nil_r.
  - inversion Hchars as [|? ? Hc Hrest]; subst.
    cbn [length Nat.add bare fmap list_fmap app].
    cbn [sanitize_loop].
    replace (ss_i (sanitizeAt store pre (Character c :: (Character <$> chars) ++ post)
                     type_ contentElement)
             <? ss_len (sanitizeAt store pre (Character c :: (Character <$> chars) ++ post)
                          type_ contentElement)) with true.
    2:{ symmetry. apply Z.ltb_lt. unfold sanitizeAt. cbn [ss_i ss_len].
        rewrite length_app. cbn [length]. lia. }
    rewrite (sanitize_body_bare pre _ c type_ contentElement Hc), bind_Ok.
    fold (bare chars).
    rewrite (IH fuel (pre ++ [Character c]) post Hrest).
    now rewrite <- app_assoc.
Qed.

(** A newline character that comes before any element makes the loop ask the
    registry about the type [undefined]. *)
Lemma sanitize_body_newline_first (pre post : list Item) (contentElement : option Z) :
  nf !! "undefined" = None ->
  sanitize_body nf modelRegistry_sanitize rules setToRemove
    (sanitizeAt store pre (Character newline :: post) None contentElement)
  = Throw (UnknownNodeType "undefined").
Proof.
  intros Hnone. unfold sanitize_body, sanitizeAt.
  cbn [ss_data ss_i ss_store ss_len ss_type ss_contentElement].
  pose proof (getData_middle pre post (Character newline)) as Hd.
  unfold isElementData. rewrite Hd.
  unfold sanitize_character. cbn [ss_data ss_i ss_store ss_len ss_type ss_contentElement].
  rewrite getCharacterData_character.
  rewrite String.eqb_refl, bind_Ok.
  unfold doesNodeHaveSignificantWhitespace, registered, notR.
  change (toKey None) with "undefined". rewrite Hnone. reflexivity.
Qed.

End SanitizeText.

Lemma sanitize_prepare_bare (nf : NodeFactory)
    (getComparableAnnotationsFromSet : AnnotationSet -> AnnotationSet -> AnnotationSet)
    (chars : list string) :
  getAnnotationsFromRange nf (bare chars) getComparableAnnotationsFromSet
    (mkRange 0 (getLength (bare chars))) true = Ok [].
Proof.
  unfold getAnnotationsFromRange, range_start, range_end. cbn [from to].
  apply getAnnotationsFromRange_loop_bare; [|now left].
  intros o Ho. apply getData_bare. unfold getLength in *. lia.
Qed.

(** X15: [sanitize] leaves data that consists of bare characters, none of
    them a newline, exactly as it is and the store with it, whatever the
    rules and whatever the registry holds. *)
Theorem sanitize_bare_text_unchanged (nf : NodeFactory)
    (modelRegistry_sanitize : string -> option (Rules -> Element -> Element))
    (getComparableAnnotationsFromSet : AnnotationSet -> AnnotationSet -> AnnotationSet)
    (rules : Rules) (store : IndexValueStore) (chars : list string) :
  Forall (fun c => c <> newline) chars ->
  sanitize nf modelRegistry_sanitize getComparableAnnotationsFromSet rules store (bare chars)
  = Ok (store, bare chars).
Proof.
  intros Hchars. unfold sanitize. rewrite sanitize_prepare_bare, bind_Ok.
  assert (Hprepared :
    (if plainText rules then Ok (store, [])
     else
       store0 ← (if removeOriginalDomElements rules
                 then removeAnnotationDomElements store []
                 else Ok store);
       setToRemove ← annotationSet_filter store0 (fun annotation =>
                        blacklisted rules (name annotation) ||
                        (String.eqb (name annotation) "textStyle/span" &&
                         removeOriginalDomElements rules)) [];
       Ok (store0, setToRemove)) = Ok (store, @nil nat)).
  { destruct (plainText rules); [reflexivity|].
    destruct (removeOriginalDomElements rules); reflexivity. }
  rewrite Hprepared, bind_Ok.
  change {| ss_data := bare chars; ss_store := store; ss_i := 0;
            ss_len := getLength (bare chars); ss_type := None; ss_contentElement := None |}
    with (sanitizeAt store [] (bare chars) None None).
  rewrite <- (app_nil_r (bare chars)) at 2.
  replace (sanitize_fuel (bare chars))
    with (length chars + S (2 * length chars))%nat
    by (unfold sanitize_fuel, bare; rewrite length_fmap; lia).
  rewrite sanitize_loop_bare by exact Hchars.
  cbn [sanitize_loop app]. unfold sanitizeAt at 1 2. cbn [ss_i ss_len].
  rewrite app_nil_r, Z.ltb_irrefl, bind_Ok. unfold sanitizeAt. cbn [ss_store ss_data].
  now rewrite app_nil_r.
Qed.

Lemma sanitize_bare_text_unchanged_witness :
  sanitize ∅ (fun _ => None) (fun set _ => set) plainTextRules boldStore
    (bare ["a"; " "; "b"])
  = Ok (boldStore, bare ["a"; " "; "b"]).
Proof.
  apply (sanitize_bare_text_unchanged ∅ (fun _ => None) (fun set _ => set) plainTextRules
           boldStore ["a"; " "; "b"]).
  repeat constructor; discriminate.
Defined.

(** X16: on data that consists of bare characters with a newline among
    them, [sanitize] raises, whatever the rules: no element has set the
    current node type when the newline is met, and the registry is asked
    whether the type [undefined] has significant whitespace. With no class
    registered under that name the error is "Unknown node type: undefined". *)
Theorem sanitize_text_with_newline_raises (nf : NodeFactory)
    (modelRegistry_sanitize : string -> option (Rules -> Element -> Element))
    (getComparableAnnotationsFromSet : AnnotationSet -> AnnotationSet -> AnnotationSet)
    (rules : Rules) (store : IndexValueStore) (chars : list string) :
  nf !! "undefined" = None -> In newline chars ->
  sanitize nf modelRegistry_sanitize getComparableAnnotationsFromSet rules store (bare chars)
  = Throw (UnknownNodeType "undefined").
Proof.
  intros Hnone Hin. unfold sanitize. rewrite sanitize_prepare_bare, bind_Ok.
  apply list_elem_of_In, list_elem_of_split_l in Hin as (pre & post & -> & Hfirst).
  assert (Hpre : Forall (fun c => c <> newline) pre).
  { apply Forall_forall. intros c Hc ->. now apply Hfirst. }
  assert (Hprepared : exists setToRemove,
    (if plainText rules then Ok (store, [])
     else
       store0 ← (if removeOriginalDomElements rules
                 then removeAnnotationDomElements store []
                 else Ok store);
       setToRemove ← annotationSet_filter store0 (fun annotation =>
                        blacklisted rules (name annotation) ||
                        (String.eqb (name annotation) "textStyle/span" &&
                         removeOriginalDomElements rules)) [];
       Ok (store0, setToRemove)) = Ok (store, setToRemove)).
  { exists []. destruct (plainText rules); [reflexivity|].
    destruct (removeOriginalDomElements rules); reflexivity. }
  destruct Hprepared as [setToRemove ->]. rewrite bind_Ok.
  change {| ss_data := bare (pre ++ newline :: post); ss_store := store; ss_i := 0;
            ss_len := getLength (bare (pre ++ newline :: post)); ss_type := None;
            ss_contentElement := None |}
    with (sanitizeAt store [] (bare (pre ++ newline :: post)) None None).
  replace (bare (pre ++ newline :: post))
    with (bare pre ++ Character newline :: bare post)
    by (unfold bare; now rewrite fmap_app).
  replace (sanitize_fuel (bare pre ++ Character newline :: bare post))
    with (length pre + S (2 * length pre + 3 * length post + 3))%nat
    by (unfold sanitize_fuel, bare; rewrite length_app; cbn [length];
        rewrite !length_fmap; lia).
  rewrite sanitize_loop_bare by exact Hpre.
  cbn [sanitize_loop app].
  replace (ss_i (sanitizeAt store (bare pre) (Character newline :: bare post) None None)
           <? ss_len (sanitizeAt store (bare pre) (Character newline :: bare post) None None))
    with true.
  2:{ symmetry. apply Z.ltb_lt. unfold sanitizeAt. cbn [ss_i ss_len].
      rewrite length_app. cbn [length]. lia. }
  now rewrite sanitize_body_newline_first.
Qed.

Lemma sanitize_text_with_newline_raises_witness :
  sanitize exampleFactory (fun _ => None) (fun set _ => set) plainTextRules boldStore
    (bare ["a"; newline; "b"])
  = Throw (UnknownNodeType "undefined").
Proof.
  apply (sanitize_text_with_newline_raises exampleFactory (fun _ => None) (fun set _ => set)
           plainTextRules boldStore ["a"; newline; "b"]).
  - reflexivity.
  - right. now left.
Defined.

(** ** Sanitizing what is plain text already *)

Section SanitizePlainParagraph.
Variable nf : NodeFactory.
Variable modelRegistry_sanitize : string -> option (Rules -> Element -> Element).
Variable store : IndexValueStore.

(** In plain text mode a paragraph element without annotations and internal
    data is passed over, unless it opens a paragraph that the next item
    closes. *)
Lemma sanitize_body_paragraph (pre post : list Item) (e : Element) (c : NodeClass)
    (type_ : option string) (contentElement : option Z) :
  nf !! "paragraph" = Some c ->
  stripSlash (type e) = "paragraph" ->
  annotations e = None -> internal e = None ->
  startsWithSlash (type e) = true \/
  isCloseElementData (pre ++ ElementItem e :: post) (Z.of_nat (length pre) + 1) = false ->
  sanitize_body nf modelRegistry_sanitize plainTextRules []
    (sanitizeAt store pre (ElementItem e :: post) type_ contentElement)
  = Ok (sanitizeAt store (pre ++ [ElementItem e]) post (Some "paragraph")
          (if canContainContent c
           then (if startsWithSlash (type e) then None else Some (Z.of_nat (length pre)))
           else contentElement)).
Proof.
  intros Hc Htype Hann Hint Hnext.
  unfold sanitize_body, sanitizeAt.
  cbn [ss_data ss_i ss_store ss_len ss_type ss_contentElement].
  pose proof (getData_middle pre post (ElementItem e)) as Hd.
  unfold isElementData. rewrite Hd.
  unfold sanitize_element.
  cbn [ss_data ss_i ss_store ss_len ss_type ss_contentElement].
  rewrite (getType_element _ _ _ Hd), bind_Ok, toKey_Some, Htype.
  unfold canNodeContainContent, registered. rewrite Hc, bind_Ok.
  cbv [plainTextRules conversions plainText blacklisted blacklist allowBreaks
       keepEmptyContentBranches preserveHtmlWhitespace].
  change (String.eqb "paragraph" "paragraph") with true.
  change (String.eqb "paragraph" "break") with false.
  cbn [negb andb orb].
  rewrite isOpenElementData_middle.
  match goal with
  | |- context [negb (startsWithSlash (type e)) && isCloseElementData ?d ?i && ?g && ?k] =>
      replace (negb (startsWithSlash (type e)) && isCloseElementData d i && g && k)
        with false
  end.
  2:{ symmetry. destruct Hnext as [-> | ->]; [reflexivity|].
      now destruct (startsWithSlash (type e)). }
  rewrite Hd. unfold getProp_internal. rewrite Hint.
  change (String.eqb "paragraph" "paragraph") with true.
  change (String.eqb "paragraph" "break") with false.
  cbn [negb andb orb]. cbv iota. rewrite bind_Ok.
  rewrite (sanitize_tail_element nf modelRegistry_sanitize store pre post e _ _ _ Hann).
  f_equal. rewrite <- app_assoc. cbn [app].
  f_equal; rewrite ?length_app; cbn [length]; try lia.
  destruct (canContainContent c); [|reflexivity].
  now destruct (startsWithSlash (type e)).
Qed.

End SanitizePlainParagraph.

Lemma knownTypes_paragraph (nf : NodeFactory) (opening closing : Element)
    (chars : list string) (c : NodeClass) :
  nf !! "paragraph" = Some c ->
  stripSlash (type opening) = "paragraph" -> stripSlash (type closing) = "paragraph" ->
  knownTypes nf (ElementItem opening :: bare chars ++ [ElementItem closing]).
Proof.
  intros Hc Ho Hcl. unfold knownTypes. apply forallb_forall. intros item Hin.
  destruct Hin as [<- | Hin].
  - cbn. rewrite Ho. apply bool_decide_eq_true. eauto.
  - apply in_app_or in Hin as [Hin | [<- | []]].
    + unfold bare in Hin. apply list_elem_of_In, list_elem_of_fmap in Hin as (ch & -> & _).
      reflexivity.
    + cbn. rewrite Hcl. apply bool_decide_eq_true. eauto.
Qed.

(** X17: with the rules [{ plainText: true }], [sanitize] leaves a
    paragraph of one or more bare characters, none of them a newline, as it
    is and the store with it, where the paragraph type is registered and the
    opening element and the closing marker carry neither annotations nor
    internal data. What plain text sanitisation makes of an annotated heading
    is of this form: sanitising it a second time changes nothing. *)
Theorem sanitize_plainText_paragraph_unchanged (nf : NodeFactory)
    (modelRegistry_sanitize : string -> option (Rules -> Element -> Element))
    (getComparableAnnotationsFromSet : AnnotationSet -> AnnotationSet -> AnnotationSet)
    (store : IndexValueStore) (opening closing : Element) (chars : list string) :
  is_Some (nf !! "paragraph") ->
  type opening = "paragraph" -> type closing = "/paragraph" ->
  annotations opening = None -> internal opening = None ->
  annotations closing = None -> internal closing = None ->
  chars <> [] ->
  Forall (fun c => c <> newline) chars ->
  sanitize nf modelRegistry_sanitize getComparableAnnotationsFromSet plainTextRules store
    (ElementItem opening :: bare chars ++ [ElementItem closing])
  = Ok (store, ElementItem opening :: bare chars ++ [ElementItem closing]).
Proof.
  intros [c Hc] Hopen Hclose Hoa Hoi Hca Hci Hne Hchars.
  assert (Hso : stripSlash (type opening) = "paragraph") by now rewrite Hopen.
  assert (Hsc : stripSlash (type closing) = "paragraph") by now rewrite Hclose.
  pose proof (knownTypes_paragraph nf opening closing chars c Hc Hso Hsc) as Hk.
  unfold sanitize.
  destruct (getAnnotationsFromRange_whole_is_ok nf _ getComparableAnnotationsFromSet true Hk)
    as [allAnnotations ->].
  rewrite bind_Ok. cbn [plainText plainTextRules]. rewrite bind_Ok.
  change {| ss_data := ElementItem opening :: bare chars ++ [ElementItem closing];
            ss_store := store; ss_i := 0;
            ss_len := getLength (ElementItem opening :: bare chars ++ [ElementItem closing]);
            ss_type := None; ss_contentElement := None |}
    with (sanitizeAt store []
            (ElementItem opening :: bare chars ++ [ElementItem closing]) None None).
  replace (sanitize_fuel (ElementItem opening :: bare chars ++ [ElementItem closing]))
    with (S (length chars + S (S (2 * length chars + 4)))).
  2:{ unfold sanitize_fuel, bare. cbn [length].
      rewrite length_app, length_fmap. cbn [length]. lia. }
  (* the opening element *)
  cbn [sanitize_loop].
  replace (ss_i (sanitizeAt store []
             (ElementItem opening :: bare chars ++ [ElementItem closing]) None None)
           <? ss_len (sanitizeAt store []
             (ElementItem opening :: bare chars ++ [ElementItem closing]) None None))
    with true by (symmetry; apply Z.ltb_lt; unfold sanitizeAt; cbn [ss_i ss_len length app]; lia).
  rewrite (sanitize_body_paragraph nf modelRegistry_sanitize store [] _ opening c None None
             Hc Hso Hoa Hoi).
  2:{ right. destruct chars as [|ch chars]; [congruence|]. reflexivity. }
  rewrite bind_Ok. cbn [app].
  (* the characters *)
  rewrite sanitize_loop_bare by exact Hchars.
  (* the closing marker *)
  cbn [sanitize_loop].
  match goal with
  | |- context [ss_i ?st <? ss_len ?st] =>
      replace (ss_i st <? ss_len st) with true
        by (symmetry; apply Z.ltb_lt; unfold sanitizeAt; cbn [ss_i ss_len];
            rewrite !length_app; cbn [length]; lia)
  end.
  rewrite (sanitize_body_paragraph nf modelRegistry_sanitize store _ [] closing c _ _
             Hc Hsc Hca Hci).
  2:{ left. now rewrite Hclose. }
  rewrite bind_Ok.
  match goal with
  | |- context [ss_i ?st <? ss_len ?st] =>
      replace (ss_i st <? ss_len st) with false
        by (symmetry; apply Z.ltb_ge; unfold sanitizeAt; cbn [ss_i ss_len];
            rewrite !length_app; cbn [length]; lia)
  end.
  rewrite bind_Ok. unfold sanitizeAt. cbn [ss_store ss_data].
  now rewrite app_nil_r, <- app_assoc.
Qed.

Lemma sanitize_plainText_paragraph_unchanged_witness :
  sanitize exampleFactory (fun _ => None) (fun set _ => set) plainTextRules boldStore
    (open "paragraph" :: bare ["a"; "b"] ++ [close "paragraph"])
  = Ok (boldStore, open "paragraph" :: bare ["a"; "b"] ++ [close "paragraph"]).
Proof.
  apply (sanitize_plainText_paragraph_unchanged exampleFactory (fun _ => None)
           (fun set _ => set) boldStore (element "paragraph") (element "/paragraph")
           ["a"; "b"]).
  - eexists. vm_compute. reflexivity.
  - reflexivity.
  - reflexivity.
  - reflexivity.
  - reflexivity.
  - reflexivity.
  - reflexivity.
  - discriminate.
  - repeat constructor; discriminate.
Defined.

(** ** Writing and reading back *)

Lemma getData_insert_ne (d : LinearData) (offset o : Z) (new : Item) :
  0 <= offset -> o <> offset ->
  getData (<[Z.to_nat offset := new]> d) o = getData d o.
Proof.
  intros Hoff Hne. unfold getData. destruct (o <? 0) eqn:E; [reflexivity|].
  apply Z.ltb_ge in E. apply list_lookup_insert_ne. lia.
Qed.

Lemma getLength_insert (d : LinearData) (n : nat) (new : Item) :
  getLength (<[n := new]> d) = getLength d.
Proof. unfold getLength. now rewrite length_insert. Qed.

(** What [setAnnotationIndexesAtOffset] stores in a slot that holds an
    item. *)
Lemma setAnnotationIndexesAtOffset_insert (d : LinearData) (offset : Z) (item : Item)
    (indexes : list nat) :
  getData d offset = Some item ->
  setAnnotationIndexesAtOffset d offset indexes
  = <[Z.to_nat offset :=
       match item with
       | ElementItem e =>
           ElementItem
             {| type := type e; attributes := attributes e;
                annotations := if 0 <? Z.of_nat (length indexes) then Some indexes else None;
                internal := internal e;
                originalDomElementsIndex := originalDomElementsIndex e |}
       | Character c | AnnotatedCharacter c _ =>
           if 0 <? Z.of_nat (length indexes) then AnnotatedCharacter c indexes
           else Character c
       end]> d.
Proof.
  intros Hd. unfold setAnnotationIndexesAtOffset, isElementData, modifyElement,
    getCharacterData.
  rewrite Hd.
  destruct item as [c|c ix|e]; destruct (0 <? Z.of_nat (length indexes));
    try reflexivity; apply (setData_inside _ _ _ _ Hd).
Qed.

(** X18: the annotation indexes set at an offset that holds an item are
    the ones read back there with [ignoreClose], whether the item is a
    character or an element and whether the list is empty or not. The length
    of the data, the character and the element type at the offset, and every
    other item stay as they were. *)
Theorem setAnnotationIndexesAtOffset_read_back (nf : NodeFactory) (d : LinearData)
    (offset : Z) (indexes : list nat) :
  0 <= offset < getLength d ->
  getAnnotationIndexesFromOffset nf (setAnnotationIndexesAtOffset d offset indexes)
    offset true = Ok indexes /\
  getLength (setAnnotationIndexesAtOffset d offset indexes) = getLength d /\
  getCharacterData (setAnnotationIndexesAtOffset d offset indexes) offset
  = getCharacterData d offset /\
  getType (setAnnotationIndexesAtOffset d offset indexes) offset = getType d offset /\
  (forall o, o <> offset ->
     getData (setAnnotationIndexesAtOffset d offset indexes) o = getData d o).
Proof.
  intros Hoff. destruct (getData_interior d offset Hoff) as [item Hitem].
  rewrite (setAnnotationIndexesAtOffset_insert d offset item indexes Hitem).
  pose proof (fun new => getData_insert d offset item new Hitem) as Hnew.
  assert (Hempty : (0 <? Z.of_nat (length indexes)) = false -> indexes = []).
  { intros H. apply Z.ltb_ge in H. destruct indexes; [reflexivity | cbn in H; lia]. }
  repeat split.
  - rewrite getAnnotationIndexesFromOffset_ignoreClose by (rewrite getLength_insert; lia).
    rewrite Hnew.
    destruct item as [c|c ix|e]; destruct (0 <? Z.of_nat (length indexes)) eqn:E;
      cbn; try reflexivity; now rewrite Hempty.
  - apply getLength_insert.
  - unfold getCharacterData. rewrite Hnew, Hitem.
    destruct item as [c|c ix|e]; destruct (0 <? Z.of_nat (length indexes)); reflexivity.
  - unfold getType, isCloseElementData. rewrite Hnew, Hitem.
    destruct item as [c|c ix|e]; destruct (0 <? Z.of_nat (length indexes)); reflexivity.
  - intros o Ho. apply getData_insert_ne; lia.
Qed.

Lemma setAnnotationIndexesAtOffset_read_back_witness :
  getAnnotationIndexesFromOffset exampleFactory
    (setAnnotationIndexesAtOffset exampleParagraph 1 [0%nat; 2%nat]) 1 true
  = Ok [0%nat; 2%nat] /\
  getLength (setAnnotationIndexesAtOffset exampleParagraph 1 [0%nat; 2%nat])
  = getLength exampleParagraph /\
  getCharacterData (setAnnotationIndexesAtOffset exampleParagraph 1 [0%nat; 2%nat]) 1
  = getCharacterData exampleParagraph 1 /\
  getType (setAnnotationIndexesAtOffset exampleParagraph 1 [0%nat; 2%nat]) 1
  = getType exampleParagraph 1 /\
  (forall o, o <> 1 ->
     getData (setAnnotationIndexesAtOffset exampleParagraph 1 [0%nat; 2%nat]) o
     = getData exampleParagraph o).
Proof.
  apply (setAnnotationIndexesAtOffset_read_back exampleFactory exampleParagraph 1
           [0%nat; 2%nat]).
  vm_compute. split; [discriminate | reflexivity].
Defined.

(** What [setAttributeAtOffset] stores in a slot that holds an element. *)
Lemma setAttributeAtOffset_insert (d : LinearData) (offset : Z) (e : Element)
    (key : string) (value : option Mixed) :
  getData d offset = Some (ElementItem e) ->
  setAttributeAtOffset d offset key value
  = <[Z.to_nat offset :=
       ElementItem
         {| type := type e;
            attributes :=
              match value with
              | Some v => Some (assignProperty (default ∅ (attributes e)) key v)
              | None => delete key <$> attributes e
              end;
            annotations := annotations e; internal := internal e;
            originalDomElementsIndex := originalDomElementsIndex e |}]> d.
Proof.
  intros Hd. unfold setAttributeAtOffset, isElementData, modifyElement. rewrite Hd.
  cbn [negb]. destruct value as [v|]; [reflexivity|].
  destruct e as [t [attrs|] ann int odi]; reflexivity.
Qed.

(** An assignment under a key other than [__proto__] is an insertion. *)
Lemma assignProperty_insert (object : gmap string Mixed) (key : string) (value : Mixed) :
  key <> "__proto__" -> assignProperty object key value = <[key := value]> object.
Proof.
  intros Hkey. unfold assignProperty.
  destruct (String.eqb_spec key "__proto__") as [Heq|_]; [contradiction|reflexivity].
Qed.

(** X19: on an element, [setAttributeAtOffset] with a key other than
    [__proto__] behaves as an update of a map from keys to values: after
    setting the key to a value the element has that value under the key, and
    the other attributes of the element are as before. Clearing a key, any
    key, leaves no attribute under it and the other attributes as before.
    Nothing else changes: not the type, the annotations or the internal data
    of the element, not the length of the data, and no other item. *)
Theorem setAttributeAtOffset_updates_attribute (d : LinearData) (offset : Z) (e : Element)
    (key : string) (value : option Mixed) :
  getData d offset = Some (ElementItem e) ->
  value = None \/ key <> "__proto__" ->
  attributeAt (setAttributeAtOffset d offset key value) offset key = value /\
  (forall other, other <> key ->
     attributeAt (setAttributeAtOffset d offset key value) offset other
     = attributeAt d offset other) /\
  (exists e', getData (setAttributeAtOffset d offset key value) offset
              = Some (ElementItem e') /\
     type e' = type e /\ annotations e' = annotations e /\ internal e' = internal e /\
     originalDomElementsIndex e' = originalDomElementsIndex e) /\
  getLength (setAttributeAtOffset d offset key value) = getLength d /\
  (forall o, o <> offset ->
     getData (setAttributeAtOffset d offset key value) o = getData d o).
Proof.
  intros Hd Hkey. rewrite (setAttributeAtOffset_insert d offset e key value Hd).
  destruct (getData_Some_bounds _ _ _ Hd) as (Hoff & _ & _).
  unfold attributeAt. rewrite (getData_insert d offset _ _ Hd), Hd.
  cbn [attributes]. repeat split.
  - destruct value as [v|]; cbn.
    + destruct Hkey as [Hnone|Hkey]; [discriminate Hnone|].
      rewrite (assignProperty_insert _ _ _ Hkey). apply lookup_insert_eq.
    + destruct (attributes e) as [attrs|]; cbn; [apply lookup_delete_eq | reflexivity].
  - intros other Hother. destruct value as [v|]; cbn.
    + destruct Hkey as [Hnone|Hkey]; [discriminate Hnone|].
      rewrite (assignProperty_insert _ _ _ Hkey).
      rewrite lookup_insert_ne by congruence.
      destruct (attributes e) as [attrs|]; cbn; [reflexivity | apply lookup_empty].
    + destruct (attributes e) as [attrs|]; cbn; [|reflexivity].
      now rewrite lookup_delete_ne by congruence.
  - eexists. split; [reflexivity|]. cbn. auto.
  - apply getLength_insert.
  - intros o Ho. now apply getData_insert_ne.
Qed.

Lemma setAttributeAtOffset_updates_attribute_witness :
  attributeAt (setAttributeAtOffset exampleParagraph 0 "style" (Some (JStr "pre"))) 0 "style"
  = Some (JStr "pre") /\
  (forall other, other <> "style" ->
     attributeAt (setAttributeAtOffset exampleParagraph 0 "style" (Some (JStr "pre"))) 0 other
     = attributeAt exampleParagraph 0 other) /\
  (exists e', getData (setAttributeAtOffset exampleParagraph 0 "style" (Some (JStr "pre"))) 0
              = Some (ElementItem e') /\
     type e' = type (element "paragraph") /\
     annotations e' = annotations (element "paragraph") /\
     internal e' = internal (element "paragraph") /\
     originalDomElementsIndex e' = originalDomElementsIndex (element "paragraph")) /\
  getLength (setAttributeAtOffset exampleParagraph 0 "style" (Some (JStr "pre")))
  = getLength exampleParagraph /\
  (forall o, o <> 0 ->
     getData (setAttributeAtOffset exampleParagraph 0 "style" (Some (JStr "pre"))) o
     = getData exampleParagraph o).
Proof.
  apply (setAttributeAtOffset_updates_attribute exampleParagraph 0 (element "paragraph")
           "style" (Some (JStr "pre"))).
  - reflexivity.
  - right. intros H. discriminate H.
Defined.

(** Under the key [__proto__] an assignment stores no attribute on an element
    that has none of that name, and it replaces the one the element has;
    clearing removes it. *)
Example attributes_under_proto :
  attributeAt (setAttributeAtOffset exampleParagraph 0 "__proto__" (Some (JNum 2))) 0
    "__proto__" = None /\
  getData (setAttributeAtOffset exampleParagraph 0 "__proto__" (Some (JNum 2))) 0
  = Some (ElementItem
            {| type := "paragraph"; attributes := Some ∅; annotations := None;
               internal := None; originalDomElementsIndex := None |}) /\
  attributeAt
    (setAttributeAtOffset
       [ElementItem
          {| type := "paragraph"; attributes := Some {["__proto__" := JNum 1]};
             annotations := None; internal := None; originalDomElementsIndex := None |}]
       0 "__proto__" (Some (JNum 2))) 0 "__proto__" = Some (JNum 2) /\
  attributeAt
    (setAttributeAtOffset
       [ElementItem
          {| type := "paragraph"; attributes := Some {["__proto__" := JNum 1]};
             annotations := None; internal := None; originalDomElementsIndex := None |}]
       0 "__proto__" None) 0 "__proto__" = None.
Proof. repeat split; vm_compute; reflexivity. Qed.

(** ** Offsets next to text and offsets outside the data *)

Lemma getData_outside (d : LinearData) (offset : Z) :
  offset < 0 \/ getLength d <= offset -> getData d offset = None.
Proof.
  intros H. unfold getData, getLength in *.
  destruct (offset <? 0) eqn:E; [reflexivity|]. apply Z.ltb_ge in E.
  apply lookup_ge_None. lia.
Qed.

(** Next to a character an offset is content and not structural. *)
Lemma character_neighbour (nf : NodeFactory) (d : LinearData) (offset : Z)
    (item : Item) (unrestricted : bool) :
  0 < offset < getLength d ->
  getData d (offset - 1) = Some item \/ getData d offset = Some item ->
  characterItem item ->
  isContentOffset nf d offset = Ok true /\
  isStructuralOffset nf d offset unrestricted = Ok false.
Proof.
  intros Hoff Hitem Hchar.
  destruct (getData_interior d (offset - 1)) as [l Hl]; [lia|].
  destruct (getData_interior d offset) as [r Hr]; [lia|].
  unfold isContentOffset, isStructuralOffset. rewrite Hl, Hr.
  replace ((offset =? 0) || (offset =? getLength d)) with false
    by (symmetry; apply orb_false_iff; split; apply Z.eqb_neq; lia).
  destruct Hitem as [Hitem | Hitem]; rewrite Hitem in *.
  - injection Hl as <-.
    destruct item as [c|c ix|e]; [| |destruct Hchar]; cbn; rewrite ?bind_Ok;
      split; try reflexivity; destruct r; reflexivity.
  - injection Hr as <-.
    destruct item as [c|c ix|e]; [| |destruct Hchar];
      destruct l as [c'|c' ix'|e']; split; reflexivity.
Qed.

(** X20: an offset inside the data that has a character, bare or
    annotated, on its left or on its right is a content offset and is not a
    structural offset, in either mode; neither test consults the registry
    there, so neither raises, whatever the types of the elements around. *)
Theorem offset_next_to_character (nf : NodeFactory) (d : LinearData) (offset : Z)
    (item : Item) :
  0 < offset < getLength d ->
  getData d (offset - 1) = Some item \/ getData d offset = Some item ->
  characterItem item ->
  isContentOffset nf d offset = Ok true /\
  forall unrestricted, isStructuralOffset nf d offset unrestricted = Ok false.
Proof.
  intros Hoff Hitem Hchar. split.
  - apply (character_neighbour nf d offset item false Hoff Hitem Hchar).
  - intros unrestricted.
    apply (character_neighbour nf d offset item unrestricted Hoff Hitem Hchar).
Qed.

Lemma offset_next_to_character_witness :
  isContentOffset ∅ [ElementItem (element "unregistered"); Character "a"] 1 = Ok true /\
  forall unrestricted,
    isStructuralOffset ∅ [ElementItem (element "unregistered"); Character "a"] 1 unrestricted
    = Ok false.
Proof.
  apply (offset_next_to_character ∅ [ElementItem (element "unregistered"); Character "a"] 1
           (Character "a")).
  - vm_compute. split; reflexivity.
  - right. reflexivity.
  - exact I.
Defined.

(** X21: an offset before the start of the data or beyond its end is
    neither a content offset nor a structural offset: both tests return false
    there and do not raise. *)
Theorem offset_outside_data (nf : NodeFactory) (d : LinearData) (offset : Z)
    (unrestricted : bool) :
  offset < 0 \/ getLength d < offset ->
  isContentOffset nf d offset = Ok false /\
  isStructuralOffset nf d offset unrestricted = Ok false.
Proof.
  intros Hoff. unfold isContentOffset, isStructuralOffset.
  assert (Hlen : 0 <= getLength d) by (unfold getLength; lia).
  replace ((offset =? 0) || (offset =? getLength d)) with false
    by (symmetry; apply orb_false_iff; split; apply Z.eqb_neq; lia).
  destruct Hoff as [Hlow | Hhigh].
  - rewrite (getData_outside d (offset - 1)) by lia. now split.
  - rewrite (getData_outside d offset) by lia.
    destruct (getData d (offset - 1)); now split.
Qed.

Lemma offset_outside_data_witness :
  isContentOffset exampleFactory exampleParagraph 5 = Ok false /\
  isStructuralOffset exampleFactory exampleParagraph 5 false = Ok false.
Proof.
  apply (offset_outside_data exampleFactory exampleParagraph 5 false).
  right. vm_compute. reflexivity.
Defined.

(** ** Annotations at the closing marker of a leaf *)

(** The offset in front of the opening element of a content node is a content
    offset, unless it is the start of the data. *)
Lemma isContentOffset_left_of_leaf (nf : NodeFactory) (d : LinearData) (offset : Z)
    (e : Element) :
  knownTypes nf d -> 0 < offset ->
  getData d offset = Some (ElementItem e) ->
  startsWithSlash (type e) = false -> holds nf isContent (type e) ->
  isContentOffset nf d offset = Ok true.
Proof.
  intros Hk Hoff Hd Hopen (c & Hc & Hcontent).
  pose proof (getData_Some_bounds _ _ _ Hd) as (_ & Hlookup & Hlen).
  apply lookup_lt_Some in Hlookup.
  destruct (getData_interior d (offset - 1)) as [l Hl]; [unfold getLength; lia|].
  rewrite (isContentOffset_interior nf d offset l _ ltac:(unfold getLength; lia) Hl Hd).
  assert (Hleaf : (Ok (bool_decide (is_Some (itemType (ElementItem e)))) &&&
                   Ok (negb (startsWithSlash (toKey (itemType (ElementItem e))))) &&&
                   isNodeContent nf (toKey (itemType (ElementItem e)))) = Ok true).
  { cbn [itemType]. rewrite toKey_Some, Hopen, bool_decide_eq_true_2 by eauto.
    rewrite !bind_Ok. cbn [negb]. unfold isNodeContent, registered. now rewrite Hc, Hcontent. }
  destruct l as [c'|c' ix|el]; try reflexivity.
  assert (Hright : is_ok (Ok (bool_decide (is_Some (itemType (ElementItem el)))) &&&
                          Ok (startsWithSlash (toKey (itemType (ElementItem el)))) &&&
                          isNodeContent nf (slice1 (toKey (itemType (ElementItem el)))))).
  { cbn [itemType]. rewrite toKey_Some, bool_decide_eq_true_2 by eauto. rewrite bind_Ok.
    destruct (startsWithSlash (type el)) eqn:Sl; rewrite bind_Ok; [|apply is_ok_Ok].
    destruct (knownTypes_getData _ _ _ _ Hk Hl) as [cl Hcl].
    rewrite (stripSlash_close _ Sl) in Hcl.
    unfold isNodeContent, registered. rewrite Hcl. apply is_ok_Ok. }
  destruct Hright as [b ->]. rewrite Hleaf. cbn [isString isArray orb]. rewrite !bind_Ok.
  now destruct b.
Qed.

(** X22: the closing marker of a leaf stores no annotations of its own;
    asked without [ignoreClose] for the annotations at the closing marker of
    a content node that can have no children, [getAnnotationIndexesFromOffset]
    returns those of the opening element right before it. This holds on data
    whose element types are registered, without nodes whose children are
    ignored and without an internal list, for a leaf that does not stand at
    the very start of the data. *)
Theorem getAnnotationIndexesFromOffset_closing_leaf (nf : NodeFactory) (d : LinearData)
    (offset : Z) (opening closing : Element) (c : NodeClass) :
  knownTypes nf d -> noIgnoredChildren nf d -> noInternalList d ->
  1 < offset ->
  getData d (offset - 1) = Some (ElementItem opening) ->
  getData d offset = Some (ElementItem closing) ->
  startsWithSlash (type opening) = false ->
  type closing = "/" +:+ type opening ->
  nf !! type opening = Some c -> isContent c = true -> childNodeTypes c = Some [] ->
  getAnnotationIndexesFromOffset nf d offset false
  = Ok (default [] (annotations opening)).
Proof.
  intros Hk Hignore Hinternal Hoff Hopening Hclosing Hopen Htype Hc Hcontent Hchildren.
  pose proof (getData_Some_bounds _ _ _ Hclosing) as (_ & Hlookup & _).
  apply lookup_lt_Some in Hlookup.
  assert (Hrange : 0 <= offset <= getLength d) by (unfold getLength; lia).
  unfold getAnnotationIndexesFromOffset.
  replace ((offset <? 0) || (offset >? getLength d)) with false
    by (symmetry; apply orb_false_iff;
        split; [apply Z.ltb_ge | rewrite Z.gtb_ltb; apply Z.ltb_ge]; lia).
  (* the rewind applies *)
  unfold isCloseElementData. rewrite Hclosing, Htype, startsWithSlash_slash.
  cbn [negb]. rewrite !bind_Ok.
  rewrite (getType_element _ _ _ Hclosing), Htype.
  unfold stripSlash. rewrite startsWithSlash_slash, slice1_slash, bind_Ok, toKey_Some.
  unfold notR, canNodeHaveChildren, registered. rewrite Hc, Hchildren. cbn [length].
  change (0 <? Z.of_nat 0) with false. rewrite !bind_Ok. cbn [negb].
  (* the content offset to the left is the one in front of the opening element *)
  assert (Hvalid : isContentOffset nf d (offset - 1) = Ok true).
  { apply (isContentOffset_left_of_leaf nf d (offset - 1) opening Hk); try assumption;
      [lia | now exists c]. }
  assert (Hsearch : getRelativeContentOffset nf d offset (-1) = Ok (offset - 1)).
  { unfold getRelativeContentOffset.
    set (p := fun o => match isContentOffset nf d o with Ok b => b | Throw _ => false end).
    assert (Hp : forall o, 0 <= o <= getLength d -> isContentOffset nf d o = Ok (p o)).
    { apply callback_as_bool. intros o _. now apply isContentOffset_is_ok. }
    assert (Hdir : searchDirection (getLength d) offset (-1) = -1).
    { unfold searchDirection.
      replace (offset <=? 0) with false by (symmetry; apply Z.leb_gt; lia).
      replace (offset >=? getLength d) with false
        by (symmetry; rewrite Z.geb_leb; apply Z.leb_gt; unfold getLength; lia).
      reflexivity. }
    assert (Hahead : exists rest,
      List.filter p (offsetsBeyond (getLength d) offset
                       (searchDirection (getLength d) offset (-1)))
      = (offset - 1) :: rest).
    { rewrite Hdir. unfold offsetsBeyond, remaining.
      change (0 <? -1) with false. cbv iota.
      replace (Z.to_nat (offset + -1 + 1)) with (S (Z.to_nat (offset - 1))) by lia.
      cbn [offsetsFrom List.filter].
      replace (offset + -1) with (offset - 1) by lia.
      unfold p at 1. rewrite Hvalid. eauto. }
    destruct Hahead as [rest Hahead].
    rewrite (getRelativeOffset_nth nf d offset (-1) (isContentOffset nf d) p Hk Hrange Hp
               Hignore Hinternal); [|discriminate|rewrite Hahead; cbn [length]; lia].
    now rewrite Hahead. }
  rewrite Hsearch, bind_Ok, Hopening.
  now destruct (annotations opening).
Qed.

Lemma getAnnotationIndexesFromOffset_closing_leaf_witness :
  getAnnotationIndexesFromOffset exampleFactory exampleLeaf 3 false = Ok [0%nat].
Proof.
  apply (getAnnotationIndexesFromOffset_closing_leaf exampleFactory exampleLeaf 3
           {| type := "inlineImage"; attributes := None; annotations := Some [0%nat];
              internal := None; originalDomElementsIndex := None |}
           (element "/inlineImage") (nodeClass (Some []) false true)).
  - reflexivity.
  - reflexivity.
  - reflexivity.
  - lia.
  - reflexivity.
  - reflexivity.
  - reflexivity.
  - reflexivity.
  - vm_compute. reflexivity.
  - reflexivity.
  - reflexivity.
Defined.

(** ** Insertion annotations *)

(** Filtering a set keeps indexes of the set only. *)
Lemma annotationSet_filter_subset (store : IndexValueStore) (callback : Annotation -> bool)
    (set : AnnotationSet) :
  forall r, annotationSet_filter store callback set = Ok r ->
    forall index, index ∈ r -> index ∈ set.
Proof.
  induction set as [|i rest IH]; intros r Hr index Hin; cbn in Hr.
  - injection Hr as <-. exact Hin.
  - destruct (store_value store i) as [a|e]; rewrite ?bind_Ok, ?bind_Throw in Hr;
      [|discriminate Hr].
    destruct (annotationSet_filter store callback rest) as [others|e];
      rewrite ?bind_Ok, ?bind_Throw in Hr; [|discriminate Hr].
    injection Hr as <-. specialize (IH others eq_refl index).
    destruct (callback a).
    + apply elem_of_cons in Hin as [-> | Hin]; [left | right; now apply IH].
    + right. now apply IH.
Qed.

Section InsertionAnnotationsProperties.
Variable nf : NodeFactory.
Variable d : LinearData.
Variable store : IndexValueStore.
Variable applyToAppendedContent : Annotation -> bool.
Variable containsComparable : AnnotationSet -> Annotation -> bool.

Lemma getInsertionAnnotationsFromRange_unfold (range : Range)
    (startAfterAnnotations : bool) :
  getInsertionAnnotationsFromRange nf d store applyToAppendedContent containsComparable
    range startAfterAnnotations
  = (startIsContent ← isContentOffset nf d (insertionStart range startAfterAnnotations);
     startAnnotations ← (if startIsContent : bool
                         then getAnnotationsFromOffset nf d
                                (insertionStart range startAfterAnnotations) false
                         else Ok []);
     endIsContent ← isContentOffset nf d (range_end range);
     afterAnnotations ← (if endIsContent : bool
                         then getAnnotationsFromOffset nf d (range_end range) false
                         else Ok []);
     annotationSet_filter store
       (fun annotation =>
          applyToAppendedContent annotation || containsComparable afterAnnotations annotation)
       startAnnotations).
Proof. reflexivity. Qed.

End InsertionAnnotationsProperties.

(** X23: the insertion annotations are taken from one offset only, the
    position before the cursor for a collapsed range and the start of the
    range otherwise: every annotation [getInsertionAnnotationsFromRange]
    returns is among those at that offset, and that offset is a content
    offset. Where it is not a content offset, no annotation is returned:
    on data whose element types are registered and for a range that ends
    within the data, the result is the empty set. A cursor at offset 0 or 1
    is such a case unless the annotations after the cursor are asked for, as
    offset 0 is never a content offset: text typed at the first position of
    a document's first paragraph takes no annotations from the text after
    it. *)
Theorem getInsertionAnnotationsFromRange_start_only (nf : NodeFactory) (d : LinearData)
    (store : IndexValueStore) (applyToAppendedContent : Annotation -> bool)
    (containsComparable : AnnotationSet -> Annotation -> bool) (range : Range)
    (startAfterAnnotations : bool) :
  knownTypes nf d -> 0 <= range_end range <= getLength d ->
  (forall r index,
     getInsertionAnnotationsFromRange nf d store applyToAppendedContent containsComparable
       range startAfterAnnotations = Ok r ->
     index ∈ r ->
     isContentOffset nf d (insertionStart range startAfterAnnotations) = Ok true /\
     exists set,
       getAnnotationsFromOffset nf d (insertionStart range startAfterAnnotations) false
       = Ok set /\ index ∈ set) /\
  (isContentOffset nf d (insertionStart range startAfterAnnotations) = Ok false ->
   getInsertionAnnotationsFromRange nf d store applyToAppendedContent containsComparable
     range startAfterAnnotations = Ok []).
Proof.
  intros Hk Hend. rewrite getInsertionAnnotationsFromRange_unfold. split.
  - intros r index Hr Hin.
    destruct (isContentOffset nf d (insertionStart range startAfterAnnotations))
      as [[|]|e]; rewrite ?bind_Ok, ?bind_Throw in Hr; [| |discriminate Hr].
    + split; [reflexivity|].
      destruct (getAnnotationsFromOffset nf d (insertionStart range startAfterAnnotations)
                  false) as [set|e]; rewrite ?bind_Ok, ?bind_Throw in Hr; [|discriminate Hr].
      exists set. split; [reflexivity|].
      destruct (isContentOffset nf d (range_end range)) as [endIsContent|e];
        rewrite ?bind_Ok, ?bind_Throw in Hr; [|discriminate Hr].
      destruct (if endIsContent then _ else _) as [after|e];
        rewrite ?bind_Ok, ?bind_Throw in Hr; [|discriminate Hr].
      eapply annotationSet_filter_subset; eauto.
    + destruct (isContentOffset nf d (range_end range)) as [endIsContent|e];
        rewrite ?bind_Ok, ?bind_Throw in Hr; [|discriminate Hr].
      destruct (if endIsContent then _ else _) as [after|e];
        rewrite ?bind_Ok, ?bind_Throw in Hr; [|discriminate Hr].
      cbn in Hr. injection Hr as <-. now apply elem_of_nil in Hin.
  - intros ->. rewrite !bind_Ok.
    destruct (isContentOffset_is_ok nf d (range_end range) Hk) as [endIsContent ->].
    rewrite bind_Ok.
    assert (Hafter : is_ok (if endIsContent
                            then getAnnotationsFromOffset nf d (range_end range) false
                            else Ok [])).
    { destruct endIsContent; [|apply is_ok_Ok].
      now apply getAnnotationIndexesFromOffset_inside. }
    destruct Hafter as [after ->]. now rewrite bind_Ok.
Qed.

Lemma getInsertionAnnotationsFromRange_start_only_witness :
  (forall r index,
     getInsertionAnnotationsFromRange exampleFactory
       (open "paragraph" :: annotatedWith 0 ["a"; "b"] ++ [close "paragraph"]) boldStore
       (fun _ => true) (fun _ _ => true) (mkRange 1 1) false = Ok r ->
     index ∈ r ->
     isContentOffset exampleFactory
       (open "paragraph" :: annotatedWith 0 ["a"; "b"] ++ [close "paragraph"])
       (insertionStart (mkRange 1 1) false) = Ok true /\
     exists set,
       getAnnotationsFromOffset exampleFactory
         (open "paragraph" :: annotatedWith 0 ["a"; "b"] ++ [close "paragraph"])
         (insertionStart (mkRange 1 1) false) false = Ok set /\ index ∈ set) /\
  (isContentOffset exampleFactory
     (open "paragraph" :: annotatedWith 0 ["a"; "b"] ++ [close "paragraph"])
     (insertionStart (mkRange 1 1) false) = Ok false ->
   getInsertionAnnotationsFromRange exampleFactory
     (open "paragraph" :: annotatedWith 0 ["a"; "b"] ++ [close "paragraph"]) boldStore
     (fun _ => true) (fun _ _ => true) (mkRange 1 1) false = Ok []).
Proof.
  apply (getInsertionAnnotationsFromRange_start_only exampleFactory
           (open "paragraph" :: annotatedWith 0 ["a"; "b"] ++ [close "paragraph"]) boldStore
           (fun _ => true) (fun _ _ => true) (mkRange 1 1) false).
  - reflexivity.
  - vm_compute. split; discriminate.
Defined.

(** ** All annotations of a range *)

Lemma simpleArrayUnion_subset (l : list nat) :
  forall seen x, x ∈ simpleArrayUnion seen l -> x ∈ l.
Proof.
  induction l as [|y l IH]; intros seen x Hin; cbn in Hin; [exact Hin|].
  destruct (bool_decide (y ∈ seen)).
  - right. now apply (IH seen).
  - apply elem_of_cons in Hin as [-> | Hin]; [left | right; now apply (IH (y :: seen))].
Qed.

Lemma annotationSet_addSet_subset (set other : AnnotationSet) (x : nat) :
  x ∈ annotationSet_addSet set other -> x ∈ set \/ x ∈ other.
Proof.
  unfold annotationSet_addSet. intros Hin.
  apply simpleArrayUnion_subset in Hin. now apply elem_of_app in Hin.
Qed.

(** Where [getAnnotationIndexesFromOffset] does not rewind, its result is
    what the item at the offset carries. *)
Lemma getAnnotationIndexesFromOffset_stored (nf : NodeFactory) (d : LinearData)
    (offset : Z) (set : list nat) :
  getAnnotationIndexesFromOffset nf d offset false = Ok set ->
  isCloseElementData d offset = false \/
  (exists t, getType d offset = Ok t /\ canNodeHaveChildren nf (toKey t) = Ok true) ->
  set = storedAnnotations d offset.
Proof.
  unfold getAnnotationIndexesFromOffset, storedAnnotations. intros Hset Hstay.
  destruct ((offset <? 0) || (offset >? getLength d)); [discriminate Hset|].
  cbn [negb] in Hset. rewrite bind_Ok in Hset.
  assert (Hrewind : (Ok (isCloseElementData d offset) &&&
                     notR (t ← getType d offset; canNodeHaveChildren nf (toKey t)))
                    = Ok false).
  { destruct Hstay as [-> | (t & -> & Hchildren)]; [reflexivity|].
    rewrite !bind_Ok, Hchildren. now destruct (isCloseElementData d offset). }
  rewrite Hrewind, !bind_Ok in Hset.
  destruct (getData d offset) as [[c|c ix|e]|]; try (injection Hset as <-; reflexivity).
  destruct (annotations e); injection Hset as <-; reflexivity.
Qed.

Section AnnotationsFromRangeAll.
Variable nf : NodeFactory.
Variable d : LinearData.
Variable getComparableAnnotationsFromSet : AnnotationSet -> AnnotationSet -> AnnotationSet.
Variable range : Range.

(** No offset of the range holds the closing marker of a content node that
    cannot have children. *)
Hypothesis no_closing_leaf :
  forall o t, range_start range <= o < range_end range ->
    isCloseElementData d o = true -> getType d o = Ok t ->
    isNodeContent nf (toKey t) = Ok true -> canNodeHaveChildren nf (toKey t) = Ok true.

Lemma getAnnotationsFromRange_loop_all_stored (n : nat) :
  forall i left_ depth r,
    range_start range <= i -> i + Z.of_nat n <= range_end range ->
    (forall x, x ∈ default [] left_ -> storedInRange d range x) ->
    getAnnotationsFromRange_loop nf d getComparableAnnotationsFromSet range true
      n i left_ depth = Ok r ->
    forall x, x ∈ r -> storedInRange d range x.
Proof.
  induction n as [|n IH]; intros i left_ depth r Hi Hn Hleft Hr x Hx.
  - cbn in Hr. injection Hr as <-. now apply Hleft.
  - cbn [getAnnotationsFromRange_loop] in Hr.
    match type of Hr with
    | mbind _ ?skip = _ => destruct skip as [[skipped depth']|e] eqn:Hskip
    end; rewrite ?bind_Ok, ?bind_Throw in Hr; [|discriminate Hr].
    destruct skipped; cbn [orb] in Hr.
    { apply (IH (i + 1) left_ depth' r); try assumption; lia. }
    destruct (0 <? depth').
    { apply (IH (i + 1) left_ depth' r); try assumption; lia. }
    assert (Hstay : isCloseElementData d i = false \/
                    (exists t, getType d i = Ok t /\
                               canNodeHaveChildren nf (toKey t) = Ok true)).
    { destruct (isCloseElementData d i) eqn:Hclose; [right|now left].
      assert (Helement : isElementData d i = true).
      { unfold isCloseElementData in Hclose. unfold isElementData.
        destruct (getData d i) as [[c|c ix|e]|]; try discriminate Hclose. reflexivity. }
      rewrite Helement in Hskip.
      destruct (getType d i) as [t|err] eqn:Ht; [|discriminate Hskip].
      rewrite bind_Ok in Hskip.
      destruct (shouldIgnoreChildren nf (toKey t)) as [ignored|err]; [|discriminate Hskip].
      rewrite bind_Ok in Hskip.
      destruct (isNodeContent nf (toKey t)) as [content|err] eqn:Hcontent;
        [|discriminate Hskip].
      rewrite bind_Ok in Hskip. injection Hskip as Hneg _.
      destruct content; [|discriminate Hneg].
      exists t. split; [reflexivity|].
      apply (no_closing_leaf i t); [lia|assumption..]. }
    destruct (getAnnotationIndexesFromOffset nf d i false) as [set|e] eqn:Hset;
      destruct left_ as [l|]; rewrite ?bind_Ok, ?bind_Throw in Hr; try discriminate Hr.
    + apply (getAnnotationIndexesFromOffset_stored nf d i set Hset) in Hstay.
      cbn [andb negb] in Hr.
      destruct (negb (annotationSet_isEmpty set)).
      * apply (IH (i + 1) (Some (annotationSet_addSet l set)) depth' r); try assumption;
          [lia | lia |].
        intros y Hy. cbn in Hy. apply annotationSet_addSet_subset in Hy as [Hy | Hy].
        -- now apply Hleft.
        -- exists i. split; [lia | now rewrite <- Hstay].
      * apply (IH (i + 1) (Some l) depth' r); try assumption; lia.
    + apply (getAnnotationIndexesFromOffset_stored nf d i set Hset) in Hstay.
      destruct ((range_getLength range =? 0) || (range_getLength range =? 1)).
      * injection Hr as <-. exists i. split; [lia | now rewrite <- Hstay].
      * apply (IH (i + 1) (Some set) depth' r); try assumption; [lia | lia |].
        intros y Hy. exists i. split; [lia | now rewrite <- Hstay].
Qed.

End AnnotationsFromRangeAll.

(** X24: asked for all annotations of a range that holds no closing marker
    of a content node that cannot have children, [getAnnotationsFromRange]
    returns no annotation from outside it: every index in the result is
    carried by the item at some offset of the range. (At the closing marker of
    such a leaf the annotations are read at the nearest content offset before
    it, which need not lie in the range.) *)
Theorem getAnnotationsFromRange_all_within_range (nf : NodeFactory) (d : LinearData)
    (getComparableAnnotationsFromSet : AnnotationSet -> AnnotationSet -> AnnotationSet)
    (range : Range) (r : AnnotationSet) :
  (forall o t, range_start range <= o < range_end range ->
     isCloseElementData d o = true -> getType d o = Ok t ->
     isNodeContent nf (toKey t) = Ok true -> canNodeHaveChildren nf (toKey t) = Ok true) ->
  getAnnotationsFromRange nf d getComparableAnnotationsFromSet range true = Ok r ->
  forall index, index ∈ r -> storedInRange d range index.
Proof.
  unfold getAnnotationsFromRange. intros Hleaf Hr index Hin.
  assert (Hle : range_start range <= range_end range)
    by (unfold range_start, range_end; lia).
  apply (getAnnotationsFromRange_loop_all_stored nf d getComparableAnnotationsFromSet range
           Hleaf (Z.to_nat (range_end range - range_start range)) (range_start range)
           None 0 r);
    try assumption; [lia | lia |].
  intros x Hx. now apply elem_of_nil in Hx.
Qed.

Lemma getAnnotationsFromRange_all_within_range_witness :
  getAnnotationsFromRange exampleFactory exampleAnnotated (fun set _ => set) (mkRange 1 4) true
  = Ok [0%nat] /\
  storedInRange exampleAnnotated (mkRange 1 4) 0.
Proof.
  split; [vm_compute; reflexivity|].
  apply (getAnnotationsFromRange_all_within_range exampleFactory exampleAnnotated
           (fun set _ => set) (mkRange 1 4) [0%nat]).
  - intros o t Ho Hclose. exfalso.
    assert (Hcases : o = 1 \/ o = 2 \/ o = 3)
      by (unfold range_start, range_end in Ho; cbn [from to] in Ho; lia).
    destruct Hcases as [-> | [-> | ->]]; vm_compute in Hclose; discriminate Hclose.
  - vm_compute. reflexivity.
  - now left.
Defined.

(** With the closing marker of an inline image in the range, the result has
    an annotation that no item of the range carries: for the closing marker
    the annotations are read at the content offset that
    [getRelativeContentOffset] finds, here outside the range. *)
Example annotations_from_behind_the_range :
  getAnnotationsFromRange exampleFactory exampleLeafBeforeText (fun set _ => set)
    (mkRange 0 2) true = Ok [1%nat] /\
  storedAnnotations exampleLeafBeforeText 0 = [] /\
  storedAnnotations exampleLeafBeforeText 1 = [] /\
  getAnnotationIndexesFromOffset exampleFactory exampleLeafBeforeText 1 false = Ok [1%nat] /\
  ~ storedInRange exampleLeafBeforeText (mkRange 0 2) 1.
Proof.
  repeat split; try (vm_compute; reflexivity).
  intros (o & Ho & Hin).
  assert (Hcases : o = 0 \/ o = 1)
    by (unfold range_start, range_end in Ho; cbn [from to] in Ho; lia).
  destruct Hcases as [-> | ->]; vm_compute in Hin; now apply elem_of_nil in Hin.
Qed.

(** ** Sanitizing an empty content branch *)

(** X25: outside plain text mode, [sanitize] removes a node that can
    contain content and is empty: data made of the opening element of such a
    node and its closing marker becomes the empty data, and the store is left
    as it is. This holds where the rules neither blacklist nor convert the
    type and do not ask to keep empty content branches, for a node type that
    is not itself content and an opening element that is not marked as
    generated. *)
Theorem sanitize_removes_empty_content_branch (nf : NodeFactory)
    (modelRegistry_sanitize : string -> option (Rules -> Element -> Element))
    (getComparableAnnotationsFromSet : AnnotationSet -> AnnotationSet -> AnnotationSet)
    (rules : Rules) (store : IndexValueStore) (opening closing : Element) (c : NodeClass) :
  nf !! type opening = Some c -> canContainContent c = true -> isContent c = false ->
  startsWithSlash (type opening) = false -> type closing = "/" +:+ type opening ->
  plainText rules = false -> conversions rules = None ->
  blacklisted rules (type opening) = false ->
  keepEmptyContentBranches rules = false ->
  getProp_internal (Some (ElementItem opening)) "generated" = false ->
  sanitize nf modelRegistry_sanitize getComparableAnnotationsFromSet rules store
    [ElementItem opening; ElementItem closing]
  = Ok (store, []).
Proof.
  intros Hc Hcan Hcontent Hopen Hclose Hplain Hconv Hblack Hkeep Hgenerated.
  assert (Hso : stripSlash (type opening) = type opening) by now apply stripSlash_open.
  assert (Hsc : stripSlash (type closing) = type opening).
  { rewrite Hclose. unfold stripSlash. now rewrite startsWithSlash_slash, slice1_slash. }
  assert (Hd0 : getData [ElementItem opening; ElementItem closing] 0
                = Some (ElementItem opening)) by reflexivity.
  assert (Hd1 : getData [ElementItem opening; ElementItem closing] 1
                = Some (ElementItem closing)) by reflexivity.
  unfold sanitize.
  (* no annotations are collected from the two elements *)
  assert (Hall : getAnnotationsFromRange nf [ElementItem opening; ElementItem closing]
                   getComparableAnnotationsFromSet
                   (mkRange 0 (getLength [ElementItem opening; ElementItem closing])) true
                 = Ok []).
  { unfold getAnnotationsFromRange, range_start, range_end. cbn [from to].
    change (getLength [ElementItem opening; ElementItem closing]) with 2.
    change (Z.to_nat (Z.max 0 2 - Z.min 0 2)) with 2%nat.
    change (Z.min 0 2) with 0.
    cbn [getAnnotationsFromRange_loop]. unfold isElementData.
    rewrite Hd0, (getType_element _ _ _ Hd0), Hso, bind_Ok, toKey_Some.
    unfold shouldIgnoreChildren, isNodeContent, registered. rewrite Hc, !bind_Ok, Hcontent.
    cbn [negb orb]. change (0 + 1) with 1.
    rewrite Hd1, (getType_element _ _ _ Hd1), Hsc, bind_Ok, toKey_Some.
    rewrite Hc, !bind_Ok, Hcontent. reflexivity. }
  rewrite Hall, bind_Ok, Hplain.
  assert (Hprepared :
    (store0 ← (if removeOriginalDomElements rules
               then removeAnnotationDomElements store []
               else Ok store);
     setToRemove ← annotationSet_filter store0 (fun annotation =>
                      blacklisted rules (name annotation) ||
                      (String.eqb (name annotation) "textStyle/span" &&
                       removeOriginalDomElements rules)) [];
     Ok (store0, setToRemove)) = Ok (store, @nil nat)).
  { destruct (removeOriginalDomElements rules); reflexivity. }
  rewrite Hprepared, bind_Ok.
  change (getLength [ElementItem opening; ElementItem closing]) with 2.
  unfold sanitize_fuel. cbn [length Nat.mul Nat.add sanitize_loop ss_i ss_len].
  change (0 <? 2) with true. cbv iota.
  unfold sanitize_body. cbn [ss_data ss_i]. unfold isElementData. rewrite Hd0.
  unfold sanitize_element. cbn [ss_data ss_i ss_len ss_store ss_contentElement].
  rewrite (getType_element _ _ _ Hd0), Hso, bind_Ok, toKey_Some.
  unfold canNodeContainContent, registered. rewrite Hc, bind_Ok, Hcan, Hconv, Hplain.
  cbn [andb orb negb]. cbv beta iota zeta. rewrite Hblack, Hkeep.
  cbn [andb orb negb]. rewrite andb_false_r.
  assert (Hisopen : isOpenElementData [ElementItem opening; ElementItem closing] 0 = true).
  { unfold isOpenElementData. now rewrite Hd0, Hopen. }
  assert (Hisclose : isCloseElementData [ElementItem opening; ElementItem closing] (0 + 1)
                     = true).
  { unfold isCloseElementData. change (0 + 1) with 1.
    now rewrite Hd1, Hclose, startsWithSlash_slash. }
  rewrite Hisopen, Hisclose, Hd0, Hgenerated. cbn [andb negb]. rewrite !bind_Ok.
  cbn [sanitize_loop ss_i ss_len]. change (0 <? 2 - 2) with false. cbv iota.
  rewrite ?bind_Ok. reflexivity.
Qed.

Lemma sanitize_removes_empty_content_branch_witness :
  sanitize exampleFactory (fun _ => None) (fun set _ => set)
    {| blacklist := Some ["alienBlock"]; conversions := None;
       removeOriginalDomElements := true; plainText := false; allowBreaks := false;
       preserveHtmlWhitespace := false; nodeSanitization := true;
       keepEmptyContentBranches := false |}
    boldStore [open "heading"; close "heading"]
  = Ok (boldStore, []).
Proof.
  apply (sanitize_removes_empty_content_branch exampleFactory (fun _ => None)
           (fun set _ => set) _ boldStore (element "heading") (element "/heading")
           (nodeClass (Some ["text"; "inlineImage"]) true false)); reflexivity.
Defined.

(** ** Annotation types a node type refuses *)

(** The loop over the blacklist, entry by entry: it passes the names whose
    class the annotation is not an instance of, and stops at the first name
    that is not registered or whose class the annotation is an instance of. *)
Lemma canNodeTakeAnnotationType_loop_spec {AnnotationValue AnnotationClass : Type}
    (annotationFactory_lookup : string -> option AnnotationClass)
    (instanceOf : AnnotationValue -> AnnotationClass -> bool)
    (blacklist : list string) (annotation : AnnotationValue) :
  let passed name :=
    exists class, annotationFactory_lookup name = Some class /\
                  instanceOf annotation class = false in
  let r := canNodeTakeAnnotationType_loop annotationFactory_lookup instanceOf
             blacklist annotation in
  (r = Ok true <-> forall name, In name blacklist -> passed name) /\
  (r = Ok false <->
   exists pre name class post,
     blacklist = pre ++ name :: post /\ (forall other, In other pre -> passed other) /\
     annotationFactory_lookup name = Some class /\ instanceOf annotation class = true) /\
  (r = Throw TypeError <->
   exists pre name post,
     blacklist = pre ++ name :: post /\ (forall other, In other pre -> passed other) /\
     annotationFactory_lookup name = None).
Proof.
  cbv zeta.
  induction blacklist as [|name rest (IHtrue & IHfalse & IHthrow)];
    cbn [canNodeTakeAnnotationType_loop].
  - split; [split; [intros _ name []|reflexivity]|].
    split; (split; [discriminate|]).
    + intros (pre & name & class & post & Heq & _). now destruct pre.
    + intros (pre & name & post & Heq & _). now destruct pre.
  - destruct (annotationFactory_lookup name) as [class|] eqn:Hlookup;
      [destruct (instanceOf annotation class) eqn:Hinst|].
    + (* the annotation is an instance of the class under [name] *)
      split; [split; [discriminate|]|split; [split|split; [discriminate|]]].
      * intros H. destruct (H name (or_introl eq_refl)) as (class' & Hl & Hi). congruence.
      * intros _. exists [], name, class, rest. repeat split; [intros other []|..]; assumption.
      * reflexivity.
      * intros (pre & name' & post & Heq & Hpre & Hnone).
        destruct pre as [|first pre]; cbn in Heq; injection Heq as <- Hrest.
        -- congruence.
        -- destruct (Hpre name (or_introl eq_refl)) as (class' & Hl & Hi). congruence.
    + (* the annotation is not: the loop goes on *)
      split; [|split].
      * rewrite IHtrue. split.
        -- intros H other [<- | Hin]; [exists class; split; assumption|now apply H].
        -- intros H other Hin. apply H. now right.
      * rewrite IHfalse. split.
        -- intros (pre & name' & class' & post & -> & Hpre & Hl & Hi).
           exists (name :: pre), name', class', post. repeat split; try assumption.
           intros other [<- | Hin]; [exists class; split; assumption|now apply Hpre].
        -- intros (pre & name' & class' & post & Heq & Hpre & Hl & Hi).
           destruct pre as [|first pre]; cbn in Heq; injection Heq as <- Hrest.
           ++ congruence.
           ++ exists pre, name', class', post. repeat split; try assumption.
              intros other Hin. apply Hpre. now right.
      * rewrite IHthrow. split.
        -- intros (pre & name' & post & -> & Hpre & Hl).
           exists (name :: pre), name', post. repeat split; try assumption.
           intros other [<- | Hin]; [exists class; split; assumption|now apply Hpre].
        -- intros (pre & name' & post & Heq & Hpre & Hl).
           destruct pre as [|first pre]; cbn in Heq; injection Heq as <- Hrest.
           ++ congruence.
           ++ exists pre, name', post. repeat split; try assumption.
              intros other Hin. apply Hpre. now right.
    + (* no class is registered under [name]: [instanceof undefined] *)
      split; [split; [discriminate|]|split; [split; [discriminate|]|split]].
      * intros H. destruct (H name (or_introl eq_refl)) as (class' & Hl & Hi). congruence.
      * intros (pre & name' & class' & post & Heq & Hpre & Hl & Hi).
        destruct pre as [|first pre]; cbn in Heq; injection Heq as <- Hrest.
        -- congruence.
        -- destruct (Hpre name (or_introl eq_refl)) as (class'' & Hl' & _). congruence.
      * intros _. exists [], name, rest. repeat split; [intros other []|assumption].
      * reflexivity.
Qed.

(** X26: for a registered node type, [canNodeTakeAnnotationType] goes through
    the blacklist of the type in order. It returns true when every name on
    the blacklist is registered in the annotation factory and the annotation
    is an instance of none of their classes; it returns false at the first
    name of whose class the annotation is an instance; it raises a TypeError
    at the first name that is not registered, when it gets that far. With
    every name of the blacklist registered it does not raise, and refuses
    the annotation exactly when the annotation is an instance of the class
    under one of the names. *)
Theorem canNodeTakeAnnotationType_blacklist {AnnotationValue AnnotationClass : Type}
    (annotationFactory_lookup : string -> option AnnotationClass)
    (instanceOf : AnnotationValue -> AnnotationClass -> bool)
    (nf : NodeFactory) (type_ : string) (c : NodeClass) (annotation : AnnotationValue) :
  nf !! type_ = Some c ->
  let passed name :=
    exists class, annotationFactory_lookup name = Some class /\
                  instanceOf annotation class = false in
  let r := canNodeTakeAnnotationType annotationFactory_lookup instanceOf nf type_
             annotation in
  (r = Ok true <-> forall name, In name (blacklistedAnnotationTypes c) -> passed name) /\
  (r = Ok false <->
   exists pre name class post,
     blacklistedAnnotationTypes c = pre ++ name :: post /\
     (forall other, In other pre -> passed other) /\
     annotationFactory_lookup name = Some class /\ instanceOf annotation class = true) /\
  (r = Throw TypeError <->
   exists pre name post,
     blacklistedAnnotationTypes c = pre ++ name :: post /\
     (forall other, In other pre -> passed other) /\
     annotationFactory_lookup name = None) /\
  ((forall name, In name (blacklistedAnnotationTypes c) ->
                 is_Some (annotationFactory_lookup name)) ->
   exists b, r = Ok b /\
     (b = false <->
      exists name class, In name (blacklistedAnnotationTypes c) /\
        annotationFactory_lookup name = Some class /\
        instanceOf annotation class = true)).
Proof.
  intros Hc. cbv zeta. unfold canNodeTakeAnnotationType. rewrite Hc.
  destruct (canNodeTakeAnnotationType_loop_spec annotationFactory_lookup instanceOf
              (blacklistedAnnotationTypes c) annotation) as (Htrue & Hfalse & Hthrow).
  cbv zeta in Htrue, Hfalse, Hthrow.
  split; [exact Htrue|]. split; [exact Hfalse|]. split; [exact Hthrow|].
  intros Hall.
  destruct (canNodeTakeAnnotationType_loop annotationFactory_lookup instanceOf
              (blacklistedAnnotationTypes c) annotation) as [[|]|err] eqn:Hr.
  - exists true. split; [reflexivity|]. split; [discriminate|].
    intros (name & class & Hin & Hl & Hi).
    destruct (proj1 Htrue eq_refl name Hin) as (class' & Hl' & Hi'). congruence.
  - exists false. split; [reflexivity|]. split; [|reflexivity]. intros _.
    destruct (proj1 Hfalse eq_refl) as (pre & name & class & post & Heq & _ & Hl & Hi).
    exists name, class. repeat split; try assumption.
    rewrite Heq. apply in_or_app. right. now left.
  - exfalso.
    assert (Hout : forall (bl : list string),
               (forall name, In name bl -> is_Some (annotationFactory_lookup name)) ->
               forall e, canNodeTakeAnnotationType_loop annotationFactory_lookup instanceOf
                           bl annotation <> Throw e).
    { induction bl as [|name rest IH]; cbn [canNodeTakeAnnotationType_loop];
        intros Hreg e; [discriminate|].
      destruct (Hreg name (or_introl eq_refl)) as [class ->].
      destruct (instanceOf annotation class); [discriminate|].
      apply IH. intros other Hin. apply Hreg. now right. }
    exact (Hout _ Hall err Hr).
Qed.

Lemma canNodeTakeAnnotationType_blacklist_witness :
  (canNodeTakeAnnotationType (fun name : string => Some name) String.eqb
     (<["code" := codeClass]> exampleFactory) "code" "textStyle/italic" = Ok false <->
   exists pre name class post,
     blacklistedAnnotationTypes codeClass = pre ++ name :: post /\
     (forall other, In other pre ->
        exists class', Some other = Some class' /\
                       String.eqb "textStyle/italic" class' = false) /\
     Some name = Some class /\ String.eqb "textStyle/italic" class = true) /\
  (canNodeTakeAnnotationType
     (fun name : string => if String.eqb name "textStyle/bold" then Some name else None)
     String.eqb (<["code" := codeClass]> exampleFactory) "code" "link" = Throw TypeError <->
   exists pre name post,
     blacklistedAnnotationTypes codeClass = pre ++ name :: post /\
     (forall other, In other pre ->
        exists class', (if String.eqb other "textStyle/bold" then Some other else None)
                       = Some class' /\
                       String.eqb "link" class' = false) /\
     (if String.eqb name "textStyle/bold" then Some name else None) = None).
Proof.
  split.
  - apply (canNodeTakeAnnotationType_blacklist (fun name : string => Some name) String.eqb
             (<["code" := codeClass]> exampleFactory) "code" codeClass "textStyle/italic").
    vm_compute. reflexivity.
  - apply (canNodeTakeAnnotationType_blacklist
             (fun name : string => if String.eqb name "textStyle/bold" then Some name else None)
             String.eqb (<["code" := codeClass]> exampleFactory) "code" codeClass "link").
    vm_compute. reflexivity.
Defined.

(** A blacklist that names a class the annotation factory does not know: the
    query returns false for an annotation of a class named before it, and
    raises for every other annotation. *)
Example annotation_types_of_code :
  canNodeTakeAnnotationType
    (fun name : string => if String.eqb name "textStyle/bold" then Some name else None)
    String.eqb (<["code" := codeClass]> exampleFactory) "code" "textStyle/bold" = Ok false /\
  canNodeTakeAnnotationType
    (fun name : string => if String.eqb name "textStyle/bold" then Some name else None)
    String.eqb (<["code" := codeClass]> exampleFactory) "code" "link" = Throw TypeError /\
  canNodeTakeAnnotationType (fun name : string => Some name) String.eqb
    (<["code" := codeClass]> exampleFactory) "code" "link" = Ok true /\
  canNodeTakeAnnotationType (fun name : string => Some name) String.eqb
    exampleFactory "code" "link" = Throw (UnknownNodeType "code").
Proof. repeat split; vm_compute; reflexivity. Qed.

(** ** Sanitizing with a blacklist *)

Lemma splice_remove_one (pre post : list Item) (item : Item) :
  splice (pre ++ item :: post) (Z.of_nat (length pre)) 1 [] = pre ++ post.
Proof.
  unfold splice. rewrite Nat2Z.id. cbn [app].
  rewrite take_app_length.
  replace (length pre + Z.to_nat 1)%nat with (length pre + 1)%nat by lia.
  rewrite drop_app_add. reflexivity.
Qed.

(** Characters and elements of registered types that are not content add no
    annotations to those of a range. *)
Lemma getAnnotationsFromRange_loop_none (nf : NodeFactory) (d : LinearData)
    (getComparableAnnotationsFromSet : AnnotationSet -> AnnotationSet -> AnnotationSet)
    (range : Range) (all : bool) (n : nat) :
  forall i left_ depth,
    (forall o, i <= o < i + Z.of_nat n ->
       (exists c, getData d o = Some (Character c)) \/
       (exists e c, getData d o = Some (ElementItem e) /\
          nf !! stripSlash (type e) = Some c /\ isContent c = false)) ->
    left_ = None \/ left_ = Some [] ->
    getAnnotationsFromRange_loop nf d getComparableAnnotationsFromSet range all n i left_
      depth = Ok [].
Proof.
  induction n as [|n IH]; intros i left_ depth H Hleft.
  - destruct Hleft as [-> | ->]; reflexivity.
  - cbn [getAnnotationsFromRange_loop].
    assert (Hnext : forall l dp, l = None \/ l = Some [] ->
      getAnnotationsFromRange_loop nf d getComparableAnnotationsFromSet range all n (i + 1)
        l dp = Ok []).
    { intros l dp Hl. apply IH; [intros o Ho; apply H; lia | exact Hl]. }
    destruct (H i ltac:(lia)) as [[c Hc] | (e & c & He & Hc & Hcontent)].
    + unfold isElementData. rewrite Hc, bind_Ok. cbn [orb].
      destruct (0 <? depth); [now apply Hnext|].
      rewrite (getAnnotationIndexesFromOffset_character nf d i c false Hc).
      destruct Hleft as [-> | ->]; rewrite ?bind_Ok.
      * destruct (_ || _); [reflexivity | apply Hnext; now right].
      * cbn [annotationSet_isEmpty negb]. rewrite andb_false_r.
        destruct (negb all); [reflexivity | apply Hnext; now right].
    + unfold isElementData. rewrite He, (getType_element _ _ _ He), bind_Ok, toKey_Some.
      unfold shouldIgnoreChildren, isNodeContent, registered. rewrite Hc, !bind_Ok, Hcontent.
      cbn [negb orb]. now apply Hnext.
Qed.

Section SanitizeBlacklist.
Variable nf : NodeFactory.
Variable modelRegistry_sanitize : string -> option (Rules -> Element -> Element).
Variable rules : Rules.
Variable setToRemove : AnnotationSet.
Variable store : IndexValueStore.
Hypothesis Hplain : plainText rules = false.
Hypothesis Hconversions : conversions rules = None.

(** An element of a blacklisted type is taken out and the cursor stays. *)
Lemma sanitize_body_blacklisted (pre post : list Item) (e : Element) (c : NodeClass)
    (type_ : option string) (contentElement : option Z) :
  nf !! stripSlash (type e) = Some c ->
  blacklisted rules (stripSlash (type e)) = true ->
  startsWithSlash (type e) = true \/
  getProp_internal (getData (pre ++ post) (Z.of_nat (length pre))) "generated" = false ->
  sanitize_body nf modelRegistry_sanitize rules setToRemove
    (sanitizeAt store pre (ElementItem e :: post) type_ contentElement)
  = Ok (sanitizeAt store pre post (Some (stripSlash (type e))) contentElement).
Proof.
  intros Hc Hblack Hnext. unfold sanitize_body, sanitizeAt.
  cbn [ss_data ss_i ss_store ss_len ss_type ss_contentElement].
  pose proof (getData_middle pre post (ElementItem e)) as Hd.
  unfold isElementData. rewrite Hd.
  unfold sanitize_element.
  cbn [ss_data ss_i ss_store ss_len ss_type ss_contentElement].
  rewrite (getType_element _ _ _ Hd), bind_Ok, toKey_Some.
  unfold canNodeContainContent, registered. rewrite Hc, bind_Ok, Hconversions, Hplain.
  cbn [andb orb negb]. cbv beta iota zeta. rewrite Hblack. cbn [orb].
  rewrite splice_remove_one, isOpenElementData_middle.
  replace (negb (startsWithSlash (type e)) &&
           getProp_internal (getData (pre ++ post) (Z.of_nat (length pre))) "generated")
    with false.
  2:{ symmetry. destruct Hnext as [-> | ->]; [reflexivity | apply andb_false_r]. }
  rewrite bind_Ok. f_equal. f_equal. rewrite !length_app. cbn [length]. lia.
Qed.

End SanitizeBlacklist.

(** X27: outside plain text mode and without conversions, [sanitize]
    unwraps a node of a blacklisted type: of data made of the opening element
    of such a node, bare characters none of which is a newline, and the
    closing marker, the characters alone remain, and the store is left as it
    is. This holds for a registered type that is not content and a closing
    marker without internal data. The rules for content pasted from outside
    the editor, which blacklist alien and comment nodes, are rules of this
    kind. *)
Theorem sanitize_unwraps_blacklisted_node (nf : NodeFactory)
    (modelRegistry_sanitize : string -> option (Rules -> Element -> Element))
    (getComparableAnnotationsFromSet : AnnotationSet -> AnnotationSet -> AnnotationSet)
    (rules : Rules) (store : IndexValueStore) (opening closing : Element) (c : NodeClass)
    (chars : list string) :
  plainText rules = false -> conversions rules = None ->
  blacklisted rules (type opening) = true ->
  nf !! type opening = Some c -> isContent c = false ->
  startsWithSlash (type opening) = false -> type closing = "/" +:+ type opening ->
  internal closing = None ->
  Forall (fun ch => ch <> newline) chars ->
  sanitize nf modelRegistry_sanitize getComparableAnnotationsFromSet rules store
    (ElementItem opening :: bare chars ++ [ElementItem closing])
  = Ok (store, bare chars).
Proof.
  intros Hplain Hconv Hblack Hc Hcontent Hopen Hclose Hinternal Hchars.
  assert (Hso : stripSlash (type opening) = type opening) by now apply stripSlash_open.
  assert (Hsc : stripSlash (type closing) = type opening).
  { rewrite Hclose. unfold stripSlash. now rewrite startsWithSlash_slash, slice1_slash. }
  set (d := ElementItem opening :: bare chars ++ [ElementItem closing]).
  unfold sanitize.
  assert (Hall : getAnnotationsFromRange nf d getComparableAnnotationsFromSet
                   (mkRange 0 (getLength d)) true = Ok []).
  { unfold getAnnotationsFromRange. apply getAnnotationsFromRange_loop_none; [|now left].
    intros o Ho.
    assert (Hrange : 0 <= o < getLength d).
    { unfold range_start, range_end in Ho. cbn [from to] in Ho. unfold getLength in *. lia. }
    destruct (getData_interior d o Hrange) as [item Hitem].
    pose proof Hitem as Hin. apply getData_Some_bounds in Hin as (_ & Hin & _).
    apply list_elem_of_lookup_2 in Hin. unfold d in Hin.
    apply elem_of_cons in Hin as [-> | Hin].
    - right. exists opening, c. now rewrite Hso.
    - apply elem_of_app in Hin as [Hin | Hin].
      + left. unfold bare in Hin. apply list_elem_of_fmap in Hin as (ch & -> & _). eauto.
      + apply list_elem_of_singleton in Hin as ->. right. exists closing, c. now rewrite Hsc. }
  rewrite Hall, bind_Ok, Hplain.
  assert (Hprepared :
    (store0 ← (if removeOriginalDomElements rules
               then removeAnnotationDomElements store []
               else Ok store);
     setToRemove ← annotationSet_filter store0 (fun annotation =>
                      blacklisted rules (name annotation) ||
                      (String.eqb (name annotation) "textStyle/span" &&
                       removeOriginalDomElements rules)) [];
     Ok (store0, setToRemove)) = Ok (store, @nil nat)).
  { destruct (removeOriginalDomElements rules); reflexivity. }
  rewrite Hprepared, bind_Ok.
  change {| ss_data := d; ss_store := store; ss_i := 0; ss_len := getLength d;
            ss_type := None; ss_contentElement := None |}
    with (sanitizeAt store [] d None None).
  replace (sanitize_fuel d) with (S (length chars + S (S (2 * length chars + 4)))).
  2:{ unfold sanitize_fuel, d, bare. cbn [length].
      rewrite length_app, length_fmap. cbn [length]. lia. }
  (* the opening element *)
  cbn [sanitize_loop].
  replace (ss_i (sanitizeAt store [] d None None) <? ss_len (sanitizeAt store [] d None None))
    with true
    by (symmetry; apply Z.ltb_lt; unfold sanitizeAt, d; cbn [ss_i ss_len length app]; lia).
  unfold d at 1.
  rewrite (sanitize_body_blacklisted nf modelRegistry_sanitize rules [] store Hplain Hconv
             [] _ opening c None None); [|now rewrite Hso|now rewrite Hso|].
  2:{ right. cbn [app length]. destruct chars as [|ch chars]; [|reflexivity].
      change (getData (bare [] ++ [ElementItem closing]) (Z.of_nat 0))
        with (Some (ElementItem closing)).
      unfold getProp_internal. now rewrite Hinternal. }
  rewrite bind_Ok, Hso.
  (* the characters *)
  rewrite sanitize_loop_bare by exact Hchars. cbn [app].
  (* the closing marker *)
  cbn [sanitize_loop].
  match goal with
  | |- context [ss_i ?st <? ss_len ?st] =>
      replace (ss_i st <? ss_len st) with true
        by (symmetry; apply Z.ltb_lt; unfold sanitizeAt; cbn [ss_i ss_len];
            rewrite !length_app; cbn [length]; lia)
  end.
  rewrite (sanitize_body_blacklisted nf modelRegistry_sanitize rules [] store Hplain Hconv
             _ [] closing c _ _); [|now rewrite Hsc|now rewrite Hsc|].
  2:{ left. now rewrite Hclose, startsWithSlash_slash. }
  rewrite bind_Ok.
  match goal with
  | |- context [ss_i ?st <? ss_len ?st] =>
      replace (ss_i st <? ss_len st) with false
        by (symmetry; apply Z.ltb_ge; unfold sanitizeAt; cbn [ss_i ss_len];
            rewrite !length_app; cbn [length]; lia)
  end.
  rewrite bind_Ok. unfold sanitizeAt. cbn [ss_store ss_data].
  now rewrite app_nil_r.
Qed.

Lemma sanitize_unwraps_blacklisted_node_witness :
  sanitize exampleFactory (fun _ => None) (fun set _ => set) externalImportRules boldStore
    (open "alienBlock" :: bare ["a"; "b"] ++ [close "alienBlock"])
  = Ok (boldStore, bare ["a"; "b"]).
Proof.
  apply (sanitize_unwraps_blacklisted_node exampleFactory (fun _ => None)
           (fun set _ => set) externalImportRules boldStore (element "alienBlock")
           (element "/alienBlock") (nodeClass (Some []) false false) ["a"; "b"]);
    try reflexivity.
  repeat constructor; discriminate.
Defined.

(** ** Sanitizing away a blacklisted annotation *)

(** Away from closing markers the annotations at an offset are the ones the
    item there carries, with and without [ignoreClose]. *)
Lemma getAnnotationIndexesFromOffset_not_closing (nf : NodeFactory) (d : LinearData)
    (offset : Z) (ignoreClose : bool) :
  0 <= offset <= getLength d -> isCloseElementData d offset = false ->
  getAnnotationIndexesFromOffset nf d offset ignoreClose = Ok (storedAnnotations d offset).
Proof.
  intros Hoff Hclose. unfold getAnnotationIndexesFromOffset, storedAnnotations.
  replace ((offset <? 0) || (offset >? getLength d)) with false
    by (symmetry; apply orb_false_iff;
        split; [apply Z.ltb_ge | rewrite Z.gtb_ltb; apply Z.ltb_ge]; lia).
  rewrite Hclose. destruct (negb ignoreClose); rewrite !bind_Ok;
    (destruct (getData d offset) as [[c|c ix|e]|]; try reflexivity;
     now destruct (annotations e)).
Qed.

Lemma getData_annotatedWith (index : nat) (chars : list string) (offset : Z) :
  0 <= offset < getLength (annotatedWith index chars) ->
  exists c, getData (annotatedWith index chars) offset = Some (AnnotatedCharacter c [index]).
Proof.
  intros Hoff. destruct (getData_interior _ _ Hoff) as [item Hitem].
  pose proof Hitem as Hlookup. apply getData_Some_bounds in Hlookup as (_ & Hlookup & _).
  unfold annotatedWith in Hlookup. rewrite list_lookup_fmap in Hlookup.
  destruct (chars !! Z.to_nat offset) as [c|]; [|discriminate Hlookup].
  injection Hlookup as <-. eauto.
Qed.

Lemma annotationSet_addSet_same (index : nat) :
  annotationSet_addSet [index] [index] = [index].
Proof.
  unfold annotationSet_addSet. cbn.
  rewrite bool_decide_eq_false_2 by apply not_elem_of_nil.
  now rewrite bool_decide_eq_true_2 by apply list_elem_of_here.
Qed.

Lemma annotationSet_removeSet_same (index : nat) :
  annotationSet_removeSet [index] [index] = [].
Proof.
  unfold annotationSet_removeSet. rewrite filter_cons.
  destruct (decide (index ∉ [index])) as [Hnot | _]; [|reflexivity].
  exfalso. apply Hnot. apply list_elem_of_here.
Qed.

(** Over characters that all carry the one annotation, the annotations of a
    range are that annotation. *)
Lemma getAnnotationsFromRange_loop_annotated (nf : NodeFactory) (d : LinearData)
    (getComparableAnnotationsFromSet : AnnotationSet -> AnnotationSet -> AnnotationSet)
    (range : Range) (index : nat) (n : nat) :
  forall i,
    0 <= i -> i + Z.of_nat n <= getLength d ->
    (forall o, i <= o < i + Z.of_nat n ->
       exists c, getData d o = Some (AnnotatedCharacter c [index])) ->
    getAnnotationsFromRange_loop nf d getComparableAnnotationsFromSet range true n i
      (Some [index]) 0 = Ok [index].
Proof.
  induction n as [|n IH]; intros i Hi Hn H; [reflexivity|].
  cbn [getAnnotationsFromRange_loop]. destruct (H i ltac:(lia)) as [c Hc].
  unfold isElementData. rewrite Hc, bind_Ok. cbn [orb]. change (0 <? 0) with false.
  cbv iota.
  rewrite getAnnotationIndexesFromOffset_not_closing;
    [|lia|unfold isCloseElementData; now rewrite Hc].
  unfold storedAnnotations. rewrite Hc, bind_Ok. cbn [annotationSet_isEmpty negb andb].
  rewrite annotationSet_addSet_same. apply IH; [lia | lia |].
  intros o Ho. apply H. lia.
Qed.

Section SanitizeAnnotation.
Variable nf : NodeFactory.
Variable modelRegistry_sanitize : string -> option (Rules -> Element -> Element).
Variable rules : Rules.
Variable store : IndexValueStore.
Hypothesis Hplain : plainText rules = false.

(** A character other than a newline that carries the annotation to remove
    loses it, and the cursor moves on. *)
Lemma sanitize_body_remove_annotation (pre post : list Item) (c : string) (index : nat)
    (type_ : option string) (contentElement : option Z) :
  c <> newline ->
  sanitize_body nf modelRegistry_sanitize rules [index]
    (sanitizeAt store pre (AnnotatedCharacter c [index] :: post) type_ contentElement)
  = Ok (sanitizeAt store (pre ++ [Character c]) post type_ contentElement).
Proof.
  intros Hc. unfold sanitize_body, sanitizeAt.
  cbn [ss_data ss_i ss_store ss_len ss_type ss_contentElement].
  pose proof (getData_middle pre post (AnnotatedCharacter c [index])) as Hd.
  unfold isElementData. rewrite Hd.
  unfold sanitize_character. cbn [ss_data ss_i ss_store ss_len ss_type ss_contentElement].
  rewrite getCharacterData_annotated.
  replace (String.eqb c newline) with false
    by (symmetry; now apply String.eqb_neq).
  rewrite !bind_Ok. cbv iota. unfold sanitize_tail.
  cbn [ss_data ss_i ss_store ss_len ss_type ss_contentElement].
  rewrite getAnnotationIndexesFromOffset_ignoreClose
    by (rewrite getLength_app; cbn [length]; lia).
  rewrite Hd, bind_Ok, Hplain. cbn [annotationSet_isEmpty negb length].
  change (0 <? Z.of_nat 1) with true. cbv iota.
  rewrite annotationSet_removeSet_same.
  rewrite setAnnotationsAtOffset_nil, setAnnotationIndexesAtOffset_annotated_nil, bind_Ok.
  unfold isOpenElementData. rewrite (getData_middle pre post (Character c)), bind_Ok.
  f_equal. rewrite <- app_assoc. cbn [app].
  f_equal; rewrite ?length_app; cbn [length]; lia.
Qed.

Lemma sanitize_loop_remove_annotation (index : nat) (type_ : option string)
    (contentElement : option Z) (chars : list string) :
  forall fuel pre post,
    Forall (fun c => c <> newline) chars ->
    sanitize_loop nf modelRegistry_sanitize rules [index] (length chars + fuel)
      (sanitizeAt store pre (annotatedWith index chars ++ post) type_ contentElement)
    = sanitize_loop nf modelRegistry_sanitize rules [index] fuel
        (sanitizeAt store (pre ++ bare chars) post type_ contentElement).
Proof.
  induction chars as [|c chars IH]; intros fuel pre post Hchars.
  - cbn. now rewrite app_nil_r.
  - inversion Hchars as [|? ? Hc Hrest]; subst.
    cbn [length Nat.add annotatedWith bare fmap list_fmap app].
    cbn [sanitize_loop].
    match goal with
    | |- context [ss_i ?st <? ss_len ?st] =>
        replace (ss_i st <? ss_len st) with true
          by (symmetry; apply Z.ltb_lt; unfold sanitizeAt; cbn [ss_i ss_len];
              rewrite length_app; cbn [length]; lia)
    end.
    rewrite (sanitize_body_remove_annotation pre _ c index type_ contentElement Hc), bind_Ok.
    fold (annotatedWith index chars).
    rewrite (IH fuel (pre ++ [Character c]) post Hrest).
    now rewrite <- app_assoc.
Qed.

End SanitizeAnnotation.

(** X28: outside plain text mode, [sanitize] takes an annotation whose
    name is on the blacklist off the characters that carry it: one or more
    characters, none of them a newline, that each carry this one annotation
    become bare characters. The store keeps the annotation, where the rules
    do not ask to remove the references to the original DOM elements. The
    rules for content pasted from outside the editor blacklist the span text
    style in this way. *)
Theorem sanitize_removes_blacklisted_annotation (nf : NodeFactory)
    (modelRegistry_sanitize : string -> option (Rules -> Element -> Element))
    (getComparableAnnotationsFromSet : AnnotationSet -> AnnotationSet -> AnnotationSet)
    (rules : Rules) (store : IndexValueStore) (index : nat) (annotation : Annotation)
    (chars : list string) :
  plainText rules = false -> removeOriginalDomElements rules = false ->
  store !! index = Some annotation -> blacklisted rules (name annotation) = true ->
  chars <> [] ->
  Forall (fun c => c <> newline) chars ->
  sanitize nf modelRegistry_sanitize getComparableAnnotationsFromSet rules store
    (annotatedWith index chars)
  = Ok (store, bare chars).
Proof.
  intros Hplain Hdom Hstore Hblack Hne Hchars.
  set (d := annotatedWith index chars).
  assert (Hlen : getLength d = Z.of_nat (length chars))
    by (unfold getLength, d, annotatedWith; now rewrite length_fmap).
  assert (Hpos : 0 < Z.of_nat (length chars)) by (destruct chars; [congruence | cbn; lia]).
  unfold sanitize.
  assert (Hall : getAnnotationsFromRange nf d getComparableAnnotationsFromSet
                   (mkRange 0 (getLength d)) true = Ok [index]).
  { unfold getAnnotationsFromRange, range_start, range_end. cbn [from to].
    rewrite Z.min_l, Z.max_r, Z.sub_0_r, Hlen, Nat2Z.id by lia.
    destruct (length chars) as [|n] eqn:Hn; [lia|].
    cbn [getAnnotationsFromRange_loop].
    destruct (getData_annotatedWith index chars 0) as [c Hc]; [fold d; lia|]. fold d in Hc.
    unfold isElementData. rewrite Hc, bind_Ok. cbn [orb]. change (0 <? 0) with false.
    cbv iota.
    rewrite getAnnotationIndexesFromOffset_not_closing;
      [|lia|unfold isCloseElementData; now rewrite Hc].
    unfold storedAnnotations. rewrite Hc, bind_Ok.
    destruct (_ || _); [reflexivity|].
    apply getAnnotationsFromRange_loop_annotated; [lia | lia |].
    intros o Ho. apply (getData_annotatedWith index chars o). fold d. lia. }
  rewrite Hall, bind_Ok, Hplain, Hdom, bind_Ok.
  cbn [annotationSet_filter]. unfold store_value. rewrite Hstore, bind_Ok, Hblack.
  cbn [orb]. rewrite !bind_Ok.
  change {| ss_data := d; ss_store := store; ss_i := 0; ss_len := getLength d;
            ss_type := None; ss_contentElement := None |}
    with (sanitizeAt store [] d None None).
  rewrite <- (app_nil_r d) at 2.
  replace (sanitize_fuel d) with (length chars + S (2 * length chars))%nat
    by (unfold sanitize_fuel, d, annotatedWith; rewrite length_fmap; lia).
  unfold d. rewrite (sanitize_loop_remove_annotation nf modelRegistry_sanitize rules store
                       Hplain index None None chars _ [] [] Hchars).
  cbn [sanitize_loop app]. unfold sanitizeAt at 1 2. cbn [ss_i ss_len].
  rewrite app_nil_r, Z.ltb_irrefl, bind_Ok. unfold sanitizeAt. cbn [ss_store ss_data].
  now rewrite app_nil_r.
Qed.

Lemma sanitize_removes_blacklisted_annotation_witness :
  sanitize exampleFactory (fun _ => None) (fun set _ => set) externalImportRules spanStore
    (annotatedWith 0 ["a"; "b"])
  = Ok (spanStore, bare ["a"; "b"]).
Proof.
  apply (sanitize_removes_blacklisted_annotation exampleFactory (fun _ => None)
           (fun set _ => set) externalImportRules spanStore 0
           {| name := "textStyle/span"; annotationElement := element "textStyle/span" |}
           ["a"; "b"]); try reflexivity.
  - discriminate.
  - repeat constructor; discriminate.
Defined.

(** ** Where the cursor can be placed *)

(** X29: on data whose element types are registered, with no node whose
    children are ignored and no internal list, [getNearestCorrectOffset] from
    an offset of the data does not raise, and what it returns is an offset
    the cursor can be placed at: an offset of the data that is a content
    offset or has a slug. It returns -1 only where the data has no content
    offset and the nearest structural offset has no slug. *)
Theorem getNearestCorrectOffset_placeable (nf : NodeFactory) (d : LinearData)
    (hasSlugAtOffset : Z -> bool) (offset : Z) (direction : option Z) :
  knownTypes nf d -> noIgnoredChildren nf d -> noInternalList d ->
  0 <= offset <= getLength d ->
  exists r, getNearestCorrectOffset nf d hasSlugAtOffset offset direction = Ok r /\
    ((0 <= r <= getLength d /\
      (isContentOffset nf d r = Ok true \/ hasSlugAtOffset r = true)) \/
     (r = -1 /\
      (forall o, 0 <= o <= getLength d -> isContentOffset nf d o = Ok false) /\
      exists s, getNearestStructuralOffset nf d offset
                  (Some (if match direction with Some n => n >? 0 | None => false end
                         then 1 else -1)) true = Ok s /\
                hasSlugAtOffset s = false)).
Proof.
  intros Hknown Hignore Hinternal Hoffset. unfold getNearestCorrectOffset.
  set (dir := if match direction with Some n => n >? 0 | None => false end then 1 else -1).
  destruct (isContentOffset_is_ok nf d offset Hknown) as [valid Hvalid].
  rewrite Hvalid, bind_Ok.
  destruct valid; [exists offset; split; [reflexivity | left; split; [exact Hoffset | now left]]|].
  rewrite bind_Ok.
  destruct (hasSlugAtOffset offset) eqn:Hslug;
    [exists offset; split; [reflexivity | left; split; [exact Hoffset | now right]]|].
  destruct (getNearestContentOffset_found nf d offset (Some dir) Hknown Hignore Hinternal
              Hoffset) as (c & -> & Hc).
  destruct (getNearestStructuralOffset_found nf d offset (Some dir) true Hknown Hignore
              Hinternal Hoffset) as (s & Hs & Hsrange & _).
  rewrite Hs, !bind_Ok.
  destruct (hasSlugAtOffset s) eqn:Hsslug; cbn [negb].
  - assert (Hstruct : 0 <= s <= getLength d /\
                      (isContentOffset nf d s = Ok true \/ hasSlugAtOffset s = true))
      by (split; [exact Hsrange | now right]).
    assert (Hcontent : c <> -1 -> 0 <= c <= getLength d /\
                       (isContentOffset nf d c = Ok true \/ hasSlugAtOffset c = true)).
    { intros Hne. destruct Hc as [[-> _] | [Hrange Hcv]]; [congruence|].
      split; [exact Hrange | now left]. }
    destruct (dir =? 1).
    + destruct (c <? offset) eqn:E; [exists s; split; [reflexivity | now left]|].
      apply Z.ltb_ge in E. eexists. split; [reflexivity|]. left.
      destruct (Z.min_spec c s) as [[_ ->] | [_ ->]]; [apply Hcontent; lia | exact Hstruct].
    + destruct (c >? offset) eqn:E; [exists s; split; [reflexivity | now left]|].
      eexists. split; [reflexivity|]. left.
      destruct (Z.max_spec c s) as [[Hlt ->] | [Hle ->]]; [exact Hstruct|].
      apply Hcontent. lia.
  - exists c. split; [reflexivity|].
    destruct Hc as [[-> Hnone] | [Hrange Hcv]].
    + right. split; [reflexivity|]. split; [exact Hnone|]. exists s. now split.
    + left. split; [exact Hrange | now left].
Qed.

Lemma getNearestCorrectOffset_placeable_witness :
  exists r, getNearestCorrectOffset exampleFactory exampleParagraph (fun o => o =? 4) 0
              (Some 1) = Ok r /\
    ((0 <= r <= getLength exampleParagraph /\
      (isContentOffset exampleFactory exampleParagraph r = Ok true \/ (r =? 4) = true)) \/
     (r = -1 /\
      (forall o, 0 <= o <= getLength exampleParagraph ->
         isContentOffset exampleFactory exampleParagraph o = Ok false) /\
      exists s, getNearestStructuralOffset exampleFactory exampleParagraph 0
                  (Some (if 1 >? 0 then 1 else -1)) true = Ok s /\
                (s =? 4) = false)).
Proof.
  apply (getNearestCorrectOffset_placeable exampleFactory exampleParagraph
           (fun o => o =? 4) 0 (Some 1)).
  - reflexivity.
  - reflexivity.
  - reflexivity.
  - vm_compute. split; discriminate.
Defined.

(** ** Structural offsets *)

Lemma isStructuralOffset_interior (nf : NodeFactory) (d : LinearData) (offset : Z)
    (unrestricted : bool) (el er : Element) :
  0 < offset < getLength d ->
  getData d (offset - 1) = Some (ElementItem el) ->
  getData d offset = Some (ElementItem er) ->
  isStructuralOffset nf d offset unrestricted =
    ((Ok (startsWithSlash (type el)) &&&
      (canNodeHaveChildren nf (slice1 (type el)) |||
       notR (isNodeContent nf (slice1 (type el)))) &&&
      (Ok (negb unrestricted) |||
       (t ← getParentNodeTypes nf (slice1 (type el)); Ok (isNull t)))) |||
     (Ok (negb (startsWithSlash (type er))) &&&
      (canNodeHaveChildren nf (type er) ||| notR (isNodeContent nf (type er))) &&&
      (Ok (negb unrestricted) |||
       (t ← getParentNodeTypes nf (type er); Ok (isNull t)))) |||
     (Ok (bool_decide ("/" +:+ type el = type er)) &&&
      canNodeHaveChildrenNotContent nf (type el) &&&
      (Ok (negb unrestricted) |||
       (t ← getChildNodeTypes nf (type el); Ok (isNull t))))).
Proof.
  intros Hoff Hl Hr. unfold isStructuralOffset. rewrite Hl, Hr.
  replace ((offset =? 0) || (offset =? getLength d)) with false
    by (symmetry; apply orb_false_iff; split; apply Z.eqb_neq; lia).
  reflexivity.
Qed.

(** Between two elements of registered types the three rules come down to
    tests on the classes. *)
Lemma isStructuralOffset_elements (nf : NodeFactory) (d : LinearData) (offset : Z)
    (unrestricted : bool) (el er : Element) (cl cr : NodeClass) :
  plainTypeNames nf ->
  0 < offset < getLength d ->
  getData d (offset - 1) = Some (ElementItem el) ->
  getData d offset = Some (ElementItem er) ->
  nf !! stripSlash (type el) = Some cl ->
  nf !! stripSlash (type er) = Some cr ->
  isStructuralOffset nf d offset unrestricted =
    Ok ((startsWithSlash (type el) && classIsStructure cl &&
         (negb unrestricted || isNull (parentNodeTypes cl)))
        || (negb (startsWithSlash (type er)) && classIsStructure cr &&
            (negb unrestricted || isNull (parentNodeTypes cr)))
        || (bool_decide ("/" +:+ type el = type er) && classIsStructuralBranch cl &&
            (negb unrestricted || isNull (childNodeTypes cl)))).
Proof.
  intros Hplain Hoff Hl Hr Hcl Hcr.
  rewrite (isStructuralOffset_interior nf d offset unrestricted el er Hoff Hl Hr).
  assert (H1 :
    (Ok (startsWithSlash (type el)) &&&
     (canNodeHaveChildren nf (slice1 (type el)) |||
      notR (isNodeContent nf (slice1 (type el)))) &&&
     (Ok (negb unrestricted) |||
      (t ← getParentNodeTypes nf (slice1 (type el)); Ok (isNull t))))
    = Ok (startsWithSlash (type el) && classIsStructure cl &&
          (negb unrestricted || isNull (parentNodeTypes cl)))).
  { destruct (startsWithSlash (type el)) eqn:Sl; [|reflexivity].
    rewrite (stripSlash_close _ Sl) in Hcl. rewrite bind_Ok.
    unfold canNodeHaveChildren, isNodeContent, getParentNodeTypes, notR, registered,
      classIsStructure, classCanHaveChildren.
    rewrite Hcl, !bind_Ok.
    destruct (childNodeTypes cl) as [l|]; [destruct (0 <? Z.of_nat (length l))|];
      destruct (isContent cl), unrestricted, (parentNodeTypes cl); reflexivity. }
  assert (H2 :
    (Ok (negb (startsWithSlash (type er))) &&&
     (canNodeHaveChildren nf (type er) ||| notR (isNodeContent nf (type er))) &&&
     (Ok (negb unrestricted) |||
      (t ← getParentNodeTypes nf (type er); Ok (isNull t))))
    = Ok (negb (startsWithSlash (type er)) && classIsStructure cr &&
          (negb unrestricted || isNull (parentNodeTypes cr)))).
  { destruct (startsWithSlash (type er)) eqn:Sr; [reflexivity|].
    rewrite (stripSlash_open _ Sr) in Hcr. cbn [negb]. rewrite bind_Ok.
    unfold canNodeHaveChildren, isNodeContent, getParentNodeTypes, notR, registered,
      classIsStructure, classCanHaveChildren.
    rewrite Hcr, !bind_Ok.
    destruct (childNodeTypes cr) as [l|]; [destruct (0 <? Z.of_nat (length l))|];
      destruct (isContent cr), unrestricted, (parentNodeTypes cr); reflexivity. }
  assert (H3 :
    (Ok (bool_decide ("/" +:+ type el = type er)) &&&
     canNodeHaveChildrenNotContent nf (type el) &&&
     (Ok (negb unrestricted) |||
      (t ← getChildNodeTypes nf (type el); Ok (isNull t))))
    = Ok (bool_decide ("/" +:+ type el = type er) && classIsStructuralBranch cl &&
          (negb unrestricted || isNull (childNodeTypes cl)))).
  { destruct (bool_decide ("/" +:+ type el = type er)) eqn:Hd; [|reflexivity].
    apply bool_decide_eq_true in Hd.
    assert (Sr : startsWithSlash (type er) = true) by now rewrite <- Hd.
    rewrite (stripSlash_close _ Sr), <- Hd, slice1_slash in Hcr.
    pose proof (plainTypeNames_lookup _ _ _ Hplain Hcr) as Sl.
    rewrite (stripSlash_open _ Sl) in Hcl.
    rewrite bind_Ok.
    unfold canNodeHaveChildrenNotContent, canNodeHaveChildren, getChildNodeTypes, registered,
      classIsStructuralBranch, classCanHaveChildren.
    rewrite Hcl, !bind_Ok.
    destruct (childNodeTypes cl) as [l|]; [destruct (0 <? Z.of_nat (length l))|];
      destruct (canContainContent cl), (isContent cl), unrestricted; reflexivity. }
  rewrite H1, H2, H3, !bind_Ok.
  destruct (startsWithSlash (type el) && classIsStructure cl &&
            (negb unrestricted || isNull (parentNodeTypes cl))); [reflexivity|].
  rewrite bind_Ok.
  destruct (negb (startsWithSlash (type er)) && classIsStructure cr &&
            (negb unrestricted || isNull (parentNodeTypes cr))); reflexivity.
Qed.

(** X30: on data whose element types are all registered, in a registry
    none of whose type names starts with a slash, [isStructuralOffset] is
    true at offset 0 and at offset length, raises nowhere, and at an interior
    offset is true exactly where the left item is the closing marker of a
    type that can have children or is not content, or the right item is the
    opening element of such a type, or the left item is the opening element
    of a type that can have children but neither contains content nor is
    content and the right item is its closing marker. In unrestricted mode
    the type must in addition take any parent in the first two cases, and any
    child in the third. Next to a character the offset is not structural. *)
Theorem isStructuralOffset_characterisation (nf : NodeFactory) (d : LinearData)
    (unrestricted : bool) :
  knownTypes nf d -> plainTypeNames nf ->
  isStructuralOffset nf d 0 unrestricted = Ok true /\
  isStructuralOffset nf d (getLength d) unrestricted = Ok true /\
  forall offset, 0 < offset < getLength d ->
    exists l r,
      getData d (offset - 1) = Some l /\ getData d offset = Some r /\
      is_ok (isStructuralOffset nf d offset unrestricted) /\
      (isStructuralOffset nf d offset unrestricted = Ok true <->
       (exists t, closingMarkerOf l t /\ (exists e, r = ElementItem e) /\
          holds nf (fun c => classIsStructure c &&
                             (negb unrestricted || isNull (parentNodeTypes c))) t) \/
       (exists t, openingElementOf r t /\ (exists e, l = ElementItem e) /\
          holds nf (fun c => classIsStructure c &&
                             (negb unrestricted || isNull (parentNodeTypes c))) t) \/
       (exists t, openingElementOf l t /\ closingMarkerOf r t /\
          holds nf (fun c => classIsStructuralBranch c &&
                             (negb unrestricted || isNull (childNodeTypes c))) t)).
Proof.
  intros Hk Hplain.
  split; [reflexivity|].
  split; [unfold isStructuralOffset; now rewrite Z.eqb_refl, orb_true_r|].
  intros offset Hoff.
  destruct (getData_interior d (offset - 1)) as [l Hl]; [lia|].
  destruct (getData_interior d offset) as [r Hr]; [lia|].
  exists l, r. split; [exact Hl|]. split; [exact Hr|].
  split; [now apply isStructuralOffset_is_ok|].
  assert (Hnot : forall item, characterItem item -> l = item \/ r = item ->
    (isStructuralOffset nf d offset unrestricted = Ok true <-> False)).
  { intros item Hchar Hside.
    destruct (character_neighbour nf d offset item unrestricted Hoff) as [_ ->].
    - destruct Hside as [<- | <-]; [now left | now right].
    - exact Hchar.
    - split; [discriminate | intros []]. }
  destruct l as [cl0|cl0 il|el].
  { rewrite (Hnot (Character cl0) I (or_introl eq_refl)). split; [intros []|].
    intros [(t & (e & [=] & _) & _) | [(t & _ & (e & [=]) & _) | (t & (e & [=] & _) & _)]]. }
  { rewrite (Hnot (AnnotatedCharacter cl0 il) I (or_introl eq_refl)). split; [intros []|].
    intros [(t & (e & [=] & _) & _) | [(t & _ & (e & [=]) & _) | (t & (e & [=] & _) & _)]]. }
  destruct r as [cr0|cr0 ir|er].
  { rewrite (Hnot (Character cr0) I (or_intror eq_refl)). split; [intros []|].
    intros [(t & _ & (e & [=]) & _) | [(t & (e & [=] & _) & _) | (t & _ & (e & [=] & _) & _)]]. }
  { rewrite (Hnot (AnnotatedCharacter cr0 ir) I (or_intror eq_refl)). split; [intros []|].
    intros [(t & _ & (e & [=]) & _) | [(t & (e & [=] & _) & _) | (t & _ & (e & [=] & _) & _)]]. }
  destruct (knownTypes_getData _ _ _ _ Hk Hl) as [cl Hcl].
  destruct (knownTypes_getData _ _ _ _ Hk Hr) as [cr Hcr].
  rewrite (isStructuralOffset_elements nf d offset unrestricted el er cl cr Hplain Hoff Hl Hr
             Hcl Hcr).
  split.
  - intros [= H].
    apply orb_true_iff in H as [H | H]; [apply orb_true_iff in H as [H | H]|];
      apply andb_true_iff in H as [H H3]; apply andb_true_iff in H as [H1 H2].
    + left. exists (slice1 (type el)). split.
      * exists el. split; [reflexivity | now apply startsWithSlash_true].
      * split; [eauto|]. exists cl. rewrite <- (stripSlash_close _ H1).
        split; [exact Hcl | now rewrite H2, H3].
    + right. left. apply negb_true_iff in H1. exists (type er). split.
      * exists er. now repeat split.
      * split; [eauto|]. exists cr. rewrite <- (stripSlash_open _ H1).
        split; [exact Hcr | now rewrite H2, H3].
    + right. right. apply bool_decide_eq_true in H1.
      assert (Sr : startsWithSlash (type er) = true) by now rewrite <- H1.
      pose proof Hcr as Hcr'.
      rewrite (stripSlash_close _ Sr), <- H1, slice1_slash in Hcr'.
      pose proof (plainTypeNames_lookup _ _ _ Hplain Hcr') as Sl.
      exists (type el). split; [exists el; now repeat split|].
      split; [exists er; now split|].
      exists cl. rewrite <- (stripSlash_open _ Sl).
      split; [exact Hcl | now rewrite H2, H3].
  - intros [H | [H | H]]; f_equal.
    + destruct H as (t & (e & [= <-] & Ht) & _ & c & Hc & Hcap).
      assert (Sl : startsWithSlash (type el) = true) by now rewrite Ht.
      rewrite (stripSlash_close _ Sl), Ht, slice1_slash in Hcl.
      assert (cl = c) by congruence. subst c.
      apply andb_true_iff in Hcap as [H2 H3]. now rewrite Sl, H2, H3.
    + destruct H as (t & (e & [= <-] & Ht & Sr) & _ & c & Hc & Hcap).
      subst t. rewrite (stripSlash_open _ Sr) in Hcr.
      assert (cr = c) by congruence. subst c.
      apply andb_true_iff in Hcap as [H2 H3]. rewrite Sr, H2, H3. cbn.
      now rewrite orb_true_r.
    + destruct H as (t & (e & [= <-] & Ht & Sl) & (e' & [= <-] & Ht') & c & Hc & Hcap).
      subst t. rewrite (stripSlash_open _ Sl) in Hcl.
      assert (cl = c) by congruence. subst c.
      apply andb_true_iff in Hcap as [H2 H3].
      rewrite H2, H3, (bool_decide_eq_true_2 _ (eq_sym Ht')). cbn. now rewrite orb_true_r.
Qed.

Lemma isStructuralOffset_characterisation_witness :
  isStructuralOffset exampleFactory exampleLeaf 0 true = Ok true /\
  isStructuralOffset exampleFactory exampleLeaf (getLength exampleLeaf) true = Ok true /\
  forall offset, 0 < offset < getLength exampleLeaf ->
    exists l r,
      getData exampleLeaf (offset - 1) = Some l /\ getData exampleLeaf offset = Some r /\
      is_ok (isStructuralOffset exampleFactory exampleLeaf offset true) /\
      (isStructuralOffset exampleFactory exampleLeaf offset true = Ok true <->
       (exists t, closingMarkerOf l t /\ (exists e, r = ElementItem e) /\
          holds exampleFactory
            (fun c => classIsStructure c && (negb true || isNull (parentNodeTypes c))) t) \/
       (exists t, openingElementOf r t /\ (exists e, l = ElementItem e) /\
          holds exampleFactory
            (fun c => classIsStructure c && (negb true || isNull (parentNodeTypes c))) t) \/
       (exists t, openingElementOf l t /\ closingMarkerOf r t /\
          holds exampleFactory
            (fun c => classIsStructuralBranch c &&
                      (negb true || isNull (childNodeTypes c))) t)).
Proof.
  apply (isStructuralOffset_characterisation exampleFactory exampleLeaf true);
    vm_compute; reflexivity.
Defined.
